(** * Session state machine of the code-generation assistant

    A shallow embedding of [src/weaverbird/session/sessionState.ts]: the eight
    session-state classes, their [interact] methods, the helper
    [createFilePaths] and the bounded polling loop [CodeGenBase.generateCode].

    Asynchronous code is single threaded and cooperative, so every method is
    a function of the world it runs in.  The collaborators the module does
    not own (remote client, upload helper, file system, sanitizer, path
    library) are oracles gathered in [Env]; every call made to them and every
    object construction is appended to the world's trace. *)

From Stdlib Require Import String Ascii List Bool Arith ZArith Lia.
From Stdlib Require Strings.Byte.
Import ListNotations.
Open Scope string_scope.

(* ================================================================= *)
(** ** Thrown values *)

(** What a JavaScript [throw] may carry here: a [ToolkitError] (message and
    optional cause), the [UserMessageNotFoundError] of [../errors], or any
    other value (an SDK error, a [TypeError], ...). *)
#[warnings="-register-all"]
Inductive JsError : Type :=
| ToolkitError (message : string) (cause : option JsError)
| UserMessageNotFoundError
| ForeignError (message : string).

(** Modelled from the spec: the class [UserMessageNotFoundError] of
    [../errors] is not among the sources.  The spec lists the missing user
    message among the recognized application errors that are surfaced as they
    are, so the class is taken to extend [ToolkitError]. *)
Definition instanceof_ToolkitError (e : JsError) : bool :=
  match e with
  | ToolkitError _ _ => true
  | UserMessageNotFoundError => true
  | ForeignError _ => false
  end.

(** [ToolkitError.chain(e, message)]: a new [ToolkitError] whose cause is [e]. *)
Definition ToolkitError_chain (e : JsError) (message : string) : JsError :=
  ToolkitError message (Some e).

Inductive Outcome (A : Type) : Type :=
| Returns (a : A)
| Throws (e : JsError).
Arguments Returns {A} a.
Arguments Throws {A} e.

(* ================================================================= *)
(** ** Strings the way the source uses them *)

(** [s] begins with [needle], character by character. *)
Fixpoint starts_with (needle s : string) : bool :=
  match needle with
  | EmptyString => true
  | String a needle' =>
      match s with
      | EmptyString => false
      | String b s' => Ascii.eqb a b && starts_with needle' s'
      end
  end.

(** [hay.indexOf(needle) !== -1]. *)
Fixpoint includes (needle hay : string) : bool :=
  if starts_with needle hay then true
  else match hay with
       | EmptyString => false
       | String _ rest => includes needle rest
       end.

Fixpoint drop (n : nat) (s : string) : string :=
  match n, s with
  | O, _ => s
  | S _, EmptyString => EmptyString
  | S k, String _ rest => drop k rest
  end.

(** [s.replace(pat, rep)] with a string pattern: the first occurrence only. *)
Fixpoint replace (pat rep s : string) : string :=
  if starts_with pat s then rep ++ drop (String.length pat) s
  else match s with
       | EmptyString => EmptyString
       | String c rest => String c (replace pat rep rest)
       end.

(** Truthiness of an optional string: [undefined] and [''] are falsy. *)
Definition truthy (msg : option string) : bool :=
  match msg with
  | None => false
  | Some EmptyString => false
  | Some (String _ _) => true
  end.

(** [a ?? b]: only [undefined] is replaced. *)
Definition nullish {A : Type} (a : option A) (b : A) : A :=
  match a with
  | Some x => x
  | None => b
  end.

(** The character written [\n] in the source. *)
Definition newline : string := String "010" "".

(** [new TextEncoder().encode(s)]. *)
Definition encode (s : string) : list Byte.byte := list_byte_of_string s.

(* ================================================================= *)
(** ** Data model *)

Inductive SessionStatePhase : Type := Init | Approach | Codegen.

Definition TokenId := nat.

(** [SessionStateConfig] without the remote client, whose behaviour lives in
    [Env]. *)
Module SessionStateConfig.
Record t : Type := mk {
  conversationId : string;
  uploadId : string;
  workspaceRoot : string
}.
End SessionStateConfig.

(** [Omit<SessionStateConfig, 'uploadId'>]. *)
Module ConfigNoUpload.
Record t : Type := mk {
  conversationId : string;
  workspaceRoot : string
}.
(** [{ ...config, uploadId }] *)
Definition with_uploadId (c : t) (uploadId : string) : SessionStateConfig.t :=
  SessionStateConfig.mk (conversationId c) uploadId (workspaceRoot c).
End ConfigNoUpload.

Record NewFile : Type := mkNewFile {
  filePath : string;
  fileContent : string
}.
Definition NewFileContents := list NewFile.

Module ConversationNotStartedState.
Record t : Type := mk {
  tokenSource : TokenId;
  phase : SessionStatePhase;
  approach : string;
  tabID : string
}.
End ConversationNotStartedState.

Module PrepareRefinementState.
Record t : Type := mk {
  tokenSource : TokenId;
  phase : SessionStatePhase;
  config : ConfigNoUpload.t;
  approach : string;
  tabID : string
}.
End PrepareRefinementState.

Module RefinementState.
Record t : Type := mk {
  tokenSource : TokenId;
  conversationId : string;
  uploadId : string;
  phase : SessionStatePhase;
  config : SessionStateConfig.t;
  approach : string;
  tabID : string
}.
Definition set_approach (a : string) (s : t) : t :=
  mk (tokenSource s) (conversationId s) (uploadId s) (phase s) (config s) a (tabID s).
End RefinementState.

Module RefinementIterationState.
Record t : Type := mk {
  tokenSource : TokenId;
  phase : SessionStatePhase;
  conversationId : string;
  uploadId : string;
  config : SessionStateConfig.t;
  approach : string;
  tabID : string
}.
Definition set_approach (a : string) (s : t) : t :=
  mk (tokenSource s) (phase s) (conversationId s) (uploadId s) (config s) a (tabID s).
End RefinementIterationState.

(** The fields of the abstract base class.  Its two private fields
    [pollCount] and [requestDelay] are initialised once and never assigned:
    they are the constants below. *)
Module CodeGenBase.
Record t : Type := mk {
  tokenSource : TokenId;
  phase : SessionStatePhase;
  conversationId : string;
  uploadId : string;
  config : SessionStateConfig.t;
  tabID : string
}.
Definition pollCount : nat := 180.
Definition requestDelay : Z := 10000.
End CodeGenBase.

Module CodeGenState.
Record t : Type := mk {
  base : CodeGenBase.t;
  filePaths : list string;
  approach : string
}.
Definition set_filePaths (p : list string) (s : t) : t :=
  mk (base s) p (approach s).
End CodeGenState.

(** The class declares no [phase] property. *)
Module MockCodeGenState.
Record t : Type := mk {
  tokenSource : TokenId;
  filePaths : list string;
  conversationId : string;
  uploadId : string;
  config : SessionStateConfig.t;
  approach : string;
  tabID : string
}.
Definition set_filePaths (p : list string) (s : t) : t :=
  mk (tokenSource s) p (conversationId s) (uploadId s) (config s) (approach s) (tabID s).
End MockCodeGenState.

Module PrepareIterationState.
Record t : Type := mk {
  tokenSource : TokenId;
  phase : SessionStatePhase;
  uploadId : string;
  conversationId : string;
  config : SessionStateConfig.t;
  approach : string;
  filePaths : list string;
  tabID : string
}.
Definition set_uploadId (u : string) (s : t) : t :=
  mk (tokenSource s) (phase s) u (conversationId s) (config s) (approach s)
     (filePaths s) (tabID s).
End PrepareIterationState.

Module CodeGenIterationState.
Record t : Type := mk {
  base : CodeGenBase.t;
  approach : string;
  filePaths : list string
}.
Definition set_filePaths (p : list string) (s : t) : t :=
  mk (base s) (approach s) p.
End CodeGenIterationState.

(** Any object that implements [SessionState]. *)
Inductive SessionState : Type :=
| StConversationNotStarted (s : ConversationNotStartedState.t)
| StPrepareRefinement (s : PrepareRefinementState.t)
| StRefinement (s : RefinementState.t)
| StRefinementIteration (s : RefinementIterationState.t)
| StCodeGen (s : CodeGenState.t)
| StMockCodeGen (s : MockCodeGenState.t)
| StPrepareIteration (s : PrepareIterationState.t)
| StCodeGenIteration (s : CodeGenIterationState.t).

Inductive StateClass : Type :=
| ConversationNotStarted | PrepareRefinement | Refinement | RefinementIteration
| CodeGen | MockCodeGen | PrepareIteration | CodeGenIteration.

Definition class_of (s : SessionState) : StateClass :=
  match s with
  | StConversationNotStarted _ => ConversationNotStarted
  | StPrepareRefinement _ => PrepareRefinement
  | StRefinement _ => Refinement
  | StRefinementIteration _ => RefinementIteration
  | StCodeGen _ => CodeGen
  | StMockCodeGen _ => MockCodeGen
  | StPrepareIteration _ => PrepareIteration
  | StCodeGenIteration _ => CodeGenIteration
  end.

(** Reading [state.phase]: the property of the object, [undefined] where the
    class has none. *)
Definition phase_of (s : SessionState) : option SessionStatePhase :=
  match s with
  | StConversationNotStarted s => Some (ConversationNotStartedState.phase s)
  | StPrepareRefinement s => Some (PrepareRefinementState.phase s)
  | StRefinement s => Some (RefinementState.phase s)
  | StRefinementIteration s => Some (RefinementIterationState.phase s)
  | StCodeGen s => Some (CodeGenBase.phase (CodeGenState.base s))
  | StMockCodeGen _ => None
  | StPrepareIteration s => Some (PrepareIterationState.phase s)
  | StCodeGenIteration s => Some (CodeGenBase.phase (CodeGenIterationState.base s))
  end.

Definition tokenSource_of (s : SessionState) : TokenId :=
  match s with
  | StConversationNotStarted s => ConversationNotStartedState.tokenSource s
  | StPrepareRefinement s => PrepareRefinementState.tokenSource s
  | StRefinement s => RefinementState.tokenSource s
  | StRefinementIteration s => RefinementIterationState.tokenSource s
  | StCodeGen s => CodeGenBase.tokenSource (CodeGenState.base s)
  | StMockCodeGen s => MockCodeGenState.tokenSource s
  | StPrepareIteration s => PrepareIterationState.tokenSource s
  | StCodeGenIteration s => CodeGenBase.tokenSource (CodeGenIterationState.base s)
  end.

Definition approach_of (s : SessionState) : string :=
  match s with
  | StConversationNotStarted s => ConversationNotStartedState.approach s
  | StPrepareRefinement s => PrepareRefinementState.approach s
  | StRefinement s => RefinementState.approach s
  | StRefinementIteration s => RefinementIterationState.approach s
  | StCodeGen s => CodeGenState.approach s
  | StMockCodeGen s => MockCodeGenState.approach s
  | StPrepareIteration s => PrepareIterationState.approach s
  | StCodeGenIteration s => CodeGenIterationState.approach s
  end.

(** [SessionStateAction]: the messenger and the virtual file system it also
    carries are collaborators, reached through the trace. *)
Record SessionStateAction : Type := mkAction {
  msg : option string
}.

Record Interaction : Type := mkInteraction {
  content : option string
}.

Record SessionStateInteraction : Type := mkSSI {
  nextState : SessionState;
  interaction : Interaction
}.

Record CodeGeneration : Type := mkCodeGeneration {
  newFiles : NewFileContents;
  newFilePaths : list string
}.

Record RepoData : Type := mkRepoData {
  zipFileBuffer : string;
  zipFileChecksum : string
}.

Record UploadUrl : Type := mkUploadUrl {
  uploadUrl : string;
  upl_uploadId : string;
  kmsKeyArn : option string
}.

(* ================================================================= *)
(** ** Worlds, environments and traces *)

Inductive Event : Type :=
| EvNew (s : SessionState)
| EvPrepareRepoData (workspaceRoot conversationId : string)
| EvCreateUploadUrl (conversationId checksum : string)
| EvUploadCode (url buffer : string) (kms : option string)
| EvGeneratePlan (conversationId uploadId message : string)
| EvStartCodeGeneration (conversationId uploadId : string) (message : option string)
| EvGetCodeGeneration (conversationId codeGenerationId : string)
| EvExportResultArchive (conversationId : string)
| EvSetTimeout (ms : Z)
| EvRegisterProvider (scheme path : string) (contents : list Byte.byte)
| EvStat (path : string)
| EvCollectFiles (dir : string) (flag : bool)
| EvSendAnswer (message : option string) (type tabID : string)
| EvTelemetryEmit (metric conversationId : string)
| EvSpanRecord (metric conversationId : string)
| EvLoggerInfo (text : string)
| EvLoggerError (text : string).

(** Calls that leave the process for the remote service. *)
Definition is_remote_call (e : Event) : bool :=
  match e with
  | EvCreateUploadUrl _ _ | EvUploadCode _ _ _ | EvGeneratePlan _ _ _
  | EvStartCodeGeneration _ _ _ | EvGetCodeGeneration _ _
  | EvExportResultArchive _ => true
  | _ => false
  end.

Definition is_poll (e : Event) : bool :=
  match e with EvGetCodeGeneration _ _ => true | _ => false end.

Definition is_sleep (e : Event) : bool :=
  match e with EvSetTimeout _ => true | _ => false end.

Definition is_register (e : Event) : bool :=
  match e with EvRegisterProvider _ _ _ => true | _ => false end.

(** The state objects built along a trace, oldest first. *)
Definition built (events : list Event) : list SessionState :=
  flat_map (fun e => match e with EvNew s => [s] | _ => [] end) events.

(** The mutable part: [clock] counts the awaits that have completed, [polls]
    the status queries made so far, [nextId] the cancellation token sources
    allocated so far. *)
Record World : Type := mkWorld {
  clock : nat;
  polls : nat;
  nextId : nat;
  trace : list Event
}.

(** The collaborators.  Replies of awaited calls may depend on the time of
    the call and on its arguments; status queries are numbered.  A token is
    cancelled from the outside at most once, at the time [cancelAt] gives. *)
Record Env : Type := mkEnv {
  path_join : string -> string -> string;
  sanitizeHtml : string -> string;
  weaverbirdScheme : string;
  randomUUID : nat -> string;
  cancelAt : TokenId -> option nat;
  prepareRepoData : nat -> string -> string -> Outcome RepoData;
  createUploadUrl : nat -> string -> string -> Outcome UploadUrl;
  uploadCode : nat -> string -> string -> option string -> Outcome unit;
  generatePlan : nat -> string -> string -> string -> Outcome (option string);
  startCodeGeneration : nat -> string -> string -> option string -> Outcome string;
  getCodeGeneration : nat -> string -> string -> Outcome string;
  exportResultArchive : nat -> string -> Outcome NewFileContents;
  stat : nat -> string -> Outcome bool;
  collectFiles : nat -> string -> bool -> Outcome NewFileContents
}.

(* ================================================================= *)
(** ** A state and exception monad *)

Definition M (St A : Type) : Type := St -> Outcome A * St.

Definition ret {St A : Type} (a : A) : M St A := fun s => (Returns a, s).

Definition throw {St A : Type} (e : JsError) : M St A := fun s => (Throws e, s).

Definition bind {St A B : Type} (m : M St A) (k : A -> M St B) : M St B :=
  fun s =>
    match m s with
    | (Returns a, s') => k a s'
    | (Throws e, s') => (Throws e, s')
    end.

(** [try { body } catch (e) { handler }]: what [body] did before throwing
    stays done. *)
Definition try_catch {St A : Type} (body : M St A) (handler : JsError -> M St A)
  : M St A :=
  fun s =>
    match body s with
    | (Returns a, s') => (Returns a, s')
    | (Throws e, s') => handler e s'
    end.

Declare Scope js_scope.
Delimit Scope js_scope with js.
Notation "x <- m ;; k" := (bind m (fun x => k))
  (at level 61, m at next level, right associativity) : js_scope.
Notation "m ;;; k" := (bind m (fun _ => k))
  (at level 61, right associativity) : js_scope.
Open Scope js_scope.

(** Functions run on the world; methods run on their receiver and the world. *)
Definition Fn (A : Type) : Type := M World A.
Definition Method (T A : Type) : Type := M (T * World) A.

Definition liftW {T A : Type} (m : Fn A) : Method T A :=
  fun tw => let (o, w') := m (snd tw) in (o, (fst tw, w')).

Definition getThis {T : Type} : Method T T := fun tw => (Returns (fst tw), tw).

Definition modifyThis {T : Type} (f : T -> T) : Method T unit :=
  fun tw => (Returns tt, (f (fst tw), snd tw)).

(** [obj.method(...)] called from within another object's method. *)
Definition call {T U A : Type} (obj : U) (m : Method U A) : Method T A :=
  fun tw => let '(o, (_, w')) := m (obj, snd tw) in (o, (fst tw, w')).

Definition emit (e : Event) : Fn unit :=
  fun w => (Returns tt, mkWorld (clock w) (polls w) (nextId w) (trace w ++ [e])).

(** An awaited call: the event is recorded, the reply arrives, time passes. *)
Definition await {A : Type} (e : Event) (reply : nat -> Outcome A) : Fn A :=
  fun w => (reply (clock w),
            mkWorld (S (clock w)) (polls w) (nextId w) (trace w ++ [e])).

(** [new vscode.CancellationTokenSource()] *)
Definition new_CancellationTokenSource : Fn TokenId :=
  fun w => (Returns (nextId w),
            mkWorld (clock w) (polls w) (S (nextId w)) (trace w)).

(** How an iteration of a loop ends: go on, or [return] from the function. *)
Inductive LoopStep (A : Type) : Type :=
| Continue
| Return (a : A).
Arguments Continue {A}.
Arguments Return {A} a.

Section WithEnv.

Variable env : Env.

(** [tokenSource.token.isCancellationRequested] *)
Definition cancelled_at (tok : TokenId) (time : nat) : bool :=
  match cancelAt env tok with
  | Some t => (t <=? time)%nat
  | None => false
  end.

Definition isCancellationRequested (tok : TokenId) : Fn bool :=
  fun w => (Returns (cancelled_at tok (clock w)), w).

(** The status query, numbered by [polls]. *)
Definition proxy_getCodeGeneration (conversationId codeGenerationId : string)
  : Fn string :=
  fun w => (getCodeGeneration env (polls w) conversationId codeGenerationId,
            mkWorld (S (clock w)) (S (polls w)) (nextId w)
                    (trace w ++ [EvGetCodeGeneration conversationId codeGenerationId])).

(* ================================================================= *)
(** ** createFilePaths *)

(** Modelled from the spec: [VirtualFileSystem.registerProvider] is not among
    the sources; the spec makes it an idempotent registration that overwrites,
    so the call is recorded, with the scheme and path of its URI and the
    bytes of the file, and never fails. *)
Definition registerProvider (scheme path : string) (contents : list Byte.byte)
  : Fn unit :=
  emit (EvRegisterProvider scheme path contents).

(** The [for ... of] loop, with the paths pushed so far. *)
Fixpoint createFilePaths_from (filePaths : list string)
    (newFileContents : NewFileContents) (uploadId conversationId : string)
  : Fn (list string) :=
  match newFileContents with
  | [] => ret filePaths
  | f :: rest =>
      let contents := encode (fileContent f) in
      let generationFilePath := path_join env uploadId (filePath f) in
      registerProvider (weaverbirdScheme env) generationFilePath contents ;;;
      emit (EvTelemetryEmit "awsq_filesChanged" conversationId) ;;;
      createFilePaths_from (filePaths ++ [filePath f]) rest uploadId conversationId
  end.

Definition createFilePaths (newFileContents : NewFileContents)
    (uploadId conversationId : string) : Fn (list string) :=
  createFilePaths_from [] newFileContents uploadId conversationId.

(* ================================================================= *)
(** ** CodeGenBase.generateCode *)

(** The body of the polling loop: one status query and the [switch] on it. *)
Definition generateCode_body (this : CodeGenBase.t) (codeGenerationId : string)
  : Fn (LoopStep CodeGeneration) :=
  status <- proxy_getCodeGeneration (CodeGenBase.conversationId this) codeGenerationId ;;
  emit (EvLoggerInfo ("Codegen response: " ++ status)) ;;;
  if status =? "Complete" then
    newFiles <- await (EvExportResultArchive (CodeGenBase.conversationId this))
                      (fun t => exportResultArchive env t (CodeGenBase.conversationId this)) ;;
    newFilePaths <- createFilePaths newFiles (CodeGenBase.uploadId this)
                                    (CodeGenBase.conversationId this) ;;
    ret (Return (mkCodeGeneration newFiles newFilePaths))
  else if (status =? "predict-ready") || (status =? "InProgress") then
    await (EvSetTimeout CodeGenBase.requestDelay) (fun _ => Returns tt) ;;;
    ret Continue
  else if (status =? "predict-failed") || (status =? "debate-failed")
          || (status =? "Failed") then
    throw (ToolkitError "Code generation failed" None)
  else
    let errorMessage := "Unknown status: " ++ status ++ newline in
    throw (ToolkitError errorMessage None).

(** The [for] loop, by recursion on [pollCount - pollingIteration].  [None]
    is leaving the loop through its condition, [Some r] through [return]. *)
Fixpoint generateCode_loop (this : CodeGenBase.t) (codeGenerationId : string)
    (remaining : nat) : Fn (option CodeGeneration) :=
  match remaining with
  | O => ret None
  | S remaining' =>
      c <- isCancellationRequested (CodeGenBase.tokenSource this) ;;
      if c then ret None
      else
        step <- generateCode_body this codeGenerationId ;;
        match step with
        | Return r => ret (Some r)
        | Continue => generateCode_loop this codeGenerationId remaining'
        end
  end.

Definition generateCode (this : CodeGenBase.t) (codeGenerationId : string)
  : Fn CodeGeneration :=
  r <- generateCode_loop this codeGenerationId CodeGenBase.pollCount ;;
  match r with
  | Some result => ret result
  | None =>
      c <- isCancellationRequested (CodeGenBase.tokenSource this) ;;
      if negb c then
        let errorMessage := "Code generation did not finish withing the expected time" in
        throw (ToolkitError errorMessage None)
      else ret (mkCodeGeneration [] [])
  end.

(* ================================================================= *)
(** ** Constructors *)

(** Each constructor allocates the state's own cancellation token source;
    the finished object is recorded in the trace. *)

Definition new_ConversationNotStartedState (approach tabID : string)
  : Fn ConversationNotStartedState.t :=
  tok <- new_CancellationTokenSource ;;
  let this := ConversationNotStartedState.mk tok Init "" tabID in
  emit (EvNew (StConversationNotStarted this)) ;;;
  ret this.

Definition new_PrepareRefinementState (config : ConfigNoUpload.t)
    (approach tabID : string) : Fn PrepareRefinementState.t :=
  tok <- new_CancellationTokenSource ;;
  let this := PrepareRefinementState.mk tok Approach config approach tabID in
  emit (EvNew (StPrepareRefinement this)) ;;;
  ret this.

Definition new_RefinementState (config : SessionStateConfig.t)
    (approach tabID : string) : Fn RefinementState.t :=
  tok <- new_CancellationTokenSource ;;
  let this :=
    RefinementState.mk tok (SessionStateConfig.conversationId config)
      (SessionStateConfig.uploadId config) Approach config approach tabID in
  emit (EvNew (StRefinement this)) ;;;
  ret this.

Definition new_RefinementIterationState (config : SessionStateConfig.t)
    (approach tabID : string) : Fn RefinementIterationState.t :=
  tok <- new_CancellationTokenSource ;;
  let this :=
    RefinementIterationState.mk tok Approach
      (SessionStateConfig.conversationId config)
      (SessionStateConfig.uploadId config) config approach tabID in
  emit (EvNew (StRefinementIteration this)) ;;;
  ret this.

Definition new_CodeGenBase (config : SessionStateConfig.t) (tabID : string)
  : Fn CodeGenBase.t :=
  tok <- new_CancellationTokenSource ;;
  ret (CodeGenBase.mk tok Codegen (SessionStateConfig.conversationId config)
         (SessionStateConfig.uploadId config) config tabID).

Definition new_CodeGenState (config : SessionStateConfig.t)
    (approach tabID : string) : Fn CodeGenState.t :=
  super <- new_CodeGenBase config tabID ;;
  let this := CodeGenState.mk super [] approach in
  emit (EvNew (StCodeGen this)) ;;;
  ret this.

Definition new_MockCodeGenState (config : SessionStateConfig.t)
    (approach tabID : string) : Fn MockCodeGenState.t :=
  tok <- new_CancellationTokenSource ;;
  let this :=
    MockCodeGenState.mk tok [] (SessionStateConfig.conversationId config)
      (randomUUID env tok) config approach tabID in
  emit (EvNew (StMockCodeGen this)) ;;;
  ret this.

Definition new_PrepareIterationState (config : SessionStateConfig.t)
    (approach : string) (filePaths : list string) (tabID : string)
  : Fn PrepareIterationState.t :=
  tok <- new_CancellationTokenSource ;;
  let this :=
    PrepareIterationState.mk tok Codegen (SessionStateConfig.uploadId config)
      (SessionStateConfig.conversationId config) config approach filePaths tabID in
  emit (EvNew (StPrepareIteration this)) ;;;
  ret this.

Definition new_CodeGenIterationState (config : SessionStateConfig.t)
    (approach : string) (filePaths : list string) (tabID : string)
  : Fn CodeGenIterationState.t :=
  super <- new_CodeGenBase config tabID ;;
  let this := CodeGenIterationState.mk super approach filePaths in
  emit (EvNew (StCodeGenIteration this)) ;;;
  ret this.

(** [new C(...)] for any of the eight classes [C]; what a class's
    constructor does not take is left aside. *)
Definition new_SessionState (c : StateClass) (config : SessionStateConfig.t)
    (approach : string) (filePaths : list string) (tabID : string) : Fn SessionState :=
  match c with
  | ConversationNotStarted =>
      s <- new_ConversationNotStartedState approach tabID ;; ret (StConversationNotStarted s)
  | PrepareRefinement =>
      s <- new_PrepareRefinementState
             (ConfigNoUpload.mk (SessionStateConfig.conversationId config)
                                (SessionStateConfig.workspaceRoot config))
             approach tabID ;;
      ret (StPrepareRefinement s)
  | Refinement =>
      s <- new_RefinementState config approach tabID ;; ret (StRefinement s)
  | RefinementIteration =>
      s <- new_RefinementIterationState config approach tabID ;; ret (StRefinementIteration s)
  | CodeGen =>
      s <- new_CodeGenState config approach tabID ;; ret (StCodeGen s)
  | MockCodeGen =>
      s <- new_MockCodeGenState config approach tabID ;; ret (StMockCodeGen s)
  | PrepareIteration =>
      s <- new_PrepareIterationState config approach filePaths tabID ;;
      ret (StPrepareIteration s)
  | CodeGenIteration =>
      s <- new_CodeGenIterationState config approach filePaths tabID ;;
      ret (StCodeGenIteration s)
  end.

(* ================================================================= *)
(** ** interact *)

Definition approach_fallback : string :=
  "There has been a problem generating an approach. Please open a conversation in a new tab".

(** [if (!action.msg) { throw new UserMessageNotFoundError() }], after which
    [action.msg] is a non-empty string. *)
Definition require_msg {T : Type} (action : SessionStateAction) : Method T string :=
  match msg action with
  | Some (String c rest) => ret (String c rest)
  | _ => throw UserMessageNotFoundError
  end.

(** [throw e instanceof ToolkitError ? e : ToolkitError.chain(e, 'Server side error')] *)
Definition rethrow_server_side {T A : Type} (e : JsError) : Method T A :=
  throw (if instanceof_ToolkitError e then e
         else ToolkitError_chain e "Server side error").

(** [telemetry.<metric>.run(fn)] runs [fn] and passes its result or its
    failure on. *)
Definition telemetry_run {T A : Type} (metric : string) (fn : Method T A)
  : Method T A := fn.

Definition sendAnswer {T : Type} (message type tabID : string) : Method T unit :=
  liftW (emit (EvSendAnswer (Some message) type tabID)).

Definition ConversationNotStartedState_interact (action : SessionStateAction)
  : Method ConversationNotStartedState.t SessionStateInteraction :=
  throw (ToolkitError "Illegal transition between states, restart the conversation" None).

Definition RefinementState_interact (action : SessionStateAction)
  : Method RefinementState.t SessionStateInteraction :=
  telemetry_run "awsq_approachInvoke"
    (try_catch
       (this <- getThis ;;
        liftW (emit (EvSpanRecord "awsq_approachInvoke" (RefinementState.conversationId this))) ;;;
        message <- require_msg action ;;
        let config := RefinementState.config this in
        approach <- liftW (await
          (EvGeneratePlan (SessionStateConfig.conversationId config)
                          (SessionStateConfig.uploadId config) message)
          (fun t => generatePlan env t (SessionStateConfig.conversationId config)
                                 (SessionStateConfig.uploadId config) message)) ;;
        modifyThis (RefinementState.set_approach
                      (sanitizeHtml env (nullish approach approach_fallback))) ;;;
        this <- getThis ;;
        next <- liftW (new_RefinementIterationState
                  (SessionStateConfig.mk (RefinementState.conversationId this)
                     (SessionStateConfig.uploadId config)
                     (SessionStateConfig.workspaceRoot config))
                  (RefinementState.approach this) (RefinementState.tabID this)) ;;
        ret (mkSSI (StRefinementIteration next)
                   (mkInteraction (Some (RefinementState.approach this ++ newline)))))
       (fun e => rethrow_server_side e)).

Definition PrepareRefinementState_interact (action : SessionStateAction)
  : Method PrepareRefinementState.t SessionStateInteraction :=
  this <- getThis ;;
  let config := PrepareRefinementState.config this in
  repo <- liftW (await
    (EvPrepareRepoData (ConfigNoUpload.workspaceRoot config)
                       (ConfigNoUpload.conversationId config))
    (fun t => prepareRepoData env t (ConfigNoUpload.workspaceRoot config)
                              (ConfigNoUpload.conversationId config))) ;;
  upload <- liftW (await
    (EvCreateUploadUrl (ConfigNoUpload.conversationId config) (zipFileChecksum repo))
    (fun t => createUploadUrl env t (ConfigNoUpload.conversationId config)
                              (zipFileChecksum repo))) ;;
  liftW (await
    (EvUploadCode (uploadUrl upload) (zipFileBuffer repo) (kmsKeyArn upload))
    (fun t => uploadCode env t (uploadUrl upload) (zipFileBuffer repo)
                         (kmsKeyArn upload))) ;;;
  nextState <- liftW (new_RefinementState
                 (ConfigNoUpload.with_uploadId config (upl_uploadId upload))
                 (PrepareRefinementState.approach this)
                 (PrepareRefinementState.tabID this)) ;;
  call nextState (RefinementState_interact action).

Definition MockCodeGenState_interact (action : SessionStateAction)
  : Method MockCodeGenState.t SessionStateInteraction :=
  this <- getThis ;;
  let config := MockCodeGenState.config this in
  let mockedFilesDir :=
    path_join env (SessionStateConfig.workspaceRoot config) "./mock-data" in
  try_catch
    (mockDirectoryExists <- liftW (await (EvStat mockedFilesDir)
                                     (fun t => stat env t mockedFilesDir)) ;;
     if (mockDirectoryExists : bool) then
       files <- liftW (await (EvCollectFiles mockedFilesDir false)
                         (fun t => collectFiles env t mockedFilesDir false)) ;;
       let newFileContents :=
         map (fun f => mkNewFile (replace "mock-data/" "" (filePath f))
                                 (fileContent f)) files in
       paths <- liftW (createFilePaths newFileContents
                         (MockCodeGenState.uploadId this)
                         (MockCodeGenState.conversationId this)) ;;
       modifyThis (MockCodeGenState.set_filePaths paths)
     else ret tt)
    (fun e => liftW (emit (EvLoggerError "Unable to use mock code generation: %O"))) ;;;
  this <- getThis ;;
  next <- liftW (new_RefinementState
            (SessionStateConfig.mk (MockCodeGenState.conversationId this)
               (SessionStateConfig.uploadId config)
               (SessionStateConfig.workspaceRoot config))
            (MockCodeGenState.approach this) (MockCodeGenState.tabID this)) ;;
  ret (mkSSI (StRefinement next) (mkInteraction None)).

Definition RefinementIterationState_interact (action : SessionStateAction)
  : Method RefinementIterationState.t SessionStateInteraction :=
  this <- getThis ;;
  let config := RefinementIterationState.config this in
  if truthy (msg action) && includes "MOCK CODE" (nullish (msg action) "") then
    mock <- liftW (new_MockCodeGenState config
              (RefinementIterationState.approach this)
              (RefinementIterationState.tabID this)) ;;
    call mock (MockCodeGenState_interact action)
  else
    message <- require_msg action ;;
    liftW (emit (EvTelemetryEmit "awsq_approach"
                   (RefinementIterationState.conversationId this))) ;;;
    approach <- liftW (await
      (EvGeneratePlan (SessionStateConfig.conversationId config)
                      (SessionStateConfig.uploadId config) message)
      (fun t => generatePlan env t (SessionStateConfig.conversationId config)
                             (SessionStateConfig.uploadId config) message)) ;;
    modifyThis (RefinementIterationState.set_approach
                  (sanitizeHtml env (nullish approach approach_fallback))) ;;;
    this <- getThis ;;
    next <- liftW (new_RefinementIterationState config
              (RefinementIterationState.approach this)
              (RefinementIterationState.tabID this)) ;;
    ret (mkSSI (StRefinementIteration next)
               (mkInteraction (Some (RefinementIterationState.approach this ++ newline)))).

Definition CodeGenState_interact (action : SessionStateAction)
  : Method CodeGenState.t SessionStateInteraction :=
  this <- getThis ;;
  let config := CodeGenBase.config (CodeGenState.base this) in
  let tabID := CodeGenBase.tabID (CodeGenState.base this) in
  liftW (emit (EvTelemetryEmit "awsq_isApproachAccepted"
                 (SessionStateConfig.conversationId config))) ;;;
  telemetry_run "awsq_codeGenerationInvoke"
    (try_catch
       (liftW (emit (EvSpanRecord "awsq_codeGenerationInvoke"
                       (SessionStateConfig.conversationId config))) ;;;
        sendAnswer "Uploading code ..." "answer-part" tabID ;;;
        codeGenerationId <- liftW (await
          (EvStartCodeGeneration (SessionStateConfig.conversationId config)
                                 (SessionStateConfig.uploadId config) None)
          (fun t => startCodeGeneration env t (SessionStateConfig.conversationId config)
                                        (SessionStateConfig.uploadId config) None)) ;;
        sendAnswer "Generating code ..." "answer-part" tabID ;;;
        codeGeneration <- liftW (generateCode (CodeGenState.base this) codeGenerationId) ;;
        modifyThis (CodeGenState.set_filePaths (newFilePaths codeGeneration)) ;;;
        this <- getThis ;;
        nextState <- liftW (new_PrepareIterationState config
                       (CodeGenState.approach this) (CodeGenState.filePaths this) tabID) ;;
        liftW (emit (EvSpanRecord "awsq_codeGenerationInvoke"
                       (SessionStateConfig.conversationId config))) ;;;
        ret (mkSSI (StPrepareIteration nextState) (mkInteraction None)))
       (fun e =>
          liftW (emit (EvSpanRecord "awsq_codeGenerationInvoke"
                         (SessionStateConfig.conversationId config))) ;;;
          rethrow_server_side e)).

Definition CodeGenIterationState_interact (action : SessionStateAction)
  : Method CodeGenIterationState.t SessionStateInteraction :=
  this <- getThis ;;
  let config := CodeGenBase.config (CodeGenIterationState.base this) in
  let tabID := CodeGenBase.tabID (CodeGenIterationState.base this) in
  liftW (emit (EvTelemetryEmit "awsq_codeReGeneration"
                 (SessionStateConfig.conversationId config))) ;;;
  sendAnswer "Uploading code ..." "answer-part" tabID ;;;
  codeGenerationId <- liftW (await
    (EvStartCodeGeneration (SessionStateConfig.conversationId config)
                           (SessionStateConfig.uploadId config) (msg action))
    (fun t => startCodeGeneration env t (SessionStateConfig.conversationId config)
                                  (SessionStateConfig.uploadId config) (msg action))) ;;
  sendAnswer "Generating code ..." "answer-part" tabID ;;;
  codeGeneration <- liftW (generateCode (CodeGenIterationState.base this) codeGenerationId) ;;
  modifyThis (CodeGenIterationState.set_filePaths (newFilePaths codeGeneration)) ;;;
  this <- getThis ;;
  next <- liftW (new_PrepareIterationState config
            (CodeGenIterationState.approach this)
            (CodeGenIterationState.filePaths this) tabID) ;;
  ret (mkSSI (StPrepareIteration next) (mkInteraction None)).

Definition PrepareIterationState_interact (action : SessionStateAction)
  : Method PrepareIterationState.t SessionStateInteraction :=
  this <- getThis ;;
  let config := PrepareIterationState.config this in
  repo <- liftW (await
    (EvPrepareRepoData (SessionStateConfig.workspaceRoot config)
                       (PrepareIterationState.conversationId this))
    (fun t => prepareRepoData env t (SessionStateConfig.workspaceRoot config)
                              (PrepareIterationState.conversationId this))) ;;
  upload <- liftW (await
    (EvCreateUploadUrl (SessionStateConfig.conversationId config) (zipFileChecksum repo))
    (fun t => createUploadUrl env t (SessionStateConfig.conversationId config)
                              (zipFileChecksum repo))) ;;
  modifyThis (PrepareIterationState.set_uploadId (upl_uploadId upload)) ;;;
  liftW (await
    (EvUploadCode (uploadUrl upload) (zipFileBuffer repo) (kmsKeyArn upload))
    (fun t => uploadCode env t (uploadUrl upload) (zipFileBuffer repo)
                         (kmsKeyArn upload))) ;;;
  this <- getThis ;;
  nextState <- liftW (new_CodeGenIterationState
                 (SessionStateConfig.mk (SessionStateConfig.conversationId config)
                    (upl_uploadId upload) (SessionStateConfig.workspaceRoot config))
                 "" (PrepareIterationState.filePaths this)
                 (PrepareIterationState.tabID this)) ;;
  call nextState (CodeGenIterationState_interact action).

(** Running a method of one class on an object seen as a [SessionState]. *)
Definition dispatch {T A : Type} (wrap : T -> SessionState) (m : Method T A)
    (this : T) (w : World) : Outcome A * (SessionState * World) :=
  let '(o, (this', w')) := m (this, w) in (o, (wrap this', w')).

(** [state.interact(action)] on any state: the call goes to the method of
    the object's class. *)
Definition interact (action : SessionStateAction)
  : Method SessionState SessionStateInteraction :=
  fun tw =>
    match fst tw with
    | StConversationNotStarted s =>
        dispatch StConversationNotStarted (ConversationNotStartedState_interact action) s (snd tw)
    | StPrepareRefinement s =>
        dispatch StPrepareRefinement (PrepareRefinementState_interact action) s (snd tw)
    | StRefinement s =>
        dispatch StRefinement (RefinementState_interact action) s (snd tw)
    | StRefinementIteration s =>
        dispatch StRefinementIteration (RefinementIterationState_interact action) s (snd tw)
    | StCodeGen s =>
        dispatch StCodeGen (CodeGenState_interact action) s (snd tw)
    | StMockCodeGen s =>
        dispatch StMockCodeGen (MockCodeGenState_interact action) s (snd tw)
    | StPrepareIteration s =>
        dispatch StPrepareIteration (PrepareIterationState_interact action) s (snd tw)
    | StCodeGenIteration s =>
        dispatch StCodeGenIteration (CodeGenIterationState_interact action) s (snd tw)
    end.

End WithEnv.

(* ================================================================= *)
(** ** Vocabulary of the statements *)

(** The statuses on which the loop sleeps and polls again. *)
Definition in_progress (status : string) : bool :=
  (status =? "predict-ready") || (status =? "InProgress").

Definition is_failure (status : string) : bool :=
  (status =? "predict-failed") || (status =? "debate-failed") || (status =? "Failed").

Definition recognized_statuses : list string :=
  ["Complete"; "predict-ready"; "InProgress"; "predict-failed"; "debate-failed"; "Failed"].

(** What one status query leaves in the trace. *)
Definition poll_round (this : CodeGenBase.t) (codeGenerationId status : string)
  : list Event :=
  [EvGetCodeGeneration (CodeGenBase.conversationId this) codeGenerationId;
   EvLoggerInfo ("Codegen response: " ++ status)].

(** A query answered "not yet", followed by the delay. *)
Definition waiting_round (this : CodeGenBase.t) (codeGenerationId status : string)
  : list Event :=
  poll_round this codeGenerationId status ++ [EvSetTimeout 10000].

Definition waiting_rounds (this : CodeGenBase.t) (codeGenerationId : string)
    (statuses : list string) : list Event :=
  flat_map (waiting_round this codeGenerationId) statuses.

(** One registration per file, at [path.join(uploadId, filePath)]. *)
Definition registration (env : Env) (uploadId : string) (f : NewFile) : Event :=
  EvRegisterProvider (weaverbirdScheme env) (path_join env uploadId (filePath f))
                     (encode (fileContent f)).

Definition staging (env : Env) (uploadId conversationId : string)
    (files : NewFileContents) : list Event :=
  flat_map (fun f => [registration env uploadId f;
                      EvTelemetryEmit "awsq_filesChanged" conversationId]) files.

(** The world after [n] rounds of waiting that left [events] behind. *)
Definition after_waiting (w : World) (n : nat) (events : list Event) : World :=
  mkWorld (clock w + 2 * n) (polls w + n) (nextId w) (trace w ++ events).

(** The remote job answers the next status queries with [statuses], in order. *)
Definition job_reports (env : Env) (this : CodeGenBase.t) (codeGenerationId : string)
    (w : World) (statuses : list string) : Prop :=
  forall i status, nth_error statuses i = Some status ->
    getCodeGeneration env (polls w + i) (CodeGenBase.conversationId this)
                      codeGenerationId = Returns status.

(** The token is not signaled at any of the first [n] loop checks. *)
Definition not_cancelled_through (env : Env) (tok : TokenId) (w : World) (n : nat)
  : Prop :=
  forall i, i < n -> cancelled_at env tok (clock w + 2 * i) = false.

Definition timeout_error : JsError :=
  ToolkitError "Code generation did not finish withing the expected time" None.

Definition generation_failed_error : JsError :=
  ToolkitError "Code generation failed" None.

Definition unknown_status_error (status : string) : JsError :=
  ToolkitError ("Unknown status: " ++ status ++ newline) None.

(* ================================================================= *)
(** ** Sample collaborators *)

(** A sanitizer that keeps no markup at all: every [<], [>] and [&] is
    replaced by its entity.  It stands for the library wherever a concrete
    collaborator is needed. *)
Fixpoint escapeMarkup (s : string) : string :=
  match s with
  | EmptyString => EmptyString
  | String c rest =>
      (if Ascii.eqb c "<" then "&lt;"
       else if Ascii.eqb c ">" then "&gt;"
       else if Ascii.eqb c "&" then "&amp;"
       else String c EmptyString) ++ escapeMarkup rest
  end.

Definition sample_files : NewFileContents :=
  [mkNewFile "src/a.ts" "let a = 1"; mkNewFile "README.md" "# hi"].

(** A remote service that answers the status queries with [statuses] (and
    with [InProgress] once they are used up), plans with [plan], and a token
    schedule [cancel]; there is no mock-data directory. *)
Definition scripted_env (statuses : list string) (plan : Outcome (option string))
    (cancel : option nat) : Env :=
  {| path_join := fun a b => a ++ "/" ++ b;
     sanitizeHtml := escapeMarkup;
     weaverbirdScheme := "weaverbird";
     randomUUID := fun _ => "00000000-0000-4000-8000-000000000000";
     cancelAt := fun _ => cancel;
     prepareRepoData := fun _ _ _ => Returns (mkRepoData "zip" "sha");
     createUploadUrl := fun _ _ _ => Returns (mkUploadUrl "https://upload" "upload-2" None);
     uploadCode := fun _ _ _ _ => Returns tt;
     generatePlan := fun _ _ _ _ => plan;
     startCodeGeneration := fun _ _ _ _ => Returns "gen-1";
     getCodeGeneration := fun n _ _ => Returns (nth n statuses "InProgress");
     exportResultArchive := fun _ _ => Returns sample_files;
     stat := fun _ _ => Throws (ForeignError "ENOENT");
     collectFiles := fun _ _ _ => Returns [] |}.

Definition sample_config : SessionStateConfig.t :=
  SessionStateConfig.mk "conv-1" "upload-1" "/work".

Definition sample_base : CodeGenBase.t :=
  CodeGenBase.mk 0 Codegen "conv-1" "upload-1" sample_config "tab-1".

(** A world in which one token source has been allocated. *)
Definition sample_world : World := mkWorld 0 0 1 [].

(* ================================================================= *)
(** ** Vocabulary of the statements about the states *)

(** What a run leaves behind: no state object is built, no token source
    allocated, and [n] status queries are made. *)
Definition quiet_run (w w' : World) (events : list Event) (n : nat) : Prop :=
  trace w' = (trace w ++ events)%list
  /\ nextId w' = nextId w
  /\ built events = []
  /\ length (filter is_poll events) = n.

(** The character [c] occurs in [s]. *)
Fixpoint occurs (c : ascii) (s : string) : Prop :=
  match s with
  | EmptyString => False
  | String a rest => a = c \/ occurs c rest
  end.

(** Sample states, each holding the token source number 0. *)
Definition sample_refinement : RefinementState.t :=
  RefinementState.mk 0 "conv-1" "upload-1" Approach sample_config "" "tab-1".

Definition sample_iteration : RefinementIterationState.t :=
  RefinementIterationState.mk 0 Approach "conv-1" "upload-1" sample_config
    "first plan" "tab-1".

(** The state that [Refinement] hands over, and the one
    [RefinementIteration] hands over to itself. *)
Definition refined_next (this : RefinementState.t) (tok : TokenId) (approach : string)
  : RefinementIterationState.t :=
  let config := RefinementState.config this in
  RefinementIterationState.mk tok Approach (RefinementState.conversationId this)
    (SessionStateConfig.uploadId config)
    (SessionStateConfig.mk (RefinementState.conversationId this)
       (SessionStateConfig.uploadId config) (SessionStateConfig.workspaceRoot config))
    approach (RefinementState.tabID this).

Definition iterated_next (this : RefinementIterationState.t) (tok : TokenId)
    (approach : string) : RefinementIterationState.t :=
  let config := RefinementIterationState.config this in
  RefinementIterationState.mk tok Approach (SessionStateConfig.conversationId config)
    (SessionStateConfig.uploadId config) config approach
    (RefinementIterationState.tabID this).

Definition plan_request (config : SessionStateConfig.t) (message : string) : Event :=
  EvGeneratePlan (SessionStateConfig.conversationId config)
                 (SessionStateConfig.uploadId config) message.

(** The state [MockCodeGen] hands over. *)
Definition refinement_after_mock (this : MockCodeGenState.t) (tok : TokenId)
  : RefinementState.t :=
  let config := MockCodeGenState.config this in
  RefinementState.mk tok (MockCodeGenState.conversationId this)
    (SessionStateConfig.uploadId config) Approach
    (SessionStateConfig.mk (MockCodeGenState.conversationId this)
       (SessionStateConfig.uploadId config) (SessionStateConfig.workspaceRoot config))
    (MockCodeGenState.approach this) (MockCodeGenState.tabID this).

(** The state a code-generation state hands over. *)
Definition iteration_result (b : CodeGenBase.t) (approach : string)
    (paths : list string) (tok : TokenId) : PrepareIterationState.t :=
  let config := CodeGenBase.config b in
  PrepareIterationState.mk tok Codegen (SessionStateConfig.uploadId config)
    (SessionStateConfig.conversationId config) config approach paths
    (CodeGenBase.tabID b).

(** The mock state [RefinementIteration] builds on the sentinel. *)
Definition mock_of (env : Env) (this : RefinementIterationState.t) (tok : TokenId)
  : MockCodeGenState.t :=
  let config := RefinementIterationState.config this in
  MockCodeGenState.mk tok [] (SessionStateConfig.conversationId config)
    (randomUUID env tok) config (RefinementIterationState.approach this)
    (RefinementIterationState.tabID this).

Definition mock_dir (env : Env) (config : SessionStateConfig.t) : string :=
  path_join env (SessionStateConfig.workspaceRoot config) "./mock-data".

(** The mock-data directory is absent: asking for it fails, or finds nothing. *)
Definition mock_dir_absent (env : Env) (config : SessionStateConfig.t) (time : nat)
  : Prop :=
  (exists e, stat env time (mock_dir env config) = Throws e)
  \/ stat env time (mock_dir env config) = Returns false.

(** The phase each class gives its objects; [MockCodeGenState] gives none. *)
Definition declared_phase (c : StateClass) : option SessionStatePhase :=
  match c with
  | ConversationNotStarted => Some Init
  | PrepareRefinement | Refinement | RefinementIteration => Some Approach
  | CodeGen | PrepareIteration | CodeGenIteration => Some Codegen
  | MockCodeGen => None
  end.

(** A run that went from [w] to [w'] with outcome [o] is lawful when the
    state objects it built carry the phase of their class and the token
    sources allocated in between, one each, and when the next state it
    returns, if any, is one of them. *)
Definition lawful_run (w : World) (o : Outcome SessionStateInteraction) (w' : World)
  : Prop :=
  exists events,
    trace w' = (trace w ++ events)%list
    /\ map tokenSource_of (built events) = seq (nextId w) (length (built events))
    /\ nextId w' = nextId w + length (built events)
    /\ Forall (fun b => phase_of b = declared_phase (class_of b)) (built events)
    /\ (forall r, o = Returns r -> In (nextState r) (built events)).

(** How a code-generation state ends: it throws and builds nothing, or it
    returns the [PrepareIteration] state it has just built. *)
Definition generation_ends (b : CodeGenBase.t) (approach : string) (w w' : World)
    (o : Outcome SessionStateInteraction) (events : list Event) : Prop :=
  (exists e, o = Throws e /\ built events = [] /\ nextId w' = nextId w)
  \/ (exists paths,
         o = Returns (mkSSI (StPrepareIteration (iteration_result b approach paths (nextId w)))
                            (mkInteraction None))
         /\ built events = [StPrepareIteration (iteration_result b approach paths (nextId w))]
         /\ nextId w' = S (nextId w)).

(** The three awaited steps with which [PrepareIteration] snapshots the
    workspace and uploads it, as one outcome. *)
Definition snapshot_upload (env : Env) (this : PrepareIterationState.t) (w : World)
  : Outcome UploadUrl :=
  let config := PrepareIterationState.config this in
  match prepareRepoData env (clock w) (SessionStateConfig.workspaceRoot config)
                        (PrepareIterationState.conversationId this) with
  | Throws e => Throws e
  | Returns repo =>
      match createUploadUrl env (S (clock w)) (SessionStateConfig.conversationId config)
                            (zipFileChecksum repo) with
      | Throws e => Throws e
      | Returns upload =>
          match uploadCode env (S (S (clock w))) (uploadUrl upload) (zipFileBuffer repo)
                           (kmsKeyArn upload) with
          | Throws e => Throws e
          | Returns _ => Returns upload
          end
      end
  end.

(** The [CodeGenIteration] state that [PrepareIteration] builds once the
    upload has given it [uploadId]: its approach is the empty string. *)
Definition iteration_of (this : PrepareIterationState.t) (uploadId : string)
    (tok : TokenId) : CodeGenIterationState.t :=
  let config := PrepareIterationState.config this in
  let config' := SessionStateConfig.mk (SessionStateConfig.conversationId config) uploadId
                   (SessionStateConfig.workspaceRoot config) in
  CodeGenIterationState.mk
    (CodeGenBase.mk tok Codegen (SessionStateConfig.conversationId config) uploadId config'
       (PrepareIterationState.tabID this))
    "" (PrepareIterationState.filePaths this).

Definition sample_prepare : PrepareIterationState.t :=
  PrepareIterationState.mk 0 Codegen "upload-1" "conv-1" sample_config
    "the accepted plan" ["src/a.ts"] "tab-1".

Definition sample_codegen : CodeGenState.t :=
  CodeGenState.mk sample_base [] "the accepted plan".

(* ================================================================= *)
(** ** Vocabulary of the statements about every run *)

(** How a run of [generateCode] ends once its rounds of waiting are over. *)
Inductive Ending : Type :=
| Cancelled
| Exhausted
| Completed (files : NewFileContents)
| ExportFailed (e : JsError)
| JobFailed (status : string)
| UnknownStatus (status : string)
| PollFailed (e : JsError).

Definition ending_outcome (x : Ending) : Outcome CodeGeneration :=
  match x with
  | Cancelled => Returns (mkCodeGeneration [] [])
  | Exhausted => Throws timeout_error
  | Completed files => Returns (mkCodeGeneration files (map filePath files))
  | ExportFailed e => Throws e
  | JobFailed _ => Throws generation_failed_error
  | UnknownStatus status => Throws (unknown_status_error status)
  | PollFailed e => Throws e
  end.

(** What the last iteration leaves in the trace. *)
Definition ending_events (env : Env) (this : CodeGenBase.t) (codeGenerationId : string)
    (x : Ending) : list Event :=
  let cid := CodeGenBase.conversationId this in
  match x with
  | Cancelled | Exhausted => []
  | Completed files =>
      poll_round this codeGenerationId "Complete"
      ++ [EvExportResultArchive cid]
      ++ staging env (CodeGenBase.uploadId this) cid files
  | ExportFailed _ =>
      poll_round this codeGenerationId "Complete" ++ [EvExportResultArchive cid]
  | JobFailed status | UnknownStatus status => poll_round this codeGenerationId status
  | PollFailed _ => [EvGetCodeGeneration cid codeGenerationId]
  end.

(** The awaits and the status queries of the last iteration. *)
Definition ending_awaits (x : Ending) : nat :=
  match x with
  | Cancelled | Exhausted => 0
  | Completed _ | ExportFailed _ => 2
  | JobFailed _ | UnknownStatus _ | PollFailed _ => 1
  end.

Definition ending_polls (x : Ending) : nat :=
  match x with
  | Cancelled | Exhausted => 0
  | _ => 1
  end.

(** What makes a run end with [x] after [n] rounds of waiting. *)
Definition ending_happens (env : Env) (this : CodeGenBase.t) (codeGenerationId : string)
    (w : World) (n : nat) (x : Ending) : Prop :=
  let tok := CodeGenBase.tokenSource this in
  let cid := CodeGenBase.conversationId this in
  let polled (reply : Outcome string) :=
    n < CodeGenBase.pollCount
    /\ cancelled_at env tok (clock w + 2 * n) = false
    /\ getCodeGeneration env (polls w + n) cid codeGenerationId = reply in
  match x with
  | Cancelled => cancelled_at env tok (clock w + 2 * n) = true
  | Exhausted =>
      n = CodeGenBase.pollCount /\ cancelled_at env tok (clock w + 2 * n) = false
  | Completed files =>
      polled (Returns "Complete")
      /\ exportResultArchive env (clock w + 2 * n + 1) cid = Returns files
  | ExportFailed e =>
      polled (Returns "Complete")
      /\ exportResultArchive env (clock w + 2 * n + 1) cid = Throws e
  | JobFailed status => polled (Returns status) /\ is_failure status = true
  | UnknownStatus status => polled (Returns status) /\ ~ In status recognized_statuses
  | PollFailed e => polled (Throws e)
  end.

(** The world a run ends in. *)
Definition ending_world (env : Env) (this : CodeGenBase.t) (codeGenerationId : string)
    (w : World) (statuses : list string) (x : Ending) : World :=
  mkWorld (clock w + 2 * length statuses + ending_awaits x)
          (polls w + length statuses + ending_polls x)
          (nextId w)
          (trace w ++ waiting_rounds this codeGenerationId statuses
                   ++ ending_events env this codeGenerationId x).




(** The loop alone, with a budget of [budget] iterations: [None] stands for
    a loop left through its condition. *)
Definition loop_result (x : Ending) : Outcome (option CodeGeneration) :=
  match x with
  | Cancelled | Exhausted => Returns None
  | Completed files => Returns (Some (mkCodeGeneration files (map filePath files)))
  | ExportFailed e | PollFailed e => Throws e
  | JobFailed _ => Throws generation_failed_error
  | UnknownStatus status => Throws (unknown_status_error status)
  end.

Definition loop_ending_happens (env : Env) (this : CodeGenBase.t)
    (codeGenerationId : string) (budget : nat) (w : World) (n : nat) (x : Ending)
  : Prop :=
  let tok := CodeGenBase.tokenSource this in
  let cid := CodeGenBase.conversationId this in
  let polled (reply : Outcome string) :=
    n < budget
    /\ cancelled_at env tok (clock w + 2 * n) = false
    /\ getCodeGeneration env (polls w + n) cid codeGenerationId = reply in
  match x with
  | Cancelled => n < budget /\ cancelled_at env tok (clock w + 2 * n) = true
  | Exhausted => n = budget
  | Completed files =>
      polled (Returns "Complete")
      /\ exportResultArchive env (clock w + 2 * n + 1) cid = Returns files
  | ExportFailed e =>
      polled (Returns "Complete")
      /\ exportResultArchive env (clock w + 2 * n + 1) cid = Throws e
  | JobFailed status => polled (Returns status) /\ is_failure status = true
  | UnknownStatus status => polled (Returns status) /\ ~ In status recognized_statuses
  | PollFailed e => polled (Throws e)
  end.

(* ================================================================= *)
(** ** More sample collaborators *)

(** [env] with the [n]-th status query failing with [e]. *)
Definition with_poll_failure (n : nat) (e : JsError) (env : Env) : Env :=
  {| path_join := path_join env;
     sanitizeHtml := sanitizeHtml env;
     weaverbirdScheme := weaverbirdScheme env;
     randomUUID := randomUUID env;
     cancelAt := cancelAt env;
     prepareRepoData := prepareRepoData env;
     createUploadUrl := createUploadUrl env;
     uploadCode := uploadCode env;
     generatePlan := generatePlan env;
     startCodeGeneration := startCodeGeneration env;
     getCodeGeneration := fun k c g =>
       if Nat.eqb k n then Throws e else getCodeGeneration env k c g;
     exportResultArchive := exportResultArchive env;
     stat := stat env;
     collectFiles := collectFiles env |}.

(** [env] with the export of the result archive answering [reply]. *)
Definition with_export (reply : Outcome NewFileContents) (env : Env) : Env :=
  {| path_join := path_join env;
     sanitizeHtml := sanitizeHtml env;
     weaverbirdScheme := weaverbirdScheme env;
     randomUUID := randomUUID env;
     cancelAt := cancelAt env;
     prepareRepoData := prepareRepoData env;
     createUploadUrl := createUploadUrl env;
     uploadCode := uploadCode env;
     generatePlan := generatePlan env;
     startCodeGeneration := startCodeGeneration env;
     getCodeGeneration := getCodeGeneration env;
     exportResultArchive := fun _ _ => reply;
     stat := stat env;
     collectFiles := collectFiles env |}.

(** [env] with the start of a code generation answering [reply]. *)
Definition with_start (reply : Outcome string) (env : Env) : Env :=
  {| path_join := path_join env;
     sanitizeHtml := sanitizeHtml env;
     weaverbirdScheme := weaverbirdScheme env;
     randomUUID := randomUUID env;
     cancelAt := cancelAt env;
     prepareRepoData := prepareRepoData env;
     createUploadUrl := createUploadUrl env;
     uploadCode := uploadCode env;
     generatePlan := generatePlan env;
     startCodeGeneration := fun _ _ _ _ => reply;
     getCodeGeneration := getCodeGeneration env;
     exportResultArchive := exportResultArchive env;
     stat := stat env;
     collectFiles := collectFiles env |}.

(** [env] with the physical upload answering [reply]. *)
Definition with_uploadCode (reply : Outcome unit) (env : Env) : Env :=
  {| path_join := path_join env;
     sanitizeHtml := sanitizeHtml env;
     weaverbirdScheme := weaverbirdScheme env;
     randomUUID := randomUUID env;
     cancelAt := cancelAt env;
     prepareRepoData := prepareRepoData env;
     createUploadUrl := createUploadUrl env;
     uploadCode := fun _ _ _ _ => reply;
     generatePlan := generatePlan env;
     startCodeGeneration := startCodeGeneration env;
     getCodeGeneration := getCodeGeneration env;
     exportResultArchive := exportResultArchive env;
     stat := stat env;
     collectFiles := collectFiles env |}.

(** [env] with a mock-data directory that is there and whose listing
    answers [reply]. *)
Definition with_mock_data (reply : Outcome NewFileContents) (env : Env) : Env :=
  {| path_join := path_join env;
     sanitizeHtml := sanitizeHtml env;
     weaverbirdScheme := weaverbirdScheme env;
     randomUUID := randomUUID env;
     cancelAt := cancelAt env;
     prepareRepoData := prepareRepoData env;
     createUploadUrl := createUploadUrl env;
     uploadCode := uploadCode env;
     generatePlan := generatePlan env;
     startCodeGeneration := startCodeGeneration env;
     getCodeGeneration := getCodeGeneration env;
     exportResultArchive := exportResultArchive env;
     stat := fun _ _ => Returns true;
     collectFiles := fun _ _ _ => reply |}.

(* ================================================================= *)
(** ** Vocabulary of the statements about the transitions *)

(** The errors [generateCode] can end with. *)
Definition generation_error (env : Env) (this : CodeGenBase.t) (codeGenerationId : string)
    (e : JsError) : Prop :=
  e = timeout_error
  \/ e = generation_failed_error
  \/ (exists n status,
         getCodeGeneration env n (CodeGenBase.conversationId this) codeGenerationId
           = Returns status
         /\ ~ In status recognized_statuses
         /\ e = unknown_status_error status)
  \/ (exists n, getCodeGeneration env n (CodeGenBase.conversationId this) codeGenerationId
                = Throws e)
  \/ (exists time, exportResultArchive env time (CodeGenBase.conversationId this)
                   = Throws e).

(** What [catch (e) { throw e instanceof ToolkitError ? e : ToolkitError.chain(e, 'Server side error') }]
    rethrows. *)
Definition server_side (e : JsError) : JsError :=
  if instanceof_ToolkitError e then e else ToolkitError "Server side error" (Some e).

Definition tabID_of (s : SessionState) : string :=
  match s with
  | StConversationNotStarted s => ConversationNotStartedState.tabID s
  | StPrepareRefinement s => PrepareRefinementState.tabID s
  | StRefinement s => RefinementState.tabID s
  | StRefinementIteration s => RefinementIterationState.tabID s
  | StCodeGen s => CodeGenBase.tabID (CodeGenState.base s)
  | StMockCodeGen s => MockCodeGenState.tabID s
  | StPrepareIteration s => PrepareIterationState.tabID s
  | StCodeGenIteration s => CodeGenBase.tabID (CodeGenIterationState.base s)
  end.

(** The conversation id in the configuration of a state; a conversation
    that has not started has none. *)
Definition config_conversation (s : SessionState) : option string :=
  match s with
  | StConversationNotStarted _ => None
  | StPrepareRefinement s =>
      Some (ConfigNoUpload.conversationId (PrepareRefinementState.config s))
  | StRefinement s => Some (SessionStateConfig.conversationId (RefinementState.config s))
  | StRefinementIteration s =>
      Some (SessionStateConfig.conversationId (RefinementIterationState.config s))
  | StCodeGen s =>
      Some (SessionStateConfig.conversationId (CodeGenBase.config (CodeGenState.base s)))
  | StMockCodeGen s => Some (SessionStateConfig.conversationId (MockCodeGenState.config s))
  | StPrepareIteration s =>
      Some (SessionStateConfig.conversationId (PrepareIterationState.config s))
  | StCodeGenIteration s =>
      Some (SessionStateConfig.conversationId
              (CodeGenBase.config (CodeGenIterationState.base s)))
  end.

(** The [conversationId] property of the object, where the class has one. *)
Definition conversationId_of (s : SessionState) : option string :=
  match s with
  | StConversationNotStarted _ | StPrepareRefinement _ => None
  | StRefinement s => Some (RefinementState.conversationId s)
  | StRefinementIteration s => Some (RefinementIterationState.conversationId s)
  | StCodeGen s => Some (CodeGenBase.conversationId (CodeGenState.base s))
  | StMockCodeGen s => Some (MockCodeGenState.conversationId s)
  | StPrepareIteration s => Some (PrepareIterationState.conversationId s)
  | StCodeGenIteration s => Some (CodeGenBase.conversationId (CodeGenIterationState.base s))
  end.

(** The object's own [conversationId], if it has one, is the one of its
    configuration: so every constructor leaves it. *)
Definition conversation_consistent (s : SessionState) : Prop :=
  match conversationId_of s with
  | Some c => config_conversation s = Some c
  | None => True
  end.

(** The classes of the states [interact] can return, by class of the state
    it is called on. *)
Definition successor_classes (c : StateClass) : list StateClass :=
  match c with
  | ConversationNotStarted => []
  | PrepareRefinement | Refinement => [RefinementIteration]
  | RefinementIteration => [RefinementIteration; Refinement]
  | MockCodeGen => [Refinement]
  | CodeGen | PrepareIteration | CodeGenIteration => [PrepareIteration]
  end.

Definition is_start (e : Event) : bool :=
  match e with EvStartCodeGeneration _ _ _ => true | _ => false end.

Definition is_plan (e : Event) : bool :=
  match e with EvGeneratePlan _ _ _ => true | _ => false end.

(** The events a run of [generateCode] is made of. *)
Definition is_generation_event (e : Event) : bool :=
  match e with
  | EvGetCodeGeneration _ _ | EvLoggerInfo _ | EvSetTimeout _
  | EvExportResultArchive _ | EvRegisterProvider _ _ _ | EvTelemetryEmit _ _ => true
  | _ => false
  end.

(** The clock and the counters when polling begins in a code-generation
    state: the call that starts the job has been awaited. *)
Definition polling_begins (w : World) : World :=
  mkWorld (S (clock w)) (polls w) (nextId w) (trace w).

(** What the two upload steps that give [PrepareIteration] its new upload
    id answer. *)
Definition upload_url_reply (env : Env) (this : PrepareIterationState.t) (w : World)
  : Outcome UploadUrl :=
  let config := PrepareIterationState.config this in
  match prepareRepoData env (clock w) (SessionStateConfig.workspaceRoot config)
                        (PrepareIterationState.conversationId this) with
  | Throws e => Throws e
  | Returns repo =>
      createUploadUrl env (S (clock w)) (SessionStateConfig.conversationId config)
                      (zipFileChecksum repo)
  end.

(** The three awaited steps with which [PrepareRefinement] snapshots the
    workspace and uploads it, as one outcome. *)
Definition first_upload (env : Env) (this : PrepareRefinementState.t) (w : World)
  : Outcome UploadUrl :=
  let config := PrepareRefinementState.config this in
  match prepareRepoData env (clock w) (ConfigNoUpload.workspaceRoot config)
                        (ConfigNoUpload.conversationId config) with
  | Throws e => Throws e
  | Returns repo =>
      match createUploadUrl env (S (clock w)) (ConfigNoUpload.conversationId config)
                            (zipFileChecksum repo) with
      | Throws e => Throws e
      | Returns upload =>
          match uploadCode env (S (S (clock w))) (uploadUrl upload) (zipFileBuffer repo)
                           (kmsKeyArn upload) with
          | Throws e => Throws e
          | Returns _ => Returns upload
          end
      end
  end.

(** The file [MockCodeGen] registers for a file found under the mock-data
    directory. *)
Definition mocked_file (f : NewFile) : NewFile :=
  mkNewFile (replace "mock-data/" "" (filePath f)) (fileContent f).

Definition is_mock (s : SessionState) : bool :=
  match s with StMockCodeGen _ => true | _ => false end.

(** A state [b] built while [interact] ran on [s] belongs to the same
    conversation: its own [conversationId] is the one of its configuration,
    it is shown in the tab of [s], and its configuration names the
    conversation of [s] provided [s] was consistent itself. *)
Definition same_conversation (s b : SessionState) : Prop :=
  conversation_consistent b
  /\ tabID_of b = tabID_of s
  /\ (conversation_consistent s -> config_conversation b = config_conversation s).

(* ================================================================= *)
(** ** The messenger *)

(** The class through which the states and their caller talk to the chat
    view.  Its dispatcher is a collaborator: what is handed to it is kept, in
    order, as the state the methods run on. *)
Module Messenger.

Inductive MessageType : Type := answer | answer_part | answer_stream | system_prompt.

(** Modelled from the spec: [FollowUpTypes] of [../types] is not among the
    sources; the spec has the caller offer a retry, and [Retry] is the one
    member this class uses. *)
Inductive FollowUpTypes : Type := Retry.

Record ChatItemFollowUp : Type := mkFollowUp {
  pillText : string;
  type : FollowUpTypes;
  status : option string
}.

(** The parameter object of [sendAnswer]; an absent property is [None]. *)
Record AnswerParams : Type := mkAnswerParams {
  p_message : option string;
  p_type : MessageType;
  p_followUps : option (list ChatItemFollowUp);
  p_tabID : string;
  p_canBeVoted : option bool
}.

(** Modelled from the spec: the message classes of the connector are not
    among the sources; they are the notifications the spec lists, taken as
    carriers of the arguments they are constructed with.  A code reference
    is kept as its text. *)
Record ChatMessage : Type := mkChatMessage {
  message : option string;
  messageType : MessageType;
  followUps : option (list ChatItemFollowUp);
  relatedSuggestions : option unit;
  canBeVoted : bool;
  tabID : string
}.

Inductive Dispatched : Type :=
| sentChatMessage (m : ChatMessage)
| sentErrorMessage (title errorMessage tabID : string)
| sentCodeResult (filePaths deletedFiles references : list string) (tabID uploadId : string)
| sentAsyncEventProgress (tabID : string) (inProgress : bool) (message : option string)
| sentPlaceholder (tabID newPlaceholder : string)
| sentChatInputEnabled (tabID : string) (enabled : bool)
| sentAuthenticationUpdate (featureDevEnabled : bool).

Definition Call (A : Type) : Type := M (list Dispatched) A.

Definition dispatcher (d : Dispatched) : Call unit :=
  fun sent => (Returns tt, (sent ++ [d])%list).

Definition sendAnswer (params : AnswerParams) : Call unit :=
  dispatcher (sentChatMessage
    (mkChatMessage (p_message params) (p_type params) (p_followUps params) None
                   (nullish (p_canBeVoted params) false) (p_tabID params))).

Definition final_title : string :=
  "Sorry, we're unable to provide a response at this time. Please try again later or share feedback with our team to help us troubleshoot.".

Definition again_title : string :=
  "Sorry, we're experiencing an issue on our side. Would you like to try again?".

Definition restarting_title : string :=
  "Sorry, we're experiencing an issue on our side. Restarting generation...".

(** [retries] counts the attempts that are left: an integer. *)
Definition sendErrorMessage (errorMessage tabID : string) (retries : Z)
    (phase : option SessionStatePhase) : Call unit :=
  if (retries =? 0)%Z then
    dispatcher (sentErrorMessage final_title errorMessage tabID)
  else
    match phase with
    | Some Approach => dispatcher (sentErrorMessage again_title errorMessage tabID)
    | Some Codegen => dispatcher (sentErrorMessage restarting_title errorMessage tabID)
    | _ => dispatcher (sentErrorMessage again_title errorMessage tabID)
    end ;;;
    sendAnswer (mkAnswerParams None system_prompt
                  (Some [mkFollowUp "Retry" Retry (Some "warning")]) tabID None).

Definition sendCodeResult (filePaths deletedFiles references : list string)
    (tabID uploadId : string) : Call unit :=
  dispatcher (sentCodeResult filePaths deletedFiles references tabID uploadId).

Definition sendAsyncEventProgress (tabID : string) (inProgress : bool)
    (message : option string) : Call unit :=
  dispatcher (sentAsyncEventProgress tabID inProgress message).

Definition sendUpdatePlaceholder (tabID newPlaceholder : string) : Call unit :=
  dispatcher (sentPlaceholder tabID newPlaceholder).

Definition sendChatInputEnabled (tabID : string) (enabled : bool) : Call unit :=
  dispatcher (sentChatInputEnabled tabID enabled).

Definition sendAuthenticationUpdate (featureDevEnabled : bool) : Call unit :=
  dispatcher (sentAuthenticationUpdate featureDevEnabled).

(** The tab a notification is addressed to; the authentication update is
    addressed to none. *)
Definition tab_of (d : Dispatched) : option string :=
  match d with
  | sentChatMessage m => Some (tabID m)
  | sentErrorMessage _ _ tab | sentCodeResult _ _ _ tab _
  | sentAsyncEventProgress tab _ _ | sentPlaceholder tab _
  | sentChatInputEnabled tab _ => Some tab
  | sentAuthenticationUpdate _ => None
  end.

(** The prompt that offers a retry. *)
Definition retry_prompt (tab : string) : Dispatched :=
  sentChatMessage
    (mkChatMessage None system_prompt (Some [mkFollowUp "Retry" Retry (Some "warning")])
                   None false tab).

Definition offers_retry (d : Dispatched) : bool :=
  match d with
  | sentChatMessage m =>
      match followUps m with
      | Some l => existsb (fun f => match type f with Retry => true end) l
      | None => false
      end
  | _ => false
  end.

(** The titles of the error messages in what was dispatched. *)
Definition error_titles (sent : list Dispatched) : list string :=
  flat_map (fun d => match d with sentErrorMessage t _ _ => [t] | _ => [] end) sent.

End Messenger.

(* ================================================================= *)
(** ** The remote-invoke view *)

(** [RemoteInvokeWebview] and [listRemoteTestEvents] of
    [lambda/vue/remoteInvoke/invokeLambda.ts].  The Lambda client, the SAM
    CLI, the output channel, the file system and telemetry are
    collaborators: what the code does to them is kept, in order, as the
    state the methods run on. *)
Module RemoteInvoke.

(** The two values [invokeLambda] gives its [result]. *)
Inductive Result : Type := Succeeded | Failed.

(** A payload is a string or binary data; the latter is kept as the text
    [String(payload)] makes of it. *)
Inductive Blob : Type :=
| BlobString (s : string)
| BlobBinary (rendering : string).

Record InvocationResponse : Type := mkInvocationResponse {
  LogResult : option string;
  Payload : option Blob
}.

Record FileSample : Type := mkFileSample {
  sample : string;
  selectedFilePath : string;
  selectedFile : string
}.

Inductive Effect : Type :=
| channel_show
| channel_appendLine (line : string)
| client_invoke (arn input : string)
| telemetry_lambda_invokeRemote (result : Result) (passive : bool) (source : option string)
| fs_readFileSync (path : string)
| logger_error (text path : string)
| sam_list (functionArn region : string)
| logger_debug (text : string).

(** What is thrown or rejected is an error object, as the handlers take it
    to be. *)
Record Host : Type := mkHost {
  invoke : string -> string -> Outcome InvocationResponse;
  base64_toString : string -> string;
  error_toString : JsError -> string;
  readFileSync : string -> Outcome string;
  fsPath : string -> string;
  basename : string -> string;
  runSamCliRemoteTestEvents : string -> string -> Outcome string
}.

(** A method body runs on its local variables, of type [L], and on what
    has been done to the collaborators; a method, on the latter. *)
Definition Body (L A : Type) : Type := M (L * list Effect) A.
Definition Run (A : Type) : Type := M (list Effect) A.

Definition effect {L : Type} (e : Effect) : Body L unit :=
  fun s => (Returns tt, (fst s, (snd s ++ [e])%list)).

Definition assign {L : Type} (v : L) : Body L unit :=
  fun s => (Returns tt, (v, snd s)).

Definition read {L : Type} : Body L L := fun s => (Returns (fst s), s).

Definition awaited {L A : Type} (e : Effect) (reply : Outcome A) : Body L A :=
  fun s => (reply, (fst s, (snd s ++ [e])%list)).

(** [try { body } finally { final }] *)
Definition try_finally {St A : Type} (body : M St A) (final : M St unit) : M St A :=
  fun s =>
    let (o, s') := body s in
    match final s' with
    | (Returns _, s'') => (o, s'')
    | (Throws e, s'') => (Throws e, s'')
    end.

(** A method whose local variables start as [locals]; [tt] when it has
    none. *)
Definition method {L A : Type} (locals : L) (body : Body L A) : Run A :=
  fun done => let '(o, (_, done')) := body (locals, done) in (o, done').

Definition truthy_blob (b : option Blob) : bool :=
  match b with
  | None => false
  | Some (BlobString s) => truthy (Some s)
  | Some (BlobBinary _) => true
  end.

(** [String(payload)] *)
Definition String_of (b : Blob) : string :=
  match b with BlobString s => s | BlobBinary rendering => rendering end.

(** [s.split('\n')] *)
Fixpoint split_newline (s : string) : list string :=
  match s with
  | EmptyString => [EmptyString]
  | String c rest =>
      if Ascii.eqb c "010" then EmptyString :: split_newline rest
      else match split_newline rest with
           | head :: tail => String c head :: tail
           | [] => [String c EmptyString]
           end
  end.

(** [l.join('\n')] *)
Fixpoint join_newline (l : list string) : string :=
  match l with
  | [] => EmptyString
  | [a] => a
  | a :: rest => a ++ newline ++ join_newline rest
  end.

Fixpoint count_newlines (s : string) : nat :=
  match s with
  | EmptyString => 0
  | String c rest => (if Ascii.eqb c "010" then 1 else 0) + count_newlines rest
  end.

Section WithHost.

Variable host : Host.

(** [this.data.FunctionArn] *)
Variable FunctionArn : string.

Definition appendLine {L : Type} (line : string) : Body L unit :=
  effect (channel_appendLine line).

Definition invokeLambda (input : string) (source : option string) : Run unit :=
  method Succeeded
    (effect channel_show ;;;
     appendLine "Loading response..." ;;;
     try_finally
       (try_catch
          (funcResponse <- awaited (client_invoke FunctionArn input)
                                   (invoke host FunctionArn input) ;;
           let logs := if truthy (LogResult funcResponse)
                       then base64_toString host (nullish (LogResult funcResponse) "")
                       else "" in
           let payload := if truthy_blob (Payload funcResponse)
                          then nullish (Payload funcResponse) (BlobString "")
                          else BlobString "{}" in
           appendLine ("Invocation result for " ++ FunctionArn) ;;;
           appendLine "Logs:" ;;;
           appendLine logs ;;;
           appendLine "" ;;;
           appendLine "Payload:" ;;;
           appendLine (String_of payload) ;;;
           appendLine "")
          (fun error =>
             appendLine ("There was an error invoking " ++ FunctionArn) ;;;
             appendLine (error_toString host error) ;;;
             appendLine "" ;;;
             assign Failed))
       (result <- read ;;
        effect (telemetry_lambda_invokeRemote result false source))).

Definition getFileName (filePath : string) : string := basename host filePath.

Definition readFile (filePath : string) : Run (option FileSample) :=
  method tt
    (if negb (truthy (Some filePath)) then ret None
     else
       let fileLocation := fsPath host filePath in
       try_catch
         (fileContent <- awaited (fs_readFileSync fileLocation)
                                 (readFileSync host fileLocation) ;;
          ret (Some (mkFileSample fileContent fileLocation (getFileName fileLocation))))
         (fun e =>
            effect (logger_error "readFileSync: Failed to read file at path %O"
                                 fileLocation) ;;;
            throw (ToolkitError_chain e "Failed to read selected file"))).

Definition reloadFile (fileLocations : string) : Run (option FileSample) :=
  readFile fileLocations.

Definition listRemoteTestEvents (arn region : string) : Run (list string) :=
  method tt
    (try_catch
       (result <- awaited (sam_list arn region)
                          (runSamCliRemoteTestEvents host arn region) ;;
        ret (split_newline result))
       (fun err =>
          effect (logger_debug "Error listing remote test events:") ;;;
          ret [])).

End WithHost.

Definition is_telemetry (e : Effect) : bool :=
  match e with telemetry_lambda_invokeRemote _ _ _ => true | _ => false end.

Definition is_invoke (e : Effect) : bool :=
  match e with client_invoke _ _ => true | _ => false end.

Definition is_read (e : Effect) : bool :=
  match e with fs_readFileSync _ => true | _ => false end.

(** The result telemetry records for a reply of the client. *)
Definition result_of {A : Type} (reply : Outcome A) : Result :=
  match reply with Returns _ => Succeeded | Throws _ => Failed end.

End RemoteInvoke.

(* ================================================================= *)
(** ** Pruning a launch configuration *)

(** [doTraverseAndPrune] and [finalizeConfig] of
    [lambda/vue/configEditor/samInvokeBackend.ts], on the values a
    configuration is made of. *)
Module SamInvoke.

(** The values: a number is kept as an integer, an object as its own
    enumerable properties in the order [Object.keys] gives them, an array
    with its holes. *)
#[warnings="-register-all"]
Inductive JsValue : Type :=
| JUndefined
| JNull
| JBool (b : bool)
| JNumber (n : Z)
| JString (s : string)
| JArray (items : list (option JsValue))
| JObject (fields : list (string * JsValue)).

Definition TypeError_null : JsError :=
  ForeignError "TypeError: Cannot convert undefined or null to object".

Definition TypeError_set : JsError :=
  ForeignError "TypeError: Cannot set properties of undefined".

(** [JSON.parse(JSON.stringify(v))] for [v] other than [undefined]: a
    property that is [undefined] is left out, an item that is [undefined] or
    a hole becomes [null]. *)
Fixpoint clone (v : JsValue) : JsValue :=
  match v with
  | JArray items =>
      JArray (map (fun item => match item with
                               | None | Some JUndefined => Some JNull
                               | Some x => Some (clone x)
                               end) items)
  | JObject fields =>
      JObject (flat_map (fun '(key, val) => match val with
                                            | JUndefined => []
                                            | x => [(key, clone x)]
                                            end) fields)
  | other => other
  end.

Definition clone_item (item : option JsValue) : option JsValue :=
  match item with
  | None | Some JUndefined => Some JNull
  | Some x => Some (clone x)
  end.

Definition clone_field (field : string * JsValue) : list (string * JsValue) :=
  let '(key, val) := field in
  match val with
  | JUndefined => []
  | x => [(key, clone x)]
  end.

(** [delete final[key]] *)
Definition delete (key : string) (final : list (string * JsValue))
  : list (string * JsValue) :=
  filter (fun field => negb (fst field =? key)) final.

(** [final[key] = v] *)
Fixpoint assign (key : string) (v : JsValue) (final : list (string * JsValue))
  : list (string * JsValue) :=
  match final with
  | [] => [(key, v)]
  | (k, x) :: rest => if k =? key then (k, v) :: rest else (k, x) :: assign key v rest
  end.

(** [delete final[i]] and [final[i] = v] on an array, for [i] within it. *)
Fixpoint put (i : nat) (item : option JsValue) (final : list (option JsValue))
  : list (option JsValue) :=
  match final, i with
  | [], _ => []
  | _ :: rest, O => item :: rest
  | x :: rest, S j => x :: put j item rest
  end.

(** [val === undefined || val === '' || (Array.isArray(val) && val.length === 0)] *)
Definition is_blank (val : JsValue) : bool :=
  match val with
  | JUndefined | JString EmptyString | JArray [] => true
  | _ => false
  end.

(** [typeof val === 'object'] *)
Definition typeof_object (val : JsValue) : bool :=
  match val with
  | JNull | JArray _ | JObject _ => true
  | _ => false
  end.

(** Truthiness of what [doTraverseAndPrune] returns. *)
Definition is_truthy (v : JsValue) : bool :=
  match v with
  | JUndefined | JNull | JBool false | JNumber 0%Z | JString EmptyString => false
  | _ => true
  end.

(** [Object.keys(final).length === 0] on an array: every item is a hole. *)
Definition no_items (final : list (option JsValue)) : bool :=
  forallb (fun item => match item with None => true | Some _ => false end) final.

(** One step of [for (const key of keys)]: what becomes of [final]. *)
Definition visit {K : Type} (prune : JsValue -> Outcome JsValue)
    (remove : K -> K) (set : JsValue -> K -> K) (val : JsValue) (final : K)
  : Outcome K :=
  if is_blank val then Returns (remove final)
  else if typeof_object val then
    match prune val with
    | Throws e => Throws e
    | Returns pruned =>
        if is_truthy pruned then Returns (set pruned final)
        else Returns (remove final)
    end
  else Returns final.

Fixpoint doTraverseAndPrune (object : JsValue) : Outcome JsValue :=
  match object with
  | JUndefined | JNull => Throws TypeError_null
  | JBool _ | JNumber _ => Returns JUndefined
  | JString s => if s =? "" then Returns JUndefined else Returns (JString s)
  | JArray items =>
      (fix loop (i : nat) (todo : list (option JsValue)) (final : list (option JsValue))
         : Outcome JsValue :=
         match todo with
         | [] => if no_items final then Returns JUndefined else Returns (JArray final)
         | None :: rest => loop (S i) rest final
         | Some val :: rest =>
             match visit doTraverseAndPrune (put i None) (fun v => put i (Some v))
                         val final with
             | Throws e => Throws e
             | Returns final' => loop (S i) rest final'
             end
         end) 0 items (map clone_item items)
  | JObject fields =>
      (fix loop (todo : list (string * JsValue)) (final : list (string * JsValue))
         : Outcome JsValue :=
         match todo with
         | [] => match final with
                 | [] => Returns JUndefined
                 | _ => Returns (JObject final)
                 end
         | (key, val) :: rest =>
             match visit doTraverseAndPrune (delete key) (assign key) val final with
             | Throws e => Throws e
             | Returns final' => loop rest final'
             end
         end) fields (flat_map clone_field fields)
  end.

(** The two loops by themselves. *)
Fixpoint object_loop (todo final : list (string * JsValue)) : Outcome JsValue :=
  match todo with
  | [] => match final with
          | [] => Returns JUndefined
          | _ => Returns (JObject final)
          end
  | (key, val) :: rest =>
      match visit doTraverseAndPrune (delete key) (assign key) val final with
      | Throws e => Throws e
      | Returns final' => object_loop rest final'
      end
  end.

Fixpoint array_loop (i : nat) (todo final : list (option JsValue)) : Outcome JsValue :=
  match todo with
  | [] => if no_items final then Returns JUndefined else Returns (JArray final)
  | None :: rest => array_loop (S i) rest final
  | Some val :: rest =>
      match visit doTraverseAndPrune (put i None) (fun v => put i (Some v)) val final with
      | Throws e => Throws e
      | Returns final' => array_loop (S i) rest final'
      end
  end.

(** [v[key]] and [config.invokeTarget.target]: reading a property of
    [undefined] or [null] throws; one that is not there reads as
    [undefined]. *)
Fixpoint lookup (key : string) (fields : list (string * JsValue)) : JsValue :=
  match fields with
  | [] => JUndefined
  | (k, x) :: rest => if k =? key then x else lookup key rest
  end.

Definition TypeError_read : JsError :=
  ForeignError "TypeError: Cannot read properties of undefined".

Definition member (v : JsValue) (key : string) : Outcome JsValue :=
  match v with
  | JUndefined | JNull => Throws TypeError_read
  | JObject fields => Returns (lookup key fields)
  | _ => Returns JUndefined
  end.

Section Finalize.

(** The two type guards of [awsSamDebugConfiguration], which is not among
    the sources: they answer by the invoke target they are given. *)
Variable isTemplateTargetProperties : JsValue -> bool.
Variable isCodeTargetProperties : JsValue -> bool.

(** [{ target: t.target, b: t.b, c: t.c }] *)
Definition rebuilt (t : JsValue) (b c : string) : Outcome JsValue :=
  match member t "target", member t b, member t c with
  | Returns x, Returns y, Returns z => Returns (JObject [("target", x); (b, y); (c, z)])
  | Throws e, _, _ | _, Throws e, _ | _, _, Throws e => Throws e
  end.

(** [finalizeConfig(config, name)] for a configuration with the properties
    [config]. *)
Definition finalizeConfig (config : list (string * JsValue)) (name : string)
  : Outcome JsValue :=
  match doTraverseAndPrune (JObject config) with
  | Throws e => Throws e
  | Returns (JObject newConfig) =>
      let newConfig := assign "name" (JString name) newConfig in
      let invokeTarget := lookup "invokeTarget" config in
      if isTemplateTargetProperties invokeTarget then
        match rebuilt invokeTarget "logicalId" "templatePath" with
        | Throws e => Throws e
        | Returns target => Returns (JObject (assign "invokeTarget" target newConfig))
        end
      else if isCodeTargetProperties invokeTarget then
        match rebuilt invokeTarget "lambdaHandler" "projectRoot" with
        | Throws e => Throws e
        | Returns target => Returns (JObject (assign "invokeTarget" target newConfig))
        end
      else Returns (JObject newConfig)
  | Returns _ => Throws TypeError_set
  end.

End Finalize.

(** *** Vocabulary of the statements *)

(** What one visit makes of a value: [None] when its key is deleted. *)
Definition keep (val : JsValue) : Outcome (option JsValue) :=
  if is_blank val then Returns None
  else if typeof_object val then
    match doTraverseAndPrune val with
    | Throws e => Throws e
    | Returns pruned => if is_truthy pruned then Returns (Some pruned) else Returns None
    end
  else Returns (Some val).

Definition kept_field (field : string * JsValue) : list (string * JsValue) :=
  match keep (snd field) with
  | Returns (Some v) => [(fst field, v)]
  | _ => []
  end.


Definition survives (val : JsValue) : Prop := exists r, keep val = Returns r.

(** A [null] somewhere in the value, at any depth. *)
Fixpoint null_inside (v : JsValue) : bool :=
  match v with
  | JNull => true
  | JArray items =>
      existsb (fun item => match item with
                           | Some x => null_inside x
                           | None => false
                           end) items
  | JObject fields => existsb (fun '(_, x) => null_inside x) fields
  | _ => false
  end.

Fixpoint unique (keys : list string) : bool :=
  match keys with
  | [] => true
  | k :: rest => negb (existsb (String.eqb k) rest) && unique rest
  end.



Section Induction.

Variable P : JsValue -> Prop.
Hypothesis P_undefined : P JUndefined.
Hypothesis P_null : P JNull.
Hypothesis P_bool : forall b, P (JBool b).
Hypothesis P_number : forall n, P (JNumber n).
Hypothesis P_string : forall s, P (JString s).
Hypothesis P_array :
  forall items,
    Forall (fun item => match item with Some x => P x | None => True end) items ->
    P (JArray items).
Hypothesis P_object :
  forall fields, Forall (fun field => P (snd field)) fields -> P (JObject fields).

Fixpoint JsValue_induction (v : JsValue) : P v :=
  match v with
  | JUndefined => P_undefined
  | JNull => P_null
  | JBool b => P_bool b
  | JNumber n => P_number n
  | JString s => P_string s
  | JArray items =>
      P_array items
        ((fix all (l : list (option JsValue))
            : Forall (fun item => match item with Some x => P x | None => True end) l :=
            match l with
            | [] => Forall_nil _
            | Some x :: rest => Forall_cons (Some x) (JsValue_induction x) (all rest)
            | None :: rest => Forall_cons None I (all rest)
            end) items)
  | JObject fields =>
      P_object fields
        ((fix all (l : list (string * JsValue))
            : Forall (fun field => P (snd field)) l :=
            match l with
            | [] => Forall_nil _
            | (k, x) :: rest => Forall_cons (k, x) (JsValue_induction x) (all rest)
            end) fields)
  end.

End Induction.

(** A sample configuration: a template target, an empty event, one
    environment variable and a name to be replaced. *)
Definition sample_launch : list (string * JsValue) :=
  [("type", JString "aws-sam");
   ("name", JString "");
   ("invokeTarget",
    JObject [("target", JString "template"); ("templatePath", JString "template.yaml");
             ("logicalId", JString "Fn"); ("lambdaHandler", JString "")]);
   ("lambda",
    JObject [("payload", JObject [("json", JObject [])]);
             ("environmentVariables", JObject [("STAGE", JString "dev")]);
             ("memoryMb", JUndefined)]);
   ("sam", JObject [("buildArguments", JArray []); ("containerBuild", JBool false)])].

(** A run either throws the [TypeError] of [Object.keys(null)], and there is
    a [null] inside the value, or returns, and there is none. *)
Definition null_or_returns (v : JsValue) : Prop :=
  (doTraverseAndPrune v = Throws TypeError_null /\ null_inside v = true)
  \/ ((exists r, doTraverseAndPrune v = Returns r) /\ null_inside v = false).

(** Sample guards: a target is of a kind by its [target] property. *)
Definition target_is (kind : string) (t : JsValue) : bool :=
  match t with
  | JObject fields =>
      match lookup "target" fields with
      | JString s => s =? kind
      | _ => false
      end
  | _ => false
  end.


End SamInvoke.

(* ================================================================= *)
(** ** Basic facts *)

Lemma world_eta (w : World) :
  mkWorld (clock w) (polls w) (nextId w) (trace w) = w.
Proof. destruct w; reflexivity. Qed.

Lemma after_waiting_0 (w : World) : after_waiting w 0 [] = w.
Proof.
  unfold after_waiting. rewrite !Nat.add_0_r, app_nil_r. apply world_eta.
Qed.

Lemma in_progress_cases (s : string) :
  in_progress s = true -> s = "predict-ready" \/ s = "InProgress".
Proof.
  unfold in_progress. intros H. apply orb_true_iff in H.
  destruct H as [H | H]; apply String.eqb_eq in H; auto.
Qed.

Lemma is_failure_cases (s : string) :
  is_failure s = true -> s = "predict-failed" \/ s = "debate-failed" \/ s = "Failed".
Proof.
  unfold is_failure. intros H. rewrite !orb_true_iff in H.
  destruct H as [[H | H] | H]; apply String.eqb_eq in H; auto.
Qed.

Lemma unrecognized_eqb (s : string) :
  ~ In s recognized_statuses ->
  (s =? "Complete") = false /\ in_progress s = false /\ is_failure s = false.
Proof.
  intros H. unfold in_progress, is_failure.
  assert (forall r, In r recognized_statuses -> (s =? r) = false) as E.
  { intros r Hr. apply String.eqb_neq. intros ->. exact (H Hr). }
  rewrite !E; simpl; auto 10.
Qed.

Lemma staging_no_remote_call (env : Env) (uploadId conversationId : string)
    (files : NewFileContents) :
  filter is_remote_call (staging env uploadId conversationId files) = [].
Proof. induction files as [| f rest IH]; [reflexivity | exact IH]. Qed.

Lemma staging_no_new (env : Env) (uploadId conversationId : string)
    (files : NewFileContents) :
  built (staging env uploadId conversationId files) = [].
Proof. induction files as [| f rest IH]; [reflexivity | exact IH]. Qed.

Section GenerateCode.

Variable env : Env.
Variable this : CodeGenBase.t.
Variable codeGenerationId : string.

Let tok := CodeGenBase.tokenSource this.

Lemma createFilePaths_from_spec (files : NewFileContents) :
  forall (acc : list string) (uploadId conversationId : string) (w : World),
    createFilePaths_from env acc files uploadId conversationId w =
      (Returns (acc ++ map filePath files)%list,
       mkWorld (clock w) (polls w) (nextId w)
               (trace w ++ staging env uploadId conversationId files)).
Proof.
  induction files as [| f rest IH]; intros acc uploadId conversationId w.
  - simpl. rewrite !app_nil_r, world_eta. reflexivity.
  - simpl. unfold bind, registerProvider, emit. simpl. rewrite IH. simpl.
    rewrite <- !app_assoc. reflexivity.
Qed.

Lemma createFilePaths_spec (files : NewFileContents)
    (uploadId conversationId : string) (w : World) :
  createFilePaths env files uploadId conversationId w =
    (Returns (map filePath files),
     mkWorld (clock w) (polls w) (nextId w)
             (trace w ++ staging env uploadId conversationId files)).
Proof. unfold createFilePaths. apply createFilePaths_from_spec. Qed.

Lemma generateCode_loop_S (n : nat) (w : World) :
  generateCode_loop env this codeGenerationId (S n) w =
    if cancelled_at env tok (clock w) then (Returns None, w)
    else match generateCode_body env this codeGenerationId w with
         | (Returns (Return r), w') => (Returns (Some r), w')
         | (Returns Continue, w') => generateCode_loop env this codeGenerationId n w'
         | (Throws e, w') => (Throws e, w')
         end.
Proof.
  simpl. unfold bind, isCancellationRequested. fold tok.
  destruct (cancelled_at env tok (clock w)); [reflexivity |].
  destruct (generateCode_body env this codeGenerationId w) as [[[| r] | e] w'];
    reflexivity.
Qed.

Let cid := CodeGenBase.conversationId this.

Lemma body_in_progress (status : string) (w : World) :
  getCodeGeneration env (polls w) cid codeGenerationId = Returns status ->
  in_progress status = true ->
  generateCode_body env this codeGenerationId w =
    (Returns Continue,
     mkWorld (clock w + 2) (S (polls w)) (nextId w)
             (trace w ++ waiting_round this codeGenerationId status)).
Proof.
  intros Hreply Hs. unfold generateCode_body, bind, proxy_getCodeGeneration.
  fold cid. rewrite Hreply. cbn [emit await ret trace clock polls nextId].
  apply in_progress_cases in Hs. unfold waiting_round, poll_round. fold cid.
  destruct Hs as [-> | ->]; cbn -[Z.of_nat];
    rewrite <- !app_assoc; unfold ret, CodeGenBase.requestDelay; cbn [app];
    (f_equal; f_equal; lia).
Qed.

Lemma body_complete (files : NewFileContents) (w : World) :
  getCodeGeneration env (polls w) cid codeGenerationId = Returns "Complete" ->
  exportResultArchive env (S (clock w)) cid = Returns files ->
  generateCode_body env this codeGenerationId w =
    (Returns (Return (mkCodeGeneration files (map filePath files))),
     mkWorld (clock w + 2) (S (polls w)) (nextId w)
             (trace w ++ poll_round this codeGenerationId "Complete"
                      ++ [EvExportResultArchive cid]
                      ++ staging env (CodeGenBase.uploadId this) cid files)).
Proof.
  intros Hreply Hexport. unfold generateCode_body, bind, proxy_getCodeGeneration.
  fold cid. rewrite Hreply.
  cbn [emit await ret trace clock polls nextId String.eqb Ascii.eqb Bool.eqb].
  cbn [emit await ret trace clock polls nextId]. rewrite Hexport.
  rewrite createFilePaths_spec. cbn [trace clock polls nextId].
  unfold poll_round, ret. fold cid. rewrite <- !app_assoc. cbn [app].
  f_equal. f_equal. lia.
Qed.

Lemma body_failure (status : string) (w : World) :
  getCodeGeneration env (polls w) cid codeGenerationId = Returns status ->
  is_failure status = true ->
  generateCode_body env this codeGenerationId w =
    (Throws generation_failed_error,
     mkWorld (S (clock w)) (S (polls w)) (nextId w)
             (trace w ++ poll_round this codeGenerationId status)).
Proof.
  intros Hreply Hs. unfold generateCode_body, bind, proxy_getCodeGeneration.
  fold cid. rewrite Hreply. cbn [emit await ret trace clock polls nextId].
  apply is_failure_cases in Hs. unfold poll_round. fold cid.
  destruct Hs as [-> | [-> | ->]]; cbn; rewrite <- !app_assoc; reflexivity.
Qed.

Lemma body_unknown (status : string) (w : World) :
  getCodeGeneration env (polls w) cid codeGenerationId = Returns status ->
  ~ In status recognized_statuses ->
  generateCode_body env this codeGenerationId w =
    (Throws (unknown_status_error status),
     mkWorld (S (clock w)) (S (polls w)) (nextId w)
             (trace w ++ poll_round this codeGenerationId status)).
Proof.
  intros Hreply Hs. unfold generateCode_body, bind, proxy_getCodeGeneration.
  fold cid. rewrite Hreply. cbn [emit await ret trace clock polls nextId].
  destruct (unrecognized_eqb status Hs) as (E1 & E2 & E3).
  unfold in_progress in E2. unfold is_failure in E3. rewrite E1, E2, E3.
  unfold poll_round, throw, unknown_status_error. fold cid.
  rewrite <- !app_assoc. reflexivity.
Qed.

Lemma job_reports_tail (w w' : World) (status : string) (rest : list string) :
  polls w' = S (polls w) ->
  job_reports env this codeGenerationId w (status :: rest) ->
  job_reports env this codeGenerationId w' rest.
Proof.
  intros Hp H i s Hi. rewrite Hp.
  replace (S (polls w) + i) with (polls w + S i) by lia.
  apply H. exact Hi.
Qed.

Lemma not_cancelled_tail (w w' : World) (n : nat) :
  clock w' = clock w + 2 ->
  not_cancelled_through env tok w (S n) ->
  not_cancelled_through env tok w' n.
Proof.
  intros Hc H i Hi. rewrite Hc.
  replace (clock w + 2 + 2 * i) with (clock w + 2 * S i) by lia.
  apply H. lia.
Qed.

(** As long as the job answers "not yet" and nobody cancels, the loop goes
    round: one query and one delay per status. *)
Lemma loop_waiting (statuses : list string) :
  forall (m : nat) (w : World),
    job_reports env this codeGenerationId w statuses ->
    Forall (fun s => in_progress s = true) statuses ->
    not_cancelled_through env tok w (length statuses) ->
    generateCode_loop env this codeGenerationId (length statuses + m) w =
      generateCode_loop env this codeGenerationId m
        (after_waiting w (length statuses)
                       (waiting_rounds this codeGenerationId statuses)).
Proof.
  induction statuses as [| s rest IH]; intros m w Hjob Hall Hnc.
  - cbn [length waiting_rounds flat_map Nat.add]. rewrite after_waiting_0. reflexivity.
  - cbn [length Nat.add]. rewrite generateCode_loop_S.
    assert (cancelled_at env tok (clock w) = false) as Hc.
    { replace (clock w) with (clock w + 2 * 0) by lia. apply Hnc. cbn. lia. }
    rewrite Hc.
    assert (getCodeGeneration env (polls w) cid codeGenerationId = Returns s) as Hs.
    { replace (polls w) with (polls w + 0) by lia. apply Hjob. reflexivity. }
    inversion Hall as [| ? ? Hin Hrest]; subst.
    rewrite (body_in_progress s w Hs Hin).
    rewrite IH.
    + unfold after_waiting. cbn [clock polls nextId trace waiting_rounds flat_map length].
      f_equal. f_equal; try lia. rewrite <- app_assoc. reflexivity.
    + eapply job_reports_tail; [| exact Hjob]. reflexivity.
    + exact Hrest.
    + eapply not_cancelled_tail; [| exact Hnc]. reflexivity.
Qed.

End GenerateCode.

(* ================================================================= *)
(** ** The polling loop *)

Section GenerateCodeTheorems.

Variable env : Env.
Variable this : CodeGenBase.t.
Variable codeGenerationId : string.

Let tok := CodeGenBase.tokenSource this.
Let cid := CodeGenBase.conversationId this.
Let uploadId := CodeGenBase.uploadId this.

Lemma staging_no_sleep (files : NewFileContents) :
  filter is_sleep (staging env uploadId cid files) = [].
Proof. induction files as [| f rest IH]; [reflexivity | exact IH]. Qed.

Lemma staging_no_poll (files : NewFileContents) :
  filter is_poll (staging env uploadId cid files) = [].
Proof. induction files as [| f rest IH]; [reflexivity | exact IH]. Qed.

Lemma staging_registers (files : NewFileContents) :
  filter is_register (staging env uploadId cid files) =
    map (registration env uploadId) files.
Proof.
  induction files as [| f rest IH]; [reflexivity |].
  cbn [map]. rewrite <- IH. reflexivity.
Qed.

Lemma waiting_rounds_no_register (statuses : list string) :
  filter is_register (waiting_rounds this codeGenerationId statuses) = [].
Proof. induction statuses as [| s rest IH]; [reflexivity | exact IH]. Qed.

(** Leaving the loop through its condition: a timeout unless the token is
    signaled. *)
Lemma generateCode_after_loop (w w' : World) :
  generateCode_loop env this codeGenerationId CodeGenBase.pollCount w = (Returns None, w') ->
  generateCode env this codeGenerationId w =
    if cancelled_at env tok (clock w')
    then (Returns (mkCodeGeneration [] []), w')
    else (Throws timeout_error, w').
Proof.
  intros H. unfold generateCode, bind. rewrite H.
  unfold isCancellationRequested. fold tok.
  destruct (cancelled_at env tok (clock w')); reflexivity.
Qed.

(** C1.  When the job answers [InProgress], [InProgress], [Complete] and
    the token is not signaled at the three loop checks, [generateCode] polls
    three times with exactly two delays in between, exports the archive,
    registers one provider per exported file at
    [path.join(uploadId, filePath)] and returns the files with their paths. *)
Theorem generateCode_two_repolls_then_complete (w : World) (files : NewFileContents) :
  job_reports env this codeGenerationId w ["InProgress"; "InProgress"; "Complete"] ->
  not_cancelled_through env tok w 3 ->
  exportResultArchive env (clock w + 5) cid = Returns files ->
  exists events : list Event,
    generateCode env this codeGenerationId w =
      (Returns (mkCodeGeneration files (map filePath files)),
       mkWorld (clock w + 6) (polls w + 3) (nextId w) (trace w ++ events))
    /\ events =
         (waiting_round this codeGenerationId "InProgress"
          ++ waiting_round this codeGenerationId "InProgress"
          ++ poll_round this codeGenerationId "Complete"
          ++ [EvExportResultArchive cid]
          ++ staging env uploadId cid files)%list
    /\ filter is_sleep events = [EvSetTimeout 10000; EvSetTimeout 10000]
    /\ length (filter is_poll events) = 3
    /\ filter is_register events = map (registration env uploadId) files.
Proof.
  intros Hjob Hnc Hexport.
  eexists. split; [| split; [reflexivity |]].
  - unfold generateCode, bind.
    change CodeGenBase.pollCount with (length ["InProgress"; "InProgress"] + S 177).
    rewrite loop_waiting.
    + rewrite generateCode_loop_S.
      cbn [length after_waiting clock polls Nat.mul Nat.add].
      pose proof (Hnc 2 ltac:(lia)) as Hc. cbn [Nat.mul Nat.add] in Hc.
      fold tok. rewrite Hc.
      erewrite body_complete.
      * cbn [clock polls nextId trace waiting_rounds flat_map].
        unfold ret. f_equal. f_equal; cbn [after_waiting clock polls trace]; try lia.
        rewrite app_nil_r, <- !app_assoc. reflexivity.
      * cbn [polls]. fold cid. apply Hjob. reflexivity.
      * cbn [after_waiting clock]. fold cid. rewrite <- Hexport. f_equal. lia.
    + intros i s Hi. apply Hjob.
      destruct i as [| [| i]]; cbn in Hi |- *; try exact Hi.
      destruct i; discriminate.
    + repeat constructor.
    + intros i Hi. apply Hnc. cbn in Hi. lia.
  - rewrite !filter_app, staging_no_sleep, staging_no_poll, staging_registers.
    repeat split.
Qed.

(** C2.  Whenever a status query — the first one or one that follows any
    number of "not yet" answers — is answered with [Failed],
    [predict-failed] or [debate-failed], [generateCode] throws "Code
    generation failed" at once; when it is answered with a status outside
    the recognized set it throws "Unknown status: <status>", the raw status
    being part of the message.  In both cases the query is the last thing
    that happens: no delay, no further query, and no file is registered. *)
Theorem generateCode_fails_without_retry
    (w : World) (statuses : list string) (status : string) :
  length statuses < CodeGenBase.pollCount ->
  job_reports env this codeGenerationId w (statuses ++ [status]) ->
  Forall (fun s => in_progress s = true) statuses ->
  not_cancelled_through env tok w (S (length statuses)) ->
  exists events : list Event,
    events = (waiting_rounds this codeGenerationId statuses
              ++ poll_round this codeGenerationId status)%list
    /\ filter is_register events = []
    /\ (is_failure status = true ->
        generateCode env this codeGenerationId w =
          (Throws generation_failed_error,
           mkWorld (clock w + 2 * length statuses + 1) (polls w + length statuses + 1)
                   (nextId w) (trace w ++ events)))
    /\ (~ In status recognized_statuses ->
        generateCode env this codeGenerationId w =
          (Throws (unknown_status_error status),
           mkWorld (clock w + 2 * length statuses + 1) (polls w + length statuses + 1)
                   (nextId w) (trace w ++ events))
        /\ exists before after,
             unknown_status_error status =
               ToolkitError (before ++ status ++ after) None).
Proof.
  intros Hlen Hjob Hall Hnc.
  eexists. split; [reflexivity |]. split.
  { rewrite filter_app, waiting_rounds_no_register. reflexivity. }
  assert (exists m, CodeGenBase.pollCount = length statuses + S m) as [m Hm].
  { exists (CodeGenBase.pollCount - length statuses - 1). lia. }
  assert (generateCode_loop env this codeGenerationId CodeGenBase.pollCount w =
          match generateCode_body env this codeGenerationId
                  (after_waiting w (length statuses)
                     (waiting_rounds this codeGenerationId statuses)) with
          | (Returns (Return r), w') => (Returns (Some r), w')
          | (Returns Continue, w') => generateCode_loop env this codeGenerationId m w'
          | (Throws e, w') => (Throws e, w')
          end) as Hloop.
  { rewrite Hm, loop_waiting.
    - rewrite generateCode_loop_S. cbn [after_waiting clock]. fold tok.
      rewrite (Hnc (length statuses)) by lia. reflexivity.
    - intros i s Hi. apply Hjob. rewrite nth_error_app1; [exact Hi |].
      apply nth_error_Some. rewrite Hi. discriminate.
    - exact Hall.
    - intros i Hi. apply Hnc. lia. }
  assert (getCodeGeneration env
            (polls (after_waiting w (length statuses)
                      (waiting_rounds this codeGenerationId statuses)))
            (CodeGenBase.conversationId this) codeGenerationId = Returns status) as Hlast.
  { cbn [after_waiting polls]. apply Hjob.
    rewrite nth_error_app2 by lia. rewrite Nat.sub_diag. reflexivity. }
  split.
  - intros Hfail. unfold generateCode, bind. rewrite Hloop.
    rewrite (body_failure env this codeGenerationId status _ Hlast Hfail).
    cbn [after_waiting clock polls nextId trace].
    f_equal. f_equal; try lia. rewrite <- app_assoc. reflexivity.
  - intros Hunknown. split.
    + unfold generateCode, bind. rewrite Hloop.
      rewrite (body_unknown env this codeGenerationId status _ Hlast Hunknown).
      cbn [after_waiting clock polls nextId trace].
      f_equal. f_equal; try lia. rewrite <- app_assoc. reflexivity.
    + exists "Unknown status: ", newline. reflexivity.
Qed.

(** C3.  When the token is found signaled at a loop check — the first one,
    or the one that follows any number of "not yet" rounds, the check that
    ends the budget included — [generateCode] leaves the loop and returns
    the empty result; nothing is thrown and nothing more is asked of the
    remote service. *)
Theorem generateCode_cancelled_returns_empty (w : World) (statuses : list string) :
  length statuses <= CodeGenBase.pollCount ->
  job_reports env this codeGenerationId w statuses ->
  Forall (fun s => in_progress s = true) statuses ->
  not_cancelled_through env tok w (length statuses) ->
  cancelled_at env tok (clock w + 2 * length statuses) = true ->
  generateCode env this codeGenerationId w =
    (Returns (mkCodeGeneration [] []),
     after_waiting w (length statuses) (waiting_rounds this codeGenerationId statuses)).
Proof.
  intros Hlen Hjob Hall Hnc Hc.
  assert (exists m, CodeGenBase.pollCount = length statuses + m) as [m Hm].
  { exists (CodeGenBase.pollCount - length statuses). lia. }
  rewrite (generateCode_after_loop w
             (after_waiting w (length statuses)
                (waiting_rounds this codeGenerationId statuses))).
  - cbn [after_waiting clock]. fold tok. rewrite Hc. reflexivity.
  - rewrite Hm, loop_waiting by assumption.
    destruct m as [| m]; [reflexivity |].
    rewrite generateCode_loop_S. cbn [after_waiting clock]. fold tok.
    rewrite Hc. reflexivity.
Qed.

Lemma quiet_run_intro (w : World) (time polled : nat) (events : list Event) (n : nat) :
  built events = [] ->
  length (filter is_poll events) = n ->
  quiet_run w (mkWorld time polled (nextId w) (trace w ++ events)) events n.
Proof. intros H1 H2. repeat split; assumption. Qed.

Lemma body_effects (w : World) :
  exists events,
    quiet_run w (snd (generateCode_body env this codeGenerationId w)) events 1.
Proof.
  unfold generateCode_body, bind, proxy_getCodeGeneration.
  destruct (getCodeGeneration env (polls w) (CodeGenBase.conversationId this)
              codeGenerationId) as [status | e].
  - destruct (status =? "Complete").
    + cbn -[createFilePaths String.append].
      destruct (exportResultArchive env (S (clock w)) (CodeGenBase.conversationId this))
        as [files | e].
      * rewrite createFilePaths_spec. cbn [snd clock polls nextId trace].
        rewrite <- !app_assoc. eexists. apply quiet_run_intro.
        -- cbn [app built flat_map]. apply staging_no_new.
        -- cbn [app filter is_poll length]. fold cid uploadId.
           rewrite staging_no_poll. reflexivity.
      * cbn [snd]. rewrite <- !app_assoc. eexists. apply quiet_run_intro; reflexivity.
    + destruct ((status =? "predict-ready") || (status =? "InProgress")).
      * cbn -[String.append]. rewrite <- !app_assoc.
        eexists. apply quiet_run_intro; reflexivity.
      * destruct ((status =? "predict-failed") || (status =? "debate-failed")
                  || (status =? "Failed"));
          cbn -[String.append]; rewrite <- !app_assoc;
          eexists; apply quiet_run_intro; reflexivity.
  - cbn [snd]. eexists. apply quiet_run_intro; reflexivity.
Qed.

Lemma loop_effects (n : nat) :
  forall w : World,
    exists events k,
      quiet_run w (snd (generateCode_loop env this codeGenerationId n w)) events k
      /\ k <= n.
Proof.
  induction n as [| n IH]; intros w.
  - exists [], 0. split; [| lia]. cbn [generateCode_loop ret snd].
    unfold quiet_run. rewrite app_nil_r. repeat split.
  - rewrite generateCode_loop_S.
    destruct (cancelled_at env (CodeGenBase.tokenSource this) (clock w)).
    { exists [], 0. split; [| lia]. cbn [snd].
      unfold quiet_run. rewrite app_nil_r. repeat split. }
    destruct (body_effects w) as (ev1 & Htrace & Hid & Hnew & Hcount).
    destruct (generateCode_body env this codeGenerationId w) as [[[| r] | e] w1];
      cbn [snd] in Htrace, Hid |- *.
    + destruct (IH w1) as (ev2 & k & (Htrace2 & Hid2 & Hnew2 & Hcount2) & Hk).
      exists (ev1 ++ ev2)%list, (1 + k). split; [| lia].
      unfold quiet_run. rewrite Htrace2, Htrace, <- app_assoc, Hid2, Hid.
      unfold built in *. rewrite flat_map_app, Hnew, Hnew2.
      rewrite !filter_app, length_app, Hcount, Hcount2.
      repeat split.
    + exists ev1, 1. split; [| lia]. repeat split; assumption.
    + exists ev1, 1. split; [| lia]. repeat split; assumption.
Qed.

(** Whatever the service answers, [generateCode] builds no state object and
    makes at most [pollCount] status queries. *)
Lemma generateCode_effects (w : World) :
  exists events k,
    quiet_run w (snd (generateCode env this codeGenerationId w)) events k
    /\ k <= CodeGenBase.pollCount.
Proof.
  destruct (loop_effects CodeGenBase.pollCount w) as (events & k & Hquiet & Hk).
  exists events, k. split; [| exact Hk].
  unfold generateCode, bind, isCancellationRequested.
  destruct (generateCode_loop env this codeGenerationId CodeGenBase.pollCount w)
    as [[[r |] | e] w1]; cbn [snd] in Hquiet |- *; try exact Hquiet.
  destruct (negb (cancelled_at env (CodeGenBase.tokenSource this) (clock w1)));
    exact Hquiet.
Qed.

(** C4.  Whatever the remote service and the token do, one call of
    [generateCode] makes at most 180 status queries; and when all 180 are
    answered [InProgress] and the token is never signaled, the call throws
    the timeout error, which is not the error of a failed generation. *)
Theorem generateCode_bounded_and_times_out (w : World) :
  (exists events,
      trace (snd (generateCode env this codeGenerationId w)) = (trace w ++ events)%list
      /\ length (filter is_poll events) <= 180)
  /\ (job_reports env this codeGenerationId w (repeat "InProgress" 180) ->
      not_cancelled_through env tok w 181 ->
      generateCode env this codeGenerationId w =
        (Throws timeout_error,
         after_waiting w 180
           (waiting_rounds this codeGenerationId (repeat "InProgress" 180)))
      /\ timeout_error <> generation_failed_error).
Proof.
  split.
  - destruct (generateCode_effects w) as (events & k & (Htrace & _ & _ & Hcount) & Hk).
    exists events. split; [exact Htrace |].
    rewrite Hcount. exact Hk.
  - intros Hjob Hnc. split; [| discriminate].
    pose (statuses := repeat "InProgress" 180).
    assert (length statuses = 180) as Hlen by apply repeat_length.
    rewrite (generateCode_after_loop w
               (after_waiting w 180 (waiting_rounds this codeGenerationId statuses))).
    + cbn [after_waiting clock]. fold tok.
      rewrite (Hnc 180) by lia. reflexivity.
    + change CodeGenBase.pollCount with (length statuses + 0).
      rewrite loop_waiting.
      * rewrite Hlen. reflexivity.
      * exact Hjob.
      * apply Forall_forall. intros s Hs. apply repeat_spec in Hs. subst s. reflexivity.
      * intros i Hi. apply Hnc. lia.
Qed.

End GenerateCodeTheorems.

(** The loop on sample worlds. *)

Lemma generateCode_two_repolls_then_complete_witness :
  exists events : list Event,
    generateCode (scripted_env ["InProgress"; "InProgress"; "Complete"] (Returns None) None)
                 sample_base "gen-1" sample_world =
      (Returns (mkCodeGeneration sample_files ["src/a.ts"; "README.md"]),
       mkWorld 6 3 1 events)
    /\ filter is_sleep events = [EvSetTimeout 10000; EvSetTimeout 10000]
    /\ filter is_register events =
         [EvRegisterProvider "weaverbird" "upload-1/src/a.ts" (encode "let a = 1");
          EvRegisterProvider "weaverbird" "upload-1/README.md" (encode "# hi")].
Proof.
  destruct (generateCode_two_repolls_then_complete
              (scripted_env ["InProgress"; "InProgress"; "Complete"] (Returns None) None)
              sample_base "gen-1" sample_world sample_files)
    as (events & Hrun & _ & Hsleep & _ & Hreg).
  - intros i s Hi. destruct i as [| [| [| i]]]; cbn in Hi |- *;
      try (injection Hi as <-; reflexivity).
    destruct i; discriminate.
  - intros i _. reflexivity.
  - reflexivity.
  - exists events. split; [exact Hrun | split; [exact Hsleep | exact Hreg]].
Defined.

Lemma generateCode_fails_without_retry_witness :
  generateCode (scripted_env ["InProgress"; "Failed"] (Returns None) None)
               sample_base "gen-1" sample_world =
    (Throws (ToolkitError "Code generation failed" None),
     mkWorld 3 2 1
       [EvGetCodeGeneration "conv-1" "gen-1"; EvLoggerInfo "Codegen response: InProgress";
        EvSetTimeout 10000;
        EvGetCodeGeneration "conv-1" "gen-1"; EvLoggerInfo "Codegen response: Failed"])
  /\ generateCode (scripted_env ["weird-status"] (Returns None) None)
                  sample_base "gen-1" sample_world =
       (Throws (ToolkitError ("Unknown status: weird-status" ++ newline) None),
        mkWorld 1 1 1
          [EvGetCodeGeneration "conv-1" "gen-1";
           EvLoggerInfo "Codegen response: weird-status"]).
Proof.
  split.
  - destruct (generateCode_fails_without_retry
                (scripted_env ["InProgress"; "Failed"] (Returns None) None)
                sample_base "gen-1" sample_world ["InProgress"] "Failed")
      as (events & -> & _ & Hfail & _).
    + unfold CodeGenBase.pollCount. cbn. lia.
    + intros i s Hi. destruct i as [| [| i]]; cbn in Hi |- *;
        try (injection Hi as <-; reflexivity).
      destruct i; discriminate.
    + repeat constructor.
    + intros i _. reflexivity.
    + exact (Hfail eq_refl).
  - destruct (generateCode_fails_without_retry
                (scripted_env ["weird-status"] (Returns None) None)
                sample_base "gen-1" sample_world [] "weird-status")
      as (events & -> & _ & _ & Hunknown).
    + unfold CodeGenBase.pollCount. cbn. lia.
    + intros i s Hi. destruct i as [| i]; cbn in Hi |- *;
        try (injection Hi as <-; reflexivity).
      destruct i; discriminate.
    + constructor.
    + intros i _. reflexivity.
    + apply Hunknown. cbn. intros H.
      repeat (destruct H as [H | H]; [discriminate |]). exact H.
Defined.

Lemma generateCode_cancelled_returns_empty_witness :
  generateCode (scripted_env [] (Returns None) (Some 0)) sample_base "gen-1" sample_world =
    (Returns (mkCodeGeneration [] []), sample_world)
  /\ generateCode (scripted_env [] (Returns None) (Some 3)) sample_base "gen-1" sample_world =
       (Returns (mkCodeGeneration [] []),
        mkWorld 4 2 1
          [EvGetCodeGeneration "conv-1" "gen-1"; EvLoggerInfo "Codegen response: InProgress";
           EvSetTimeout 10000;
           EvGetCodeGeneration "conv-1" "gen-1"; EvLoggerInfo "Codegen response: InProgress";
           EvSetTimeout 10000]).
Proof.
  split.
  - apply (generateCode_cancelled_returns_empty
             (scripted_env [] (Returns None) (Some 0)) sample_base "gen-1" sample_world []).
    + unfold CodeGenBase.pollCount. cbn. lia.
    + intros i s Hi. destruct i; discriminate.
    + constructor.
    + intros i Hi. cbn in Hi. lia.
    + reflexivity.
  - apply (generateCode_cancelled_returns_empty
             (scripted_env [] (Returns None) (Some 3)) sample_base "gen-1" sample_world
             ["InProgress"; "InProgress"]).
    + unfold CodeGenBase.pollCount. cbn. lia.
    + intros i s Hi. destruct i as [| [| i]]; cbn in Hi |- *;
        try (injection Hi as <-; reflexivity).
      destruct i; discriminate.
    + repeat constructor.
    + intros i Hi. cbn in Hi. destruct i as [| [| i]]; [reflexivity | reflexivity | lia].
    + reflexivity.
Defined.

Lemma generateCode_bounded_and_times_out_witness :
  fst (generateCode (scripted_env [] (Returns None) None) sample_base "gen-1" sample_world) =
    Throws (ToolkitError "Code generation did not finish withing the expected time" None)
  /\ polls (snd (generateCode (scripted_env [] (Returns None) None)
                              sample_base "gen-1" sample_world)) = 180.
Proof.
  destruct (generateCode_bounded_and_times_out
              (scripted_env [] (Returns None) None) sample_base "gen-1" sample_world)
    as [_ Htimeout].
  destruct Htimeout as [Hrun _].
  - intros i s Hi. apply nth_error_In, repeat_spec in Hi. subst s.
    cbn. destruct i; reflexivity.
  - intros i _. reflexivity.
  - rewrite Hrun. split; reflexivity.
Defined.

(* ================================================================= *)
(** ** Substrings *)

Lemma starts_with_app (needle rest : string) : starts_with needle (needle ++ rest) = true.
Proof.
  induction needle as [| a needle IH]; [reflexivity |].
  cbn. rewrite Ascii.eqb_refl. exact IH.
Qed.

(** [includes] finds every occurrence of the needle, wherever it stands. *)
Lemma includes_app (needle before after : string) :
  includes needle (before ++ needle ++ after) = true.
Proof.
  induction before as [| c before IH].
  - cbn [String.append]. destruct (needle ++ after) eqn:E.
    + cbn [includes]. rewrite <- E, starts_with_app. reflexivity.
    + cbn [includes]. rewrite <- E, starts_with_app. reflexivity.
  - cbn [String.append includes]. rewrite IH.
    destruct (starts_with needle (String c (before ++ needle ++ after))); reflexivity.
Qed.

Lemma includes_false_inv (needle : string) (c : ascii) (s : string) :
  includes needle (String c s) = false ->
  starts_with needle (String c s) = false /\ includes needle s = false.
Proof.
  cbn [includes]. destruct (starts_with needle (String c s)); [discriminate | auto].
Qed.

Lemma starts_with_snoc (c : ascii) (needle : string) :
  ~ occurs c needle ->
  forall s, starts_with needle s = false ->
            starts_with needle (s ++ String c EmptyString) = false.
Proof.
  induction needle as [| a needle IH]; intros Hc s Hs; [discriminate |].
  destruct s as [| b s]; cbn in Hs |- *.
  - destruct (Ascii.eqb a c) eqn:E; [| reflexivity].
    apply Ascii.eqb_eq in E. exfalso. apply Hc. left. exact E.
  - destruct (Ascii.eqb a b); [| reflexivity]. cbn in Hs |- *.
    apply IH; [| exact Hs]. intros H. apply Hc. right. exact H.
Qed.

(** Appending a character that is foreign to the needle creates no
    occurrence of it. *)
Lemma includes_snoc (c : ascii) (needle : string) :
  ~ occurs c needle -> needle <> EmptyString ->
  forall s, includes needle s = false ->
            includes needle (s ++ String c EmptyString) = false.
Proof.
  intros Hc Hne. induction s as [| b s IH]; intros Hs.
  - cbn [String.append includes].
    assert (starts_with needle (String c "") = false) as E.
    { apply (starts_with_snoc c needle Hc ""). destruct needle; [contradiction | reflexivity]. }
    rewrite E. destruct needle; [contradiction | reflexivity].
  - apply includes_false_inv in Hs. destruct Hs as [Hp Hs].
    cbn [String.append includes].
    change (String b (s ++ String c "")) with (String b s ++ String c "").
    rewrite (starts_with_snoc c needle Hc _ Hp). apply IH. exact Hs.
Qed.

Lemma includes_skip (needle : string) (a c : ascii) (rest s : string) :
  needle = String a rest -> Ascii.eqb a c = false ->
  includes needle (String c s) = includes needle s.
Proof.
  intros -> Hne. cbn [includes starts_with]. rewrite Hne. reflexivity.
Qed.

(** The sample sanitizer lets no tag through. *)
Lemma escapeMarkup_no_script (s : string) :
  includes "<script" (escapeMarkup s) = false.
Proof.
  induction s as [| c s IH]; [reflexivity |].
  cbn [escapeMarkup].
  destruct (Ascii.eqb c "<") eqn:E1; [| destruct (Ascii.eqb c ">") eqn:E2;
    [| destruct (Ascii.eqb c "&") eqn:E3]].
  - cbn [String.append].
    rewrite !(includes_skip "<script" "<" _ "script" _ eq_refl) by reflexivity.
    exact IH.
  - cbn [String.append].
    rewrite !(includes_skip "<script" "<" _ "script" _ eq_refl) by reflexivity.
    exact IH.
  - cbn [String.append].
    rewrite !(includes_skip "<script" "<" _ "script" _ eq_refl) by reflexivity.
    exact IH.
  - cbn [String.append].
    rewrite (includes_skip "<script" "<" c "script" _ eq_refl).
    + exact IH.
    + rewrite Ascii.eqb_sym. exact E1.
Qed.

(* ================================================================= *)
(** ** The states *)

Lemma falsy_cases (m : option string) :
  truthy m = false -> m = None \/ m = Some EmptyString.
Proof. destruct m as [[| c s] |]; cbn; intros H; auto; discriminate. Qed.

(** C5.  [Refinement] and [RefinementIteration], the two states whose
    [interact] needs the user's message, throw [UserMessageNotFoundError]
    when it is absent or empty.  No time has passed and the trace has gained
    no call to the remote service: the telemetry span record of
    [Refinement], and nothing at all for [RefinementIteration]. *)
Theorem interact_without_message_fails_locally
    (env : Env) (action : SessionStateAction) (w : World) :
  truthy (msg action) = false ->
  (forall this : RefinementState.t,
      RefinementState_interact env action (this, w) =
        (Throws UserMessageNotFoundError,
         (this, mkWorld (clock w) (polls w) (nextId w)
                        (trace w ++ [EvSpanRecord "awsq_approachInvoke"
                                       (RefinementState.conversationId this)])))
      /\ is_remote_call (EvSpanRecord "awsq_approachInvoke"
                           (RefinementState.conversationId this)) = false)
  /\ (forall this : RefinementIterationState.t,
         RefinementIterationState_interact env action (this, w) =
           (Throws UserMessageNotFoundError, (this, w))).
Proof.
  intros Hmsg. destruct action as [m]. cbn [msg] in Hmsg.
  apply falsy_cases in Hmsg.
  split.
  - intros this. split; [| reflexivity].
    destruct Hmsg as [-> | ->]; reflexivity.
  - intros this. destruct Hmsg as [-> | ->]; reflexivity.
Qed.

Lemma interact_without_message_fails_locally_witness :
  RefinementState_interact (scripted_env [] (Returns (Some "plan")) None)
      (mkAction (Some "")) (sample_refinement, sample_world) =
    (Throws UserMessageNotFoundError,
     (sample_refinement,
      mkWorld 0 0 1 [EvSpanRecord "awsq_approachInvoke" "conv-1"]))
  /\ RefinementIterationState_interact (scripted_env [] (Returns (Some "plan")) None)
       (mkAction None) (sample_iteration, sample_world) =
     (Throws UserMessageNotFoundError, (sample_iteration, sample_world)).
Proof.
  split.
  - apply (interact_without_message_fails_locally
             (scripted_env [] (Returns (Some "plan")) None) (mkAction (Some ""))
             sample_world eq_refl).
  - apply (interact_without_message_fails_locally
             (scripted_env [] (Returns (Some "plan")) None) (mkAction None)
             sample_world eq_refl).
Defined.

Section Planning.

Variable env : Env.
Variable w : World.
Variable c : ascii.
Variable rest : string.

Let message := String c rest.

Lemma RefinementState_interact_plan (this : RefinementState.t) (raw : option string) :
  generatePlan env (clock w)
    (SessionStateConfig.conversationId (RefinementState.config this))
    (SessionStateConfig.uploadId (RefinementState.config this)) message = Returns raw ->
  RefinementState_interact env (mkAction (Some message)) (this, w) =
    (Returns
       (mkSSI (StRefinementIteration
                 (refined_next this (nextId w)
                    (sanitizeHtml env (nullish raw approach_fallback))))
              (mkInteraction
                 (Some (sanitizeHtml env (nullish raw approach_fallback) ++ newline)))),
     (RefinementState.set_approach (sanitizeHtml env (nullish raw approach_fallback)) this,
      mkWorld (S (clock w)) (polls w) (S (nextId w))
        (trace w ++
         [EvSpanRecord "awsq_approachInvoke" (RefinementState.conversationId this);
          plan_request (RefinementState.config this) message;
          EvNew (StRefinementIteration
                   (refined_next this (nextId w)
                      (sanitizeHtml env (nullish raw approach_fallback))))]))).
Proof.
  unfold message. intros H. unfold RefinementState_interact, telemetry_run, try_catch, bind.
  cbn -[String.append sanitizeHtml]. rewrite H. cbn -[String.append].
  rewrite <- !app_assoc. reflexivity.
Qed.

Lemma RefinementState_interact_plan_fails (this : RefinementState.t) (e : JsError) :
  generatePlan env (clock w)
    (SessionStateConfig.conversationId (RefinementState.config this))
    (SessionStateConfig.uploadId (RefinementState.config this)) message = Throws e ->
  RefinementState_interact env (mkAction (Some message)) (this, w) =
    (Throws (if instanceof_ToolkitError e then e
             else ToolkitError "Server side error" (Some e)),
     (this,
      mkWorld (S (clock w)) (polls w) (nextId w)
        (trace w ++
         [EvSpanRecord "awsq_approachInvoke" (RefinementState.conversationId this);
          plan_request (RefinementState.config this) message]))).
Proof.
  unfold message. intros H. unfold RefinementState_interact, telemetry_run, try_catch, bind.
  cbn -[String.append sanitizeHtml]. rewrite H. cbn -[String.append].
  rewrite <- !app_assoc. reflexivity.
Qed.

Lemma RefinementIterationState_interact_plan
    (this : RefinementIterationState.t) (raw : option string) :
  includes "MOCK CODE" message = false ->
  generatePlan env (clock w)
    (SessionStateConfig.conversationId (RefinementIterationState.config this))
    (SessionStateConfig.uploadId (RefinementIterationState.config this)) message
    = Returns raw ->
  RefinementIterationState_interact env (mkAction (Some message)) (this, w) =
    (Returns
       (mkSSI (StRefinementIteration
                 (iterated_next this (nextId w)
                    (sanitizeHtml env (nullish raw approach_fallback))))
              (mkInteraction
                 (Some (sanitizeHtml env (nullish raw approach_fallback) ++ newline)))),
     (RefinementIterationState.set_approach
        (sanitizeHtml env (nullish raw approach_fallback)) this,
      mkWorld (S (clock w)) (polls w) (S (nextId w))
        (trace w ++
         [EvTelemetryEmit "awsq_approach" (RefinementIterationState.conversationId this);
          plan_request (RefinementIterationState.config this) message;
          EvNew (StRefinementIteration
                   (iterated_next this (nextId w)
                      (sanitizeHtml env (nullish raw approach_fallback))))]))).
Proof.
  unfold message. intros Hmock H. unfold RefinementIterationState_interact, bind.
  cbn [getThis fst snd msg truthy nullish andb]. rewrite Hmock.
  cbn -[String.append sanitizeHtml]. rewrite H. cbn -[String.append].
  rewrite <- !app_assoc. reflexivity.
Qed.

Lemma RefinementIterationState_interact_plan_fails
    (this : RefinementIterationState.t) (e : JsError) :
  includes "MOCK CODE" message = false ->
  generatePlan env (clock w)
    (SessionStateConfig.conversationId (RefinementIterationState.config this))
    (SessionStateConfig.uploadId (RefinementIterationState.config this)) message
    = Throws e ->
  RefinementIterationState_interact env (mkAction (Some message)) (this, w) =
    (Throws e,
     (this,
      mkWorld (S (clock w)) (polls w) (nextId w)
        (trace w ++
         [EvTelemetryEmit "awsq_approach" (RefinementIterationState.conversationId this);
          plan_request (RefinementIterationState.config this) message]))).
Proof.
  unfold message. intros Hmock H. unfold RefinementIterationState_interact, bind.
  cbn [getThis fst snd msg truthy nullish andb]. rewrite Hmock.
  cbn -[String.append sanitizeHtml]. rewrite H. cbn -[String.append].
  rewrite <- !app_assoc. reflexivity.
Qed.

End Planning.

Lemma newline_foreign_to_script : ~ occurs "010"%char "<script".
Proof. cbn. intros H. repeat (destruct H as [H | H]; [discriminate |]). exact H. Qed.

(** C6, as the code has it.  A plan text that comes back [undefined] is
    replaced by the fixed fallback message, any other text — the empty one
    too — is kept; the text is then passed through the sanitizer, stored as
    the approach of the state and of its successor, and displayed followed
    by a newline.  With a sanitizer that lets no [<script] through, the
    displayed text has none. *)
Theorem undefined_plan_falls_back_and_display_is_sanitized
    (env : Env) (w : World) (message : string) (raw : option string) :
  message <> EmptyString ->
  (forall s, includes "<script" (sanitizeHtml env s) = false) ->
  (forall this : RefinementState.t,
      generatePlan env (clock w)
        (SessionStateConfig.conversationId (RefinementState.config this))
        (SessionStateConfig.uploadId (RefinementState.config this)) message
        = Returns raw ->
      exists next this' w',
        RefinementState_interact env (mkAction (Some message)) (this, w) =
          (Returns (mkSSI (StRefinementIteration next)
                      (mkInteraction
                         (Some (RefinementIterationState.approach next ++ newline)))),
           (this', w'))
        /\ RefinementState.approach this' = RefinementIterationState.approach next
        /\ RefinementIterationState.approach next =
             sanitizeHtml env (match raw with
                               | None => approach_fallback
                               | Some text => text
                               end)
        /\ includes "<script" (RefinementIterationState.approach next ++ newline) = false)
  /\ (forall this : RefinementIterationState.t,
         includes "MOCK CODE" message = false ->
         generatePlan env (clock w)
           (SessionStateConfig.conversationId (RefinementIterationState.config this))
           (SessionStateConfig.uploadId (RefinementIterationState.config this)) message
           = Returns raw ->
         exists next this' w',
           RefinementIterationState_interact env (mkAction (Some message)) (this, w) =
             (Returns (mkSSI (StRefinementIteration next)
                         (mkInteraction
                            (Some (RefinementIterationState.approach next ++ newline)))),
              (this', w'))
           /\ RefinementIterationState.approach this' = RefinementIterationState.approach next
           /\ RefinementIterationState.approach next =
                sanitizeHtml env (match raw with
                                  | None => approach_fallback
                                  | Some text => text
                                  end)
           /\ includes "<script" (RefinementIterationState.approach next ++ newline) = false).
Proof.
  intros Hmsg Hclean. destruct message as [| c rest]; [contradiction |].
  assert (forall s, includes "<script" (sanitizeHtml env s ++ newline) = false) as Hshown.
  { intros s. apply includes_snoc; [exact newline_foreign_to_script | discriminate |].
    apply Hclean. }
  split.
  - intros this Hplan.
    exists (refined_next this (nextId w) (sanitizeHtml env (nullish raw approach_fallback))).
    do 2 eexists.
    rewrite (RefinementState_interact_plan env w c rest this raw Hplan).
    split; [reflexivity |]. cbn [RefinementState.approach RefinementState.set_approach
                                  RefinementIterationState.approach refined_next].
    split; [reflexivity |]. split; [destruct raw; reflexivity | apply Hshown].
  - intros this Hmock Hplan.
    exists (iterated_next this (nextId w) (sanitizeHtml env (nullish raw approach_fallback))).
    do 2 eexists.
    rewrite (RefinementIterationState_interact_plan env w c rest this raw Hmock Hplan).
    split; [reflexivity |].
    cbn [RefinementIterationState.approach RefinementIterationState.set_approach
         iterated_next].
    split; [reflexivity |]. split; [destruct raw; reflexivity | apply Hshown].
Qed.

Lemma undefined_plan_falls_back_and_display_is_sanitized_witness :
  exists next this' w',
    RefinementState_interact (scripted_env [] (Returns None) None)
        (mkAction (Some "add a test")) (sample_refinement, sample_world) =
      (Returns (mkSSI (StRefinementIteration next)
                  (mkInteraction
                     (Some (RefinementIterationState.approach next ++ newline)))),
       (this', w'))
    /\ RefinementState.approach this' = RefinementIterationState.approach next
    /\ RefinementIterationState.approach next = escapeMarkup approach_fallback
    /\ includes "<script" (RefinementIterationState.approach next ++ newline) = false.
Proof.
  refine (proj1 (undefined_plan_falls_back_and_display_is_sanitized
                   (scripted_env [] (Returns None) None) sample_world "add a test" None
                   _ _) sample_refinement _).
  - discriminate.
  - exact escapeMarkup_no_script.
  - reflexivity.
Defined.

(** C6, the part that does not hold: the empty plan text is not replaced.
    It goes through the sanitizer as it is and the displayed text is a bare
    newline, not the fallback message. *)
Lemma empty_plan_is_not_replaced :
  generatePlan (scripted_env [] (Returns (Some "")) None) 0 "conv-1" "upload-1" "add a test"
    = Returns (Some "")
  /\ RefinementState_interact (scripted_env [] (Returns (Some "")) None)
       (mkAction (Some "add a test")) (sample_refinement, sample_world) =
     (Returns (mkSSI (StRefinementIteration (refined_next sample_refinement 1 ""))
                 (mkInteraction (Some newline))),
      (RefinementState.set_approach "" sample_refinement,
       mkWorld 1 0 2
         [EvSpanRecord "awsq_approachInvoke" "conv-1";
          EvGeneratePlan "conv-1" "upload-1" "add a test";
          EvNew (StRefinementIteration (refined_next sample_refinement 1 ""))]))
  /\ RefinementState.approach (RefinementState.set_approach "" sample_refinement)
       <> sanitizeHtml (scripted_env [] (Returns (Some "")) None) approach_fallback.
Proof.
  split; [reflexivity |]. split; [reflexivity | discriminate].
Qed.

(** C8 on the code.  The remote planning call fails with an error that is
    not a [ToolkitError]: [Refinement] wraps it as "Server side error",
    [RefinementIteration], which has no [try]/[catch], lets it through as it
    is. *)
Lemma iteration_lets_foreign_errors_through :
  RefinementState_interact (scripted_env [] (Throws (ForeignError "socket hang up")) None)
      (mkAction (Some "revise the plan")) (sample_refinement, sample_world) =
    (Throws (ToolkitError "Server side error" (Some (ForeignError "socket hang up"))),
     (sample_refinement,
      mkWorld 1 0 1 [EvSpanRecord "awsq_approachInvoke" "conv-1";
                     EvGeneratePlan "conv-1" "upload-1" "revise the plan"]))
  /\ RefinementIterationState_interact
       (scripted_env [] (Throws (ForeignError "socket hang up")) None)
       (mkAction (Some "revise the plan")) (sample_iteration, sample_world) =
     (Throws (ForeignError "socket hang up"),
      (sample_iteration,
       mkWorld 1 0 1 [EvTelemetryEmit "awsq_approach" "conv-1";
                      EvGeneratePlan "conv-1" "upload-1" "revise the plan"]))
  /\ instanceof_ToolkitError (ForeignError "socket hang up") = false.
Proof. repeat split. Qed.

(** The same pair of siblings on the call that starts the generation:
    [CodeGen] wraps a foreign failure, [CodeGenIteration] does not. *)
Lemma CodeGenState_wraps_start_failure
    (env : Env) (action : SessionStateAction) (this : CodeGenState.t) (w : World)
    (e : JsError) :
  startCodeGeneration env (clock w)
    (SessionStateConfig.conversationId (CodeGenBase.config (CodeGenState.base this)))
    (SessionStateConfig.uploadId (CodeGenBase.config (CodeGenState.base this))) None
    = Throws e ->
  fst (CodeGenState_interact env action (this, w)) =
    Throws (if instanceof_ToolkitError e then e
            else ToolkitError "Server side error" (Some e)).
Proof.
  intros H. unfold CodeGenState_interact, telemetry_run, try_catch, bind, sendAnswer.
  cbn -[String.append generateCode]. rewrite H. reflexivity.
Qed.

Lemma CodeGenIterationState_start_failure_unwrapped
    (env : Env) (action : SessionStateAction) (this : CodeGenIterationState.t)
    (w : World) (e : JsError) :
  startCodeGeneration env (clock w)
    (SessionStateConfig.conversationId (CodeGenBase.config (CodeGenIterationState.base this)))
    (SessionStateConfig.uploadId (CodeGenBase.config (CodeGenIterationState.base this)))
    (msg action) = Throws e ->
  fst (CodeGenIterationState_interact env action (this, w)) = Throws e.
Proof.
  intros H. unfold CodeGenIterationState_interact, bind, sendAnswer.
  cbn -[String.append generateCode]. rewrite H. reflexivity.
Qed.

(** [PrepareRefinement] has no check of its own: without a message it
    uploads first and fails in the [Refinement] state it delegates to. *)
Lemma PrepareRefinementState_uploads_before_the_check
    (env : Env) (this : PrepareRefinementState.t) (w : World)
    (repo : RepoData) (upload : UploadUrl) :
  prepareRepoData env (clock w)
    (ConfigNoUpload.workspaceRoot (PrepareRefinementState.config this))
    (ConfigNoUpload.conversationId (PrepareRefinementState.config this)) = Returns repo ->
  createUploadUrl env (S (clock w))
    (ConfigNoUpload.conversationId (PrepareRefinementState.config this))
    (zipFileChecksum repo) = Returns upload ->
  uploadCode env (S (S (clock w))) (uploadUrl upload) (zipFileBuffer repo)
    (kmsKeyArn upload) = Returns tt ->
  exists events,
    PrepareRefinementState_interact env (mkAction None) (this, w) =
      (Throws UserMessageNotFoundError,
       (this, mkWorld (clock w + 3) (polls w) (S (nextId w)) (trace w ++ events)))
    /\ filter is_remote_call events =
         [EvCreateUploadUrl (ConfigNoUpload.conversationId (PrepareRefinementState.config this))
                            (zipFileChecksum repo);
          EvUploadCode (uploadUrl upload) (zipFileBuffer repo) (kmsKeyArn upload)].
Proof.
  intros H1 H2 H3. unfold PrepareRefinementState_interact, bind.
  cbn -[String.append RefinementState_interact]. rewrite H1.
  cbn -[String.append RefinementState_interact]. rewrite H2.
  cbn -[String.append RefinementState_interact]. rewrite H3.
  cbn -[String.append]. rewrite <- !app_assoc. cbn [app].
  eexists. split.
  - f_equal. f_equal. f_equal. lia.
  - reflexivity.
Qed.

Lemma liftW_run {T A : Type} (m : Fn A) (t : T) (w : World) :
  liftW m (t, w) = (fst (m w), (t, snd (m w))).
Proof. unfold liftW. cbn [fst snd]. destruct (m w). reflexivity. Qed.

(** [MockCodeGen] always returns, and always to [Refinement]: whatever
    happens while the mock files are read is caught. *)
Lemma MockCodeGenState_interact_returns
    (env : Env) (action : SessionStateAction) (this : MockCodeGenState.t) (w : World) :
  exists (events : list Event) (this' : MockCodeGenState.t) (time : nat),
    MockCodeGenState_interact env action (this, w) =
      (Returns (mkSSI (StRefinement (refinement_after_mock this (nextId w)))
                  (mkInteraction None)),
       (this',
        mkWorld time (polls w) (S (nextId w))
          (trace w ++ events
                   ++ [EvNew (StRefinement (refinement_after_mock this (nextId w)))])))
    /\ filter is_remote_call events = []
    /\ built events = []
    /\ (mock_dir_absent env (MockCodeGenState.config this) (clock w) ->
        this' = this /\ filter is_register events = []
        /\ (events = [EvStat (mock_dir env (MockCodeGenState.config this))]
            \/ events = [EvStat (mock_dir env (MockCodeGenState.config this));
                         EvLoggerError "Unable to use mock code generation: %O"])).
Proof.
  unfold mock_dir_absent, mock_dir.
  unfold MockCodeGenState_interact, try_catch, bind.
  cbn -[String.append createFilePaths replace].
  destruct (stat env (clock w)
              (path_join env (SessionStateConfig.workspaceRoot (MockCodeGenState.config this))
                         "./mock-data")) as [[|] | e].
  - cbn -[String.append createFilePaths replace].
    destruct (collectFiles env (S (clock w))
                (path_join env (SessionStateConfig.workspaceRoot (MockCodeGenState.config this))
                           "./mock-data") false) as [files | e].
    + rewrite liftW_run, createFilePaths_spec.
      cbn -[String.append replace staging]. unfold ret. rewrite <- !app_assoc.
      eexists (_ :: _ :: staging _ _ _ _), _, _. split; [| split; [| split]].
      * cbn [app]. reflexivity.
      * cbn [app filter is_remote_call]. apply staging_no_remote_call.
      * cbn [app built flat_map]. apply staging_no_new.
      * intros [[e He] | He]; discriminate.
    + cbn -[String.append]. unfold ret. rewrite <- !app_assoc.
      eexists [_; _; _], _, _. split; [| split; [| split]].
      * cbn [app]. reflexivity.
      * reflexivity.
      * reflexivity.
      * intros [[e' He] | He]; discriminate.
  - cbn -[String.append]. unfold ret. rewrite <- !app_assoc.
    eexists [_], _, _. split; [| split; [| split]].
    + cbn [app]. reflexivity.
    + reflexivity.
    + reflexivity.
    + intros _. split; [reflexivity |]. split; [reflexivity |]. left. reflexivity.
  - cbn -[String.append]. unfold ret. rewrite <- !app_assoc.
    eexists [_; _], _, _. split; [| split; [| split]].
    + cbn [app]. reflexivity.
    + reflexivity.
    + reflexivity.
    + intros _. split; [reflexivity |]. split; [reflexivity |]. right. reflexivity.
Qed.

Lemma call_run {T U A : Type} (obj : U) (m : Method U A) (t : T) (w : World) :
  call obj m (t, w) = (fst (m (obj, w)), (t, snd (snd (m (obj, w))))).
Proof. unfold call. cbn [fst snd]. destruct (m (obj, w)) as [o [u w']]. reflexivity. Qed.

Lemma sentinel_message_truthy (before after : string) :
  truthy (Some (before ++ "MOCK CODE" ++ after)) = true.
Proof. destruct before; reflexivity. Qed.

(** C7.  A message that contains [MOCK CODE], whatever stands before and
    after it, makes [RefinementIteration] build a [MockCodeGen] state and run
    it; the call returns with a newly built [Refinement] state as the next
    state, and makes no remote call.  When the mock-data directory is absent
    the failure is logged at most, nothing is registered and the call returns
    all the same. *)
Theorem mock_sentinel_runs_mock_and_returns_to_refinement
    (env : Env) (this : RefinementIterationState.t) (before after : string) (w : World) :
  exists (events : list Event) (time : nat),
    RefinementIterationState_interact env
        (mkAction (Some (before ++ "MOCK CODE" ++ after))) (this, w) =
      (Returns (mkSSI (StRefinement
                         (refinement_after_mock (mock_of env this (nextId w))
                                                (S (nextId w))))
                      (mkInteraction None)),
       (this,
        mkWorld time (polls w) (S (S (nextId w)))
          (trace w
           ++ [EvNew (StMockCodeGen (mock_of env this (nextId w)))]
           ++ events
           ++ [EvNew (StRefinement
                        (refinement_after_mock (mock_of env this (nextId w))
                                               (S (nextId w))))])))
    /\ filter is_remote_call events = []
    /\ (mock_dir_absent env (RefinementIterationState.config this) (clock w) ->
        filter is_register events = []
        /\ (events = [EvStat (mock_dir env (RefinementIterationState.config this))]
            \/ events = [EvStat (mock_dir env (RefinementIterationState.config this));
                         EvLoggerError "Unable to use mock code generation: %O"])).
Proof.
  unfold RefinementIterationState_interact, bind.
  cbn [getThis fst snd msg nullish].
  rewrite sentinel_message_truthy, includes_app. cbn [andb].
  rewrite liftW_run. cbn -[String.append MockCodeGenState_interact].
  rewrite call_run.
  fold (mock_of env this (nextId w)).
  destruct (MockCodeGenState_interact_returns env
              (mkAction (Some (before ++ "MOCK CODE" ++ after)))
              (mock_of env this (nextId w))
              (mkWorld (clock w) (polls w) (S (nextId w))
                 (trace w ++ [EvNew (StMockCodeGen (mock_of env this (nextId w)))])))
    as (events & mock' & time & Hrun & Hremote & _ & Habsent).
  rewrite Hrun. cbn [fst snd polls nextId trace clock] in *.
  exists events, time. split; [| split].
  - rewrite <- !app_assoc. reflexivity.
  - exact Hremote.
  - intros H. destruct (Habsent H) as (_ & Hreg & Hev). split; assumption.
Qed.

Lemma mock_sentinel_runs_mock_and_returns_to_refinement_witness :
  fst (RefinementIterationState_interact (scripted_env [] (Returns None) None)
         (mkAction (Some "please MOCK CODE now")) (sample_iteration, sample_world)) =
    Returns (mkSSI (StRefinement
                      (RefinementState.mk 2 "conv-1" "upload-1" Approach sample_config
                                          "first plan" "tab-1"))
                   (mkInteraction None)).
Proof.
  destruct (mock_sentinel_runs_mock_and_returns_to_refinement
              (scripted_env [] (Returns None) None) sample_iteration
              "please " " now" sample_world)
    as (events & time & Hrun & _ & Habsent).
  assert (mock_dir_absent (scripted_env [] (Returns None) None)
            (RefinementIterationState.config sample_iteration) (clock sample_world)) as H.
  { left. exists (ForeignError "ENOENT"). reflexivity. }
  destruct (Habsent H) as [_ _].
  change ("please MOCK CODE now") with ("please " ++ "MOCK CODE" ++ " now").
  rewrite Hrun. reflexivity.
Defined.

(* ================================================================= *)
(** ** Phases and transitions *)

Lemma built_app (a b : list Event) : built (a ++ b) = (built a ++ built b)%list.
Proof. apply flat_map_app. Qed.

Lemma lawful_throw (w w' : World) (e : JsError) (events : list Event) :
  trace w' = (trace w ++ events)%list ->
  built events = [] ->
  nextId w' = nextId w ->
  lawful_run w (Throws e) w'.
Proof.
  intros Ht Hb Hid. exists events. rewrite Hb. cbn [length map seq].
  repeat split; auto; try lia. intros r H. discriminate.
Qed.

Lemma lawful_return (w w' : World) (r : SessionStateInteraction) (events : list Event) :
  trace w' = (trace w ++ events)%list ->
  built events = [nextState r] ->
  tokenSource_of (nextState r) = nextId w ->
  nextId w' = S (nextId w) ->
  phase_of (nextState r) = declared_phase (class_of (nextState r)) ->
  lawful_run w (Returns r) w'.
Proof.
  intros Ht Hb Htok Hid Hphase. exists events. rewrite Hb. cbn [length map seq].
  rewrite Htok. repeat split; auto; try lia.
  intros r' H. injection H as <-. left. reflexivity.
Qed.

(** Lawful runs compose: what was built before counts too. *)
Lemma lawful_after (w w1 w' : World) (o : Outcome SessionStateInteraction)
    (before : list Event) :
  trace w1 = (trace w ++ before)%list ->
  map tokenSource_of (built before) = seq (nextId w) (length (built before)) ->
  nextId w1 = nextId w + length (built before) ->
  Forall (fun b => phase_of b = declared_phase (class_of b)) (built before) ->
  lawful_run w1 o w' ->
  lawful_run w o w'.
Proof.
  intros Ht Htok Hid Hphase (events & Ht' & Htok' & Hid' & Hphase' & Hnext).
  exists (before ++ events)%list. rewrite built_app, length_app, map_app, seq_app.
  rewrite Ht', Ht, <- app_assoc, Htok, Htok', Hid', Hid.
  repeat split; auto; try lia.
  - apply Forall_app. split; assumption.
  - intros r Hr. apply in_or_app. right. apply Hnext. exact Hr.
Qed.

Lemma lawful_after_quiet (w w1 w' : World) (o : Outcome SessionStateInteraction)
    (before : list Event) :
  trace w1 = (trace w ++ before)%list ->
  built before = [] ->
  nextId w1 = nextId w ->
  lawful_run w1 o w' ->
  lawful_run w o w'.
Proof.
  intros Ht Hb Hid H. apply (lawful_after w w1 w' o before); auto.
  - rewrite Hb. reflexivity.
  - rewrite Hb. cbn. lia.
  - rewrite Hb. constructor.
Qed.

Section Lawful.

Variable env : Env.

Lemma ConversationNotStartedState_lawful (action : SessionStateAction)
    (this : ConversationNotStartedState.t) (w : World) :
  ConversationNotStartedState_interact action (this, w) =
    (Throws (ToolkitError "Illegal transition between states, restart the conversation" None),
     (this, w)).
Proof. reflexivity. Qed.

Lemma RefinementState_lawful (action : SessionStateAction)
    (this : RefinementState.t) (w : World) :
  exists o this' w',
    RefinementState_interact env action (this, w) = (o, (this', w'))
    /\ RefinementState.phase this' = RefinementState.phase this
    /\ lawful_run w o w'.
Proof.
  destruct action as [[[| c rest] |]].
  - do 3 eexists. split; [reflexivity |]. split; [reflexivity |].
    eapply lawful_throw with (events := [_]); reflexivity.
  - destruct (generatePlan env (clock w)
                (SessionStateConfig.conversationId (RefinementState.config this))
                (SessionStateConfig.uploadId (RefinementState.config this))
                (String c rest)) as [raw | e] eqn:Hplan.
    + rewrite (RefinementState_interact_plan env w c rest this raw Hplan).
      do 3 eexists. split; [reflexivity |]. split; [reflexivity |].
      eapply lawful_return with (events := [_; _; _]); reflexivity.
    + rewrite (RefinementState_interact_plan_fails env w c rest this e Hplan).
      do 3 eexists. split; [reflexivity |]. split; [reflexivity |].
      eapply lawful_throw with (events := [_; _]); reflexivity.
  - do 3 eexists. split; [reflexivity |]. split; [reflexivity |].
    eapply lawful_throw with (events := [_]); reflexivity.
Qed.

Lemma MockCodeGenState_lawful (action : SessionStateAction)
    (this : MockCodeGenState.t) (w : World) :
  exists o this' w',
    MockCodeGenState_interact env action (this, w) = (o, (this', w'))
    /\ lawful_run w o w'.
Proof.
  destruct (MockCodeGenState_interact_returns env action this w)
    as (events & this' & time & Hrun & _ & Hbuilt & _).
  rewrite Hrun. do 3 eexists. split; [reflexivity |].
  eapply lawful_return with (events := (events ++ [_])%list).
  - reflexivity.
  - rewrite built_app, Hbuilt. reflexivity.
  - reflexivity.
  - reflexivity.
  - reflexivity.
Qed.

Lemma RefinementIterationState_lawful (action : SessionStateAction)
    (this : RefinementIterationState.t) (w : World) :
  exists o this' w',
    RefinementIterationState_interact env action (this, w) = (o, (this', w'))
    /\ RefinementIterationState.phase this' = RefinementIterationState.phase this
    /\ lawful_run w o w'.
Proof.
  destruct action as [[[| c rest] |]].
  - do 3 eexists. split; [reflexivity |]. split; [reflexivity |].
    eapply lawful_throw with (events := []); try reflexivity.
    cbn. rewrite app_nil_r. reflexivity.
  - destruct (includes "MOCK CODE" (String c rest)) eqn:Hmock.
    + unfold RefinementIterationState_interact, bind.
      cbn [getThis fst snd msg nullish truthy]. rewrite Hmock. cbn [andb].
      rewrite liftW_run. cbn -[String.append MockCodeGenState_interact].
      rewrite call_run.
      match goal with
      | |- context [MockCodeGenState_interact env ?a (?m, ?w1)] =>
          destruct (MockCodeGenState_lawful a m w1) as (o & m' & w' & Hrun & Hlaw)
      end.
      cbn [msg] in Hrun. rewrite Hrun. cbn [fst snd].
      do 3 eexists. split; [reflexivity |]. split; [reflexivity |].
      eapply lawful_after with (before := [_]); [| | | | exact Hlaw]; try reflexivity.
      * cbn. lia.
      * repeat constructor.
    + destruct (generatePlan env (clock w)
                  (SessionStateConfig.conversationId (RefinementIterationState.config this))
                  (SessionStateConfig.uploadId (RefinementIterationState.config this))
                  (String c rest)) as [raw | e] eqn:Hplan.
      * rewrite (RefinementIterationState_interact_plan env w c rest this raw Hmock Hplan).
        do 3 eexists. split; [reflexivity |]. split; [reflexivity |].
        eapply lawful_return with (events := [_; _; _]); reflexivity.
      * rewrite (RefinementIterationState_interact_plan_fails env w c rest this e Hmock Hplan).
        do 3 eexists. split; [reflexivity |]. split; [reflexivity |].
        eapply lawful_throw with (events := [_; _]); reflexivity.
  - do 3 eexists. split; [reflexivity |]. split; [reflexivity |].
    eapply lawful_throw with (events := []); try reflexivity.
    cbn. rewrite app_nil_r. reflexivity.
Qed.

Lemma PrepareRefinementState_lawful (action : SessionStateAction)
    (this : PrepareRefinementState.t) (w : World) :
  exists o w',
    PrepareRefinementState_interact env action (this, w) = (o, (this, w'))
    /\ lawful_run w o w'.
Proof.
  unfold PrepareRefinementState_interact, bind.
  cbn -[String.append RefinementState_interact].
  destruct (prepareRepoData env (clock w)
              (ConfigNoUpload.workspaceRoot (PrepareRefinementState.config this))
              (ConfigNoUpload.conversationId (PrepareRefinementState.config this)))
    as [repo | e].
  2:{ do 2 eexists. split; [reflexivity |].
      eapply lawful_throw with (events := [_]); reflexivity. }
  cbn -[String.append RefinementState_interact].
  destruct (createUploadUrl env (S (clock w))
              (ConfigNoUpload.conversationId (PrepareRefinementState.config this))
              (zipFileChecksum repo)) as [upload | e].
  2:{ do 2 eexists. split; [reflexivity |].
      eapply lawful_throw with (events := [_; _]);
        [cbn; rewrite <- !app_assoc; reflexivity | reflexivity | reflexivity]. }
  cbn -[String.append RefinementState_interact].
  destruct (uploadCode env (S (S (clock w))) (uploadUrl upload) (zipFileBuffer repo)
              (kmsKeyArn upload)) as [[] | e].
  2:{ do 2 eexists. split; [reflexivity |].
      eapply lawful_throw with (events := [_; _; _]);
        [cbn; rewrite <- !app_assoc; reflexivity | reflexivity | reflexivity]. }
  cbn -[String.append RefinementState_interact].
  rewrite call_run.
  match goal with
  | |- context [RefinementState_interact env action (?r, ?w1)] =>
      destruct (RefinementState_lawful action r w1) as (o & r' & w' & Hrun & _ & Hlaw)
  end.
  rewrite Hrun. cbn [fst snd].
  do 2 eexists. split; [reflexivity |].
  eapply lawful_after with (before := [_; _; _; _]); [| | | | exact Hlaw].
  - cbn. rewrite <- !app_assoc. reflexivity.
  - reflexivity.
  - cbn. lia.
  - repeat constructor.
Qed.

Lemma generation_ends_lawful (b : CodeGenBase.t) (approach : string) (w w' : World)
    (o : Outcome SessionStateInteraction) (events : list Event) :
  trace w' = (trace w ++ events)%list ->
  generation_ends b approach w w' o events ->
  lawful_run w o w'.
Proof.
  intros Ht [(e & -> & Hb & Hid) | (paths & -> & Hb & Hid)].
  - eapply lawful_throw; eassumption.
  - eapply lawful_return; try eassumption; reflexivity.
Qed.

Lemma CodeGenIterationState_summary (action : SessionStateAction)
    (this : CodeGenIterationState.t) (w : World) :
  exists o this' w' events,
    CodeGenIterationState_interact env action (this, w) = (o, (this', w'))
    /\ CodeGenIterationState.base this' = CodeGenIterationState.base this
    /\ trace w' = (trace w ++ events)%list
    /\ generation_ends (CodeGenIterationState.base this)
                       (CodeGenIterationState.approach this) w w' o events.
Proof.
  unfold CodeGenIterationState_interact, bind, sendAnswer.
  cbn -[String.append generateCode].
  destruct (startCodeGeneration env (clock w)
              (SessionStateConfig.conversationId
                 (CodeGenBase.config (CodeGenIterationState.base this)))
              (SessionStateConfig.uploadId
                 (CodeGenBase.config (CodeGenIterationState.base this)))
              (msg action)) as [id | e].
  2:{ rewrite <- !app_assoc. do 4 eexists. split; [reflexivity |].
      split; [reflexivity |]. split; [reflexivity |].
      left. eexists. repeat split. }
  cbn -[String.append generateCode]. rewrite liftW_run.
  match goal with
  | |- context [generateCode env ?b ?i ?w1] =>
      destruct (generateCode_effects env b i w1)
        as (events & k & (Ht & Hid & Hnew & _) & _);
      destruct (generateCode env b i w1) as [[cg | e] w2]
  end; cbn -[String.append] in Ht, Hid |- *.
  - unfold ret. rewrite Ht, <- !app_assoc, Hid.
    do 4 eexists. split; [reflexivity |].
    split; [reflexivity |]. split; [reflexivity |].
    right. exists (newFilePaths cg). split; [reflexivity |]. split; [| reflexivity].
    change (?a :: ?b :: ?c :: ?d :: (events ++ ?l)%list)
      with ([a; b; c; d] ++ events ++ l)%list.
    rewrite !built_app, Hnew. reflexivity.
  - rewrite <- !app_assoc in Ht.
    do 4 eexists. split; [reflexivity |].
    split; [reflexivity |]. split; [exact Ht |].
    left. eexists. split; [reflexivity |]. split; [| exact Hid].
    cbn [app].
    change (?a :: ?b :: ?c :: ?d :: events)
      with ([a; b; c; d] ++ events)%list.
    rewrite !built_app, Hnew. reflexivity.
Qed.

Lemma CodeGenState_summary (action : SessionStateAction)
    (this : CodeGenState.t) (w : World) :
  exists o this' w' events,
    CodeGenState_interact env action (this, w) = (o, (this', w'))
    /\ CodeGenState.base this' = CodeGenState.base this
    /\ trace w' = (trace w ++ events)%list
    /\ generation_ends (CodeGenState.base this) (CodeGenState.approach this) w w' o events.
Proof.
  unfold CodeGenState_interact, telemetry_run, try_catch, bind, sendAnswer.
  cbn -[String.append generateCode].
  destruct (startCodeGeneration env (clock w)
              (SessionStateConfig.conversationId (CodeGenBase.config (CodeGenState.base this)))
              (SessionStateConfig.uploadId (CodeGenBase.config (CodeGenState.base this)))
              None) as [id | e].
  2:{ cbn -[String.append]. rewrite <- !app_assoc. do 4 eexists. split; [reflexivity |].
      split; [reflexivity |]. split; [reflexivity |].
      left. eexists. repeat split. }
  cbn -[String.append generateCode]. rewrite liftW_run.
  match goal with
  | |- context [generateCode env ?b ?i ?w1] =>
      destruct (generateCode_effects env b i w1)
        as (events & k & (Ht & Hid & Hnew & _) & _);
      destruct (generateCode env b i w1) as [[cg | e] w2]
  end; cbn -[String.append] in Ht, Hid |- *.
  - unfold ret. rewrite Ht, <- !app_assoc, Hid.
    do 4 eexists. split; [reflexivity |].
    split; [reflexivity |]. split; [reflexivity |].
    right. exists (newFilePaths cg). split; [reflexivity |]. split; [| reflexivity].
    cbn [app].
    change (?a :: ?b :: ?c :: ?d :: ?e :: (events ++ ?l)%list)
      with ([a; b; c; d; e] ++ events ++ l)%list.
    rewrite !built_app, Hnew. reflexivity.
  - rewrite Ht, <- !app_assoc.
    do 4 eexists. split; [reflexivity |].
    split; [reflexivity |]. split; [reflexivity |].
    left. eexists. split; [reflexivity |]. split; [| exact Hid].
    cbn [app].
    change (?a :: ?b :: ?c :: ?d :: ?e :: (events ++ ?l)%list)
      with ([a; b; c; d; e] ++ events ++ l)%list.
    rewrite !built_app, Hnew. reflexivity.
Qed.

Lemma PrepareIterationState_summary (action : SessionStateAction)
    (this : PrepareIterationState.t) (w : World) :
  exists o this' w' events,
    PrepareIterationState_interact env action (this, w) = (o, (this', w'))
    /\ PrepareIterationState.phase this' = PrepareIterationState.phase this
    /\ trace w' = (trace w ++ events)%list
    /\ ((exists e, snapshot_upload env this w = Throws e
                   /\ o = Throws e /\ built events = [] /\ nextId w' = nextId w)
        \/ (exists upload w1 rest,
               snapshot_upload env this w = Returns upload
               /\ built events =
                    (StCodeGenIteration (iteration_of this (upl_uploadId upload) (nextId w))
                     :: built rest)%list
               /\ nextId w1 = S (nextId w)
               /\ generation_ends
                    (CodeGenIterationState.base
                       (iteration_of this (upl_uploadId upload) (nextId w)))
                    "" w1 w' o rest)).
Proof.
  unfold PrepareIterationState_interact, snapshot_upload, bind.
  cbn -[String.append CodeGenIterationState_interact].
  destruct (prepareRepoData env (clock w)
              (SessionStateConfig.workspaceRoot (PrepareIterationState.config this))
              (PrepareIterationState.conversationId this)) as [repo | e].
  2:{ do 4 eexists. split; [reflexivity |]. split; [reflexivity |].
      split; [reflexivity |]. left. eexists. repeat split. }
  cbn -[String.append CodeGenIterationState_interact].
  destruct (createUploadUrl env (S (clock w))
              (SessionStateConfig.conversationId (PrepareIterationState.config this))
              (zipFileChecksum repo)) as [upload | e].
  2:{ rewrite <- !app_assoc. do 4 eexists. split; [reflexivity |]. split; [reflexivity |].
      split; [reflexivity |]. left. eexists. repeat split. }
  cbn -[String.append CodeGenIterationState_interact].
  destruct (uploadCode env (S (S (clock w))) (uploadUrl upload) (zipFileBuffer repo)
              (kmsKeyArn upload)) as [[] | e].
  2:{ rewrite <- !app_assoc. do 4 eexists. split; [reflexivity |]. split; [reflexivity |].
      split; [reflexivity |]. left. eexists. repeat split. }
  cbn -[String.append CodeGenIterationState_interact].
  rewrite call_run.
  fold (iteration_of this (upl_uploadId upload) (nextId w)).
  match goal with
  | |- context [CodeGenIterationState_interact env action (?it, ?w1)] =>
      destruct (CodeGenIterationState_summary action it w1)
        as (o & it' & w' & rest & Hrun & _ & Ht & Hends);
      rewrite Hrun; exists o; eexists; exists w'; eexists; split; [reflexivity |];
      split; [reflexivity |]; split;
      [| right; exists upload, w1, rest]
  end.
  - rewrite Ht. cbn [trace]. rewrite <- !app_assoc. cbn [app]. reflexivity.
  - split; [reflexivity |]. split; [| split; [reflexivity | exact Hends]].
    change (?a :: ?b :: ?c :: ?d :: rest)
      with ([a; b; c; d] ++ rest)%list.
    rewrite built_app. reflexivity.
Qed.

Lemma PrepareIterationState_lawful (action : SessionStateAction)
    (this : PrepareIterationState.t) (w : World) :
  exists o this' w',
    PrepareIterationState_interact env action (this, w) = (o, (this', w'))
    /\ PrepareIterationState.phase this' = PrepareIterationState.phase this
    /\ lawful_run w o w'.
Proof.
  destruct (PrepareIterationState_summary action this w)
    as (o & this' & w' & events & Hrun & Hp & Ht & Hcases).
  exists o, this', w'. split; [exact Hrun |]. split; [exact Hp |].
  destruct Hcases as [(e & _ & -> & Hb & Hid) | (upload & w1 & rest & _ & Hb & Hid1 & Hends)].
  - eapply lawful_throw; eassumption.
  - exists events. rewrite Hb. split; [exact Ht |].
    destruct Hends as [(e & -> & Hrest & Hid) | (paths & -> & Hrest & Hid)];
      rewrite Hrest, Hid, Hid1; cbn [length map seq tokenSource_of iteration_of
        iteration_result CodeGenIterationState.base CodeGenBase.tokenSource
        PrepareIterationState.tokenSource]; rewrite ?Hid1.
    + repeat split; try lia.
      * repeat constructor.
      * intros r H. discriminate.
    + repeat split; try lia.
      * repeat constructor.
      * intros r H. injection H as <-. right. left. reflexivity.
Qed.

End Lawful.

(** C10.  [PrepareIteration] builds its [CodeGenIteration] successor with
    the empty string as approach: every [CodeGenIteration] object built
    during the call has an empty approach, one is built as soon as the upload
    has gone through, and the state the call finally returns has an empty
    approach too, whatever approach [PrepareIteration] held. *)
Theorem prepare_iteration_discards_approach
    (env : Env) (action : SessionStateAction)
    (this : PrepareIterationState.t) (w : World) :
  exists o this' w' events,
    PrepareIterationState_interact env action (this, w) = (o, (this', w'))
    /\ trace w' = (trace w ++ events)%list
    /\ Forall (fun b => class_of b = CodeGenIteration -> approach_of b = "")
              (built events)
    /\ (forall upload,
           snapshot_upload env this w = Returns upload ->
           In (StCodeGenIteration (iteration_of this (upl_uploadId upload) (nextId w)))
              (built events))
    /\ (forall r, o = Returns r ->
                  class_of (nextState r) = PrepareIteration
                  /\ approach_of (nextState r) = "").
Proof.
  destruct (PrepareIterationState_summary env action this w)
    as (o & this' & w' & events & Hrun & _ & Ht & Hcases).
  exists o, this', w', events. split; [exact Hrun |]. split; [exact Ht |].
  destruct Hcases as [(e & Hup & -> & Hb & _) | (upload & w1 & rest & Hup & Hb & _ & Hends)].
  - rewrite Hb. split; [constructor |]. split.
    + intros upload H. rewrite Hup in H. discriminate.
    + intros r H. discriminate.
  - rewrite Hb.
    destruct Hends as [(e & -> & Hrest & _) | (paths & -> & Hrest & _)]; rewrite Hrest.
    + split; [repeat constructor |]. split.
      * intros u H. rewrite Hup in H. injection H as <-. left. reflexivity.
      * intros r H. discriminate.
    + split; [repeat constructor; intros H; discriminate |]. split.
      * intros u H. rewrite Hup in H. injection H as <-. left. reflexivity.
      * intros r H. injection H as <-. split; reflexivity.
Qed.

Lemma prepare_iteration_discards_approach_witness :
  approach_of (StPrepareIteration sample_prepare) = "the accepted plan"
  /\ exists r,
       fst (PrepareIterationState_interact (scripted_env ["Complete"] (Returns None) None)
              (mkAction (Some "rename a")) (sample_prepare, sample_world)) = Returns r
       /\ approach_of (nextState r) = "".
Proof.
  split; [reflexivity |].
  destruct (prepare_iteration_discards_approach
              (scripted_env ["Complete"] (Returns None) None)
              (mkAction (Some "rename a")) sample_prepare sample_world)
    as (o & this' & w' & events & Hrun & _ & _ & _ & Hret).
  assert (exists r, o = Returns r) as [r Hr].
  { pose proof (f_equal fst Hrun) as H. cbn [fst] in H. rewrite <- H.
    vm_compute. eexists. reflexivity. }
  exists r. split.
  - rewrite Hrun, Hr. reflexivity.
  - apply (Hret r Hr).
Defined.

Lemma tokens_in_range (objects : list SessionState) (first : nat) :
  map tokenSource_of objects = seq first (length objects) ->
  Forall (fun b => first <= tokenSource_of b < first + length objects) objects.
Proof.
  intros H. apply Forall_forall. intros b Hb.
  apply in_seq. rewrite <- H. apply in_map. exact Hb.
Qed.

Lemma lawful_run_spelled (w w' : World) (o : Outcome SessionStateInteraction) :
  lawful_run w o w' ->
  exists events,
    trace w' = (trace w ++ events)%list
    /\ Forall (fun b => phase_of b = declared_phase (class_of b)
                        /\ nextId w <= tokenSource_of b < nextId w')
              (built events)
    /\ (forall r, o = Returns r -> In (nextState r) (built events)).
Proof.
  intros (events & Ht & Htok & Hid & Hphase & Hnext).
  exists events. split; [exact Ht |]. split; [| exact Hnext].
  apply tokens_in_range in Htok. rewrite <- Hid in Htok.
  rewrite Forall_forall in *. intros b Hb. split; auto.
Qed.

(** C9, as the code has it.  Every class but [MockCodeGenState] gives its
    objects a phase when they are built — [Init], [Approach] or [Codegen]
    according to the class — and [MockCodeGenState] gives none.  No
    [interact] changes the phase or the class of the state it runs on; every
    state object built during the call has the phase of its class and a
    token source allocated during the call; and the next state returned is
    one of the objects so built. *)
Theorem phase_is_fixed_and_next_states_are_new (env : Env) :
  (forall c config approach filePaths tabID w,
      exists s w',
        new_SessionState env c config approach filePaths tabID w = (Returns s, w')
        /\ class_of s = c
        /\ phase_of s = declared_phase c)
  /\ (forall action s w,
         exists o s' w' events,
           interact env action (s, w) = (o, (s', w'))
           /\ class_of s' = class_of s
           /\ phase_of s' = phase_of s
           /\ trace w' = (trace w ++ events)%list
           /\ Forall (fun b => phase_of b = declared_phase (class_of b)
                               /\ nextId w <= tokenSource_of b < nextId w')
                     (built events)
           /\ (forall r, o = Returns r -> In (nextState r) (built events))).
Proof.
  split.
  - intros c config approach filePaths tabID w.
    destruct c; do 2 eexists; (split; [reflexivity | split; reflexivity]).
  - intros action s w. unfold interact, dispatch. cbn [fst snd].
    destruct s as [s | s | s | s | s | s | s | s].
    + rewrite ConversationNotStartedState_lawful.
      exists (Throws (ToolkitError
                        "Illegal transition between states, restart the conversation"
                        None)),
        (StConversationNotStarted s), w, [].
      rewrite app_nil_r. repeat split; try constructor. intros r H. discriminate.
    + destruct (PrepareRefinementState_lawful env action s w) as (o & w' & Hrun & Hlaw).
      rewrite Hrun. apply lawful_run_spelled in Hlaw.
      destruct Hlaw as (events & Ht & Hb & Hn).
      exists o, (StPrepareRefinement s), w', events. repeat split; assumption.
    + destruct (RefinementState_lawful env action s w) as (o & s' & w' & Hrun & Hp & Hlaw).
      rewrite Hrun. apply lawful_run_spelled in Hlaw.
      destruct Hlaw as (events & Ht & Hb & Hn).
      exists o, (StRefinement s'), w', events. cbn [class_of phase_of]. rewrite Hp.
      repeat split; assumption.
    + destruct (RefinementIterationState_lawful env action s w)
        as (o & s' & w' & Hrun & Hp & Hlaw).
      rewrite Hrun. apply lawful_run_spelled in Hlaw.
      destruct Hlaw as (events & Ht & Hb & Hn).
      exists o, (StRefinementIteration s'), w', events. cbn [class_of phase_of]. rewrite Hp.
      repeat split; assumption.
    + destruct (CodeGenState_summary env action s w)
        as (o & s' & w' & events & Hrun & Hp & Ht & Hends).
      rewrite Hrun.
      destruct (lawful_run_spelled w w' o (generation_ends_lawful _ _ _ _ _ _ Ht Hends))
        as (events' & Ht' & Hb & Hn).
      exists o, (StCodeGen s'), w', events'. cbn [class_of phase_of]. rewrite Hp.
      repeat split; assumption.
    + destruct (MockCodeGenState_lawful env action s w) as (o & s' & w' & Hrun & Hlaw).
      rewrite Hrun. apply lawful_run_spelled in Hlaw.
      destruct Hlaw as (events & Ht & Hb & Hn).
      exists o, (StMockCodeGen s'), w', events. repeat split; assumption.
    + destruct (PrepareIterationState_lawful env action s w)
        as (o & s' & w' & Hrun & Hp & Hlaw).
      rewrite Hrun. apply lawful_run_spelled in Hlaw.
      destruct Hlaw as (events & Ht & Hb & Hn).
      exists o, (StPrepareIteration s'), w', events. cbn [class_of phase_of]. rewrite Hp.
      repeat split; assumption.
    + destruct (CodeGenIterationState_summary env action s w)
        as (o & s' & w' & events & Hrun & Hp & Ht & Hends).
      rewrite Hrun.
      destruct (lawful_run_spelled w w' o (generation_ends_lawful _ _ _ _ _ _ Ht Hends))
        as (events' & Ht' & Hb & Hn).
      exists o, (StCodeGenIteration s'), w', events'. cbn [class_of phase_of]. rewrite Hp.
      repeat split; assumption.
Qed.

Lemma phase_is_fixed_and_next_states_are_new_witness :
  exists o s' w' events,
    interact (scripted_env ["InProgress"; "Complete"] (Returns None) None)
             (mkAction None) (StCodeGen sample_codegen, sample_world) = (o, (s', w'))
    /\ class_of s' = CodeGen
    /\ phase_of s' = Some Codegen
    /\ trace w' = events
    /\ Forall (fun b => phase_of b = declared_phase (class_of b)
                        /\ 1 <= tokenSource_of b < nextId w')
              (built events)
    /\ (forall r, o = Returns r -> In (nextState r) (built events)).
Proof.
  exact (proj2 (phase_is_fixed_and_next_states_are_new
                  (scripted_env ["InProgress"; "Complete"] (Returns None) None))
               (mkAction None) (StCodeGen sample_codegen) sample_world).
Defined.

(** C9, the part that does not hold: a [MockCodeGenState] object carries no
    phase at all. *)
Lemma mock_state_has_no_phase :
  new_SessionState (scripted_env [] (Returns None) None) MockCodeGen sample_config
                   "first plan" [] "tab-1" sample_world =
    (Returns (StMockCodeGen
                (mock_of (scripted_env [] (Returns None) None) sample_iteration 1)),
     mkWorld 0 0 2
       [EvNew (StMockCodeGen
                 (mock_of (scripted_env [] (Returns None) None) sample_iteration 1))])
  /\ phase_of (StMockCodeGen
                 (mock_of (scripted_env [] (Returns None) None) sample_iteration 1)) = None
  /\ None <> Some Init /\ None <> Some Approach /\ None <> Some Codegen.
Proof. repeat split; discriminate. Qed.

(* ================================================================= *)
(** ** Every run of the polling loop *)

Lemma status_cases (s : string) :
  s = "Complete" \/ in_progress s = true \/ is_failure s = true
  \/ ~ In s recognized_statuses.
Proof.
  destruct (s =? "Complete") eqn:E1; [left; apply String.eqb_eq; exact E1 |].
  destruct (in_progress s) eqn:E2; [right; left; reflexivity |].
  destruct (is_failure s) eqn:E3; [right; right; left; reflexivity |].
  right. right. right. unfold in_progress, is_failure in *.
  apply orb_false_iff in E2. destruct E2 as [E2 E2'].
  apply orb_false_iff in E3. destruct E3 as [E3 E3'].
  apply orb_false_iff in E3. destruct E3 as [E3 E3''].
  cbn. intros H.
  repeat (destruct H as [H | H];
          [subst s; cbn in *; discriminate |]).
  exact H.
Qed.

Section EveryRun.

Variable env : Env.
Variable this : CodeGenBase.t.
Variable codeGenerationId : string.

Let tok := CodeGenBase.tokenSource this.
Let cid := CodeGenBase.conversationId this.

Lemma body_poll_fails (e : JsError) (w : World) :
  getCodeGeneration env (polls w) cid codeGenerationId = Throws e ->
  generateCode_body env this codeGenerationId w =
    (Throws e,
     mkWorld (S (clock w)) (S (polls w)) (nextId w)
             (trace w ++ [EvGetCodeGeneration cid codeGenerationId])).
Proof.
  intros H. unfold generateCode_body, bind, proxy_getCodeGeneration.
  fold cid. rewrite H. reflexivity.
Qed.

Lemma body_export_fails (e : JsError) (w : World) :
  getCodeGeneration env (polls w) cid codeGenerationId = Returns "Complete" ->
  exportResultArchive env (S (clock w)) cid = Throws e ->
  generateCode_body env this codeGenerationId w =
    (Throws e,
     mkWorld (clock w + 2) (S (polls w)) (nextId w)
             (trace w ++ poll_round this codeGenerationId "Complete"
                      ++ [EvExportResultArchive cid])).
Proof.
  intros Hreply Hexport. unfold generateCode_body, bind, proxy_getCodeGeneration.
  fold cid. rewrite Hreply.
  cbn [emit await ret trace clock polls nextId String.eqb Ascii.eqb Bool.eqb].
  cbn [emit await ret trace clock polls nextId]. rewrite Hexport.
  unfold poll_round. fold cid. rewrite <- !app_assoc. cbn [app].
  f_equal. f_equal. lia.
Qed.

Lemma loop_ending_shift (budget : nat) (w w1 : World) (n : nat) (x : Ending) :
  clock w1 = clock w + 2 -> polls w1 = S (polls w) ->
  loop_ending_happens env this codeGenerationId budget w1 n x ->
  loop_ending_happens env this codeGenerationId (S budget) w (S n) x.
Proof.
  intros Hc Hp. unfold loop_ending_happens. fold tok cid. rewrite Hc, Hp.
  replace (clock w + 2 + 2 * n) with (clock w + 2 * S n) by lia.
  replace (S (polls w) + n) with (polls w + S n) by lia.
  destruct x; intuition lia.
Qed.

Lemma loop_shape (budget : nat) :
  forall w : World,
    exists statuses x,
      length statuses <= budget
      /\ job_reports env this codeGenerationId w statuses
      /\ Forall (fun s => in_progress s = true) statuses
      /\ not_cancelled_through env tok w (length statuses)
      /\ loop_ending_happens env this codeGenerationId budget w (length statuses) x
      /\ generateCode_loop env this codeGenerationId budget w =
           (loop_result x, ending_world env this codeGenerationId w statuses x).
Proof.
  induction budget as [| budget IH]; intros w.
  - exists [], Exhausted. cbn [length]. repeat split; try (cbn; lia).
    + intros i s H. destruct i; discriminate.
    + constructor.
    + intros i H. lia.
    + cbn [generateCode_loop loop_result].
      unfold ret, ending_world. cbn [length ending_awaits ending_polls ending_events
                                       waiting_rounds flat_map app Nat.mul].
      rewrite !Nat.add_0_r, app_nil_r, world_eta. reflexivity.
  - rewrite generateCode_loop_S. fold tok.
    assert (forall x : Ending,
               ending_world env this codeGenerationId w [] x =
               mkWorld (clock w + ending_awaits x) (polls w + ending_polls x) (nextId w)
                       (trace w ++ ending_events env this codeGenerationId x)) as Hw0.
    { intros x. unfold ending_world. cbn [length waiting_rounds flat_map app Nat.mul].
      rewrite !Nat.add_0_r. reflexivity. }
    assert (job_reports env this codeGenerationId w []) as Hj0.
    { intros i s H. destruct i; discriminate. }
    assert (not_cancelled_through env tok w 0) as Hn0.
    { intros i H. lia. }
    destruct (cancelled_at env tok (clock w)) eqn:Hc.
    { exists [], Cancelled. cbn [length].
      split; [lia |]. split; [exact Hj0 |]. split; [constructor |]. split; [exact Hn0 |].
      split.
      - cbn. rewrite Nat.add_0_r. split; [lia | exact Hc].
      - rewrite Hw0. cbn [loop_result ending_awaits ending_polls ending_events].
        rewrite !Nat.add_0_r, app_nil_r, world_eta. reflexivity. }
    assert (forall reply,
               getCodeGeneration env (polls w) cid codeGenerationId = reply ->
               0 < S budget
               /\ cancelled_at env tok (clock w + 2 * 0) = false
               /\ getCodeGeneration env (polls w + 0) cid codeGenerationId = reply) as Hpolled.
    { intros reply H. cbn [Nat.mul]. rewrite !Nat.add_0_r. repeat split; auto; lia. }
    destruct (getCodeGeneration env (polls w) cid codeGenerationId) as [s | e] eqn:Hreply.
    2:{ exists [], (PollFailed e). cbn [length].
        split; [lia |]. split; [exact Hj0 |]. split; [constructor |]. split; [exact Hn0 |].
        split; [exact (Hpolled _ eq_refl) |].
        rewrite (body_poll_fails e w Hreply), Hw0.
        cbn [loop_result ending_awaits ending_polls ending_events].
        f_equal. f_equal; lia. }
    destruct (status_cases s) as [-> | [Hs | [Hs | Hs]]].
    + destruct (exportResultArchive env (S (clock w)) cid) as [files | e] eqn:Hexport.
      * exists [], (Completed files). cbn [length].
        split; [lia |]. split; [exact Hj0 |]. split; [constructor |]. split; [exact Hn0 |].
        split.
        -- split; [exact (Hpolled _ eq_refl) |].
           cbn [Nat.mul]. rewrite <- Hexport. f_equal. lia.
        -- rewrite (body_complete env this codeGenerationId files w Hreply Hexport), Hw0.
           cbn [loop_result ending_awaits ending_polls ending_events].
           fold cid. f_equal. f_equal; lia.
      * exists [], (ExportFailed e). cbn [length].
        split; [lia |]. split; [exact Hj0 |]. split; [constructor |]. split; [exact Hn0 |].
        split.
        -- split; [exact (Hpolled _ eq_refl) |].
           cbn [Nat.mul]. rewrite <- Hexport. f_equal. lia.
        -- rewrite (body_export_fails e w Hreply Hexport), Hw0.
           cbn [loop_result ending_awaits ending_polls ending_events].
           fold cid. f_equal. f_equal; lia.
    + rewrite (body_in_progress env this codeGenerationId s w Hreply Hs).
      match goal with
      | |- context [generateCode_loop env this codeGenerationId budget ?w1] =>
          destruct (IH w1) as (statuses & x & Hlen & Hjob & Hall & Hnc & Hend & Hrun);
          pose proof (loop_ending_shift budget w w1 (length statuses) x eq_refl eq_refl Hend)
            as Hend'
      end.
      exists (s :: statuses), x. cbn [length].
      split; [lia |]. split; [| split; [| split; [| split; [exact Hend' |]]]].
      * intros i s' Hi. destruct i as [| i]; cbn in Hi.
        -- injection Hi as <-. rewrite Nat.add_0_r. exact Hreply.
        -- replace (polls w + S i) with (S (polls w) + i) by lia.
           apply (Hjob i s' Hi).
      * constructor; assumption.
      * intros i Hi. destruct i as [| i].
        -- cbn [Nat.mul]. rewrite Nat.add_0_r. exact Hc.
        -- replace (clock w + 2 * S i) with (clock w + 2 + 2 * i) by lia.
           apply (Hnc i). lia.
      * rewrite Hrun. f_equal. unfold ending_world.
        cbn [clock polls nextId trace length waiting_rounds flat_map].
        f_equal; try lia. rewrite <- !app_assoc. reflexivity.
    + exists [], (JobFailed s). cbn [length].
      split; [lia |]. split; [exact Hj0 |]. split; [constructor |]. split; [exact Hn0 |].
      split; [split; [exact (Hpolled _ eq_refl) | exact Hs] |].
      rewrite (body_failure env this codeGenerationId s w Hreply Hs), Hw0.
      cbn [loop_result ending_awaits ending_polls ending_events].
      f_equal. f_equal; lia.
    + exists [], (UnknownStatus s). cbn [length].
      split; [lia |]. split; [exact Hj0 |]. split; [constructor |]. split; [exact Hn0 |].
      split; [split; [exact (Hpolled _ eq_refl) | exact Hs] |].
      rewrite (body_unknown env this codeGenerationId s w Hreply Hs), Hw0.
      cbn [loop_result ending_awaits ending_polls ending_events].
      f_equal. f_equal; lia.
Qed.

End EveryRun.

Section EveryRunOfGenerateCode.

Variable env : Env.
Variable this : CodeGenBase.t.
Variable codeGenerationId : string.

Let tok := CodeGenBase.tokenSource this.
Let cid := CodeGenBase.conversationId this.
Let uploadId := CodeGenBase.uploadId this.

Lemma generateCode_shape (w : World) :
  exists statuses x,
    length statuses <= CodeGenBase.pollCount
    /\ job_reports env this codeGenerationId w statuses
    /\ Forall (fun s => in_progress s = true) statuses
    /\ not_cancelled_through env tok w (length statuses)
    /\ ending_happens env this codeGenerationId w (length statuses) x
    /\ generateCode env this codeGenerationId w =
         (ending_outcome x, ending_world env this codeGenerationId w statuses x).
Proof.
  destruct (loop_shape env this codeGenerationId CodeGenBase.pollCount w)
    as (statuses & x & Hlen & Hjob & Hall & Hnc & Hend & Hrun).
  unfold generateCode, bind. rewrite Hrun.
  unfold loop_ending_happens in Hend. fold tok cid in Hend.
  assert (forall y, ending_awaits y = 0 -> ending_polls y = 0 ->
                    ending_events env this codeGenerationId y = [] ->
                    ending_world env this codeGenerationId w statuses y =
                    ending_world env this codeGenerationId w statuses Cancelled) as Hsame.
  { intros y H1 H2 H3. unfold ending_world. rewrite H1, H2, H3. reflexivity. }
  destruct x; cbn [loop_result].
  - exists statuses, Cancelled. repeat split; try assumption.
    + unfold ending_happens. fold tok. apply Hend.
    + unfold isCancellationRequested. fold tok.
      cbn [ending_world clock ending_awaits]. rewrite Nat.add_0_r.
      destruct Hend as [_ ->]. reflexivity.
  - unfold isCancellationRequested. fold tok.
    cbn [ending_world clock ending_awaits]. rewrite Nat.add_0_r.
    destruct (cancelled_at env tok (clock w + 2 * length statuses)) eqn:Hc.
    + exists statuses, Cancelled. repeat split; try assumption.
    + exists statuses, Exhausted. repeat split; try assumption.
  - exists statuses, (Completed files). repeat split; try assumption; apply Hend.
  - exists statuses, (ExportFailed e). repeat split; try assumption; apply Hend.
  - exists statuses, (JobFailed status). repeat split; try assumption; apply Hend.
  - exists statuses, (UnknownStatus status). repeat split; try assumption; apply Hend.
  - exists statuses, (PollFailed e). repeat split; try assumption; apply Hend.
Qed.

(** X1.  Every run of [generateCode], whatever the remote service and the
    token do, is made of at most 180 rounds of waiting on [InProgress] or
    [predict-ready] answers, with the token not signaled at their checks,
    followed by exactly one of seven endings: cancelled at the next check,
    budget exhausted, completed with the exported files, export failed, job
    failed, unknown status, or status query failed.  The ending fixes the
    outcome and the whole trace. *)
Theorem generateCode_runs_end_in_one_of_seven_ways (w : World) :
  exists statuses x,
    length statuses <= CodeGenBase.pollCount
    /\ job_reports env this codeGenerationId w statuses
    /\ Forall (fun s => in_progress s = true) statuses
    /\ not_cancelled_through env tok w (length statuses)
    /\ ending_happens env this codeGenerationId w (length statuses) x
    /\ generateCode env this codeGenerationId w =
         (ending_outcome x, ending_world env this codeGenerationId w statuses x).
Proof. exact (generateCode_shape w). Qed.





Lemma polls_waiting_rounds (statuses : list string) :
  length (filter is_poll (waiting_rounds this codeGenerationId statuses))
  = length statuses.
Proof.
  induction statuses as [| s rest IH]; [reflexivity |].
  cbn [waiting_rounds flat_map]. rewrite filter_app, length_app.
  fold (waiting_rounds this codeGenerationId rest). rewrite IH. reflexivity.
Qed.








(** X3.  Providers are registered only by a run that returns, and then one
    per returned file, in order, at [path.join(uploadId, filePath)]; the
    returned paths are the paths of the returned files.  A run that throws
    has registered nothing. *)
Theorem generateCode_registers_exactly_what_it_returns (w : World) :
  exists events,
    trace (snd (generateCode env this codeGenerationId w)) = (trace w ++ events)%list
    /\ match fst (generateCode env this codeGenerationId w) with
       | Returns r =>
           newFilePaths r = map filePath (newFiles r)
           /\ filter is_register events = map (registration env uploadId) (newFiles r)
       | Throws _ => filter is_register events = []
       end.
Proof.
  destruct (generateCode_shape w)
    as (statuses & x & _ & _ & _ & _ & _ & Hrun).
  rewrite Hrun. cbn [fst snd ending_world trace].
  eexists. split; [reflexivity |].
  rewrite filter_app, waiting_rounds_no_register. cbn [app].
  destruct x; cbn [ending_outcome ending_events newFiles newFilePaths map filter app];
    try (split; reflexivity); try reflexivity.
  split; [reflexivity |].
  rewrite filter_app. cbn [poll_round filter is_register app].
  rewrite staging_registers. reflexivity.
Qed.

(** X4.  [generateCode] throws nothing of its own but the timeout error, the
    generation-failed error and the unknown-status error for a status the
    service really reported outside the recognized set; anything else it
    throws is the very error a status query or the export threw. *)
Theorem generateCode_throws_only_these (w w' : World) (e : JsError) :
  generateCode env this codeGenerationId w = (Throws e, w') ->
  e = timeout_error
  \/ e = generation_failed_error
  \/ (exists n status,
         getCodeGeneration env n cid codeGenerationId = Returns status
         /\ ~ In status recognized_statuses
         /\ e = unknown_status_error status)
  \/ (exists n, getCodeGeneration env n cid codeGenerationId = Throws e)
  \/ (exists time, exportResultArchive env time cid = Throws e).
Proof.
  intros H.
  destruct (generateCode_shape w)
    as (statuses & x & _ & _ & _ & _ & Hend & Hrun).
  rewrite Hrun in H. injection H as Ho _.
  unfold ending_happens in Hend. fold tok cid in Hend.
  destruct x; cbn [ending_outcome] in Ho; try discriminate; injection Ho as <-.
  - left. reflexivity.
  - right. right. right. right. eexists. apply Hend.
  - right. left. reflexivity.
  - right. right. left. exists (polls w + length statuses), status.
    destruct Hend as ((_ & _ & Hp) & Hs). auto.
  - right. right. right. left. eexists. apply Hend.
Qed.

End EveryRunOfGenerateCode.

Lemma generateCode_throws_only_these_witness :
  ForeignError "AccessDenied" = timeout_error
  \/ ForeignError "AccessDenied" = generation_failed_error
  \/ (exists n status,
         getCodeGeneration
           (with_export (Throws (ForeignError "AccessDenied"))
                        (scripted_env ["Complete"] (Returns None) None))
           n "conv-1" "gen-1" = Returns status
         /\ ~ In status recognized_statuses
         /\ ForeignError "AccessDenied" = unknown_status_error status)
  \/ (exists n,
         getCodeGeneration
           (with_export (Throws (ForeignError "AccessDenied"))
                        (scripted_env ["Complete"] (Returns None) None))
           n "conv-1" "gen-1" = Throws (ForeignError "AccessDenied"))
  \/ (exists time,
         exportResultArchive
           (with_export (Throws (ForeignError "AccessDenied"))
                        (scripted_env ["Complete"] (Returns None) None))
           time "conv-1" = Throws (ForeignError "AccessDenied")).
Proof.
  eapply (generateCode_throws_only_these
            (with_export (Throws (ForeignError "AccessDenied"))
                         (scripted_env ["Complete"] (Returns None) None))
            sample_base "gen-1" sample_world).
  reflexivity.
Defined.

Section DeterminedRun.

Variable env : Env.
Variable this : CodeGenBase.t.
Variable codeGenerationId : string.

Let tok := CodeGenBase.tokenSource this.
Let cid := CodeGenBase.conversationId this.

Lemma run_determined (w : World) (statuses : list string) (x : Ending) :
  length statuses <= CodeGenBase.pollCount ->
  job_reports env this codeGenerationId w statuses ->
  Forall (fun s => in_progress s = true) statuses ->
  not_cancelled_through env tok w (length statuses) ->
  ending_happens env this codeGenerationId w (length statuses) x ->
  generateCode env this codeGenerationId w =
    (ending_outcome x, ending_world env this codeGenerationId w statuses x).
Proof.
  intros Hlen Hjob Hall Hnc Hend.
  assert (exists m, CodeGenBase.pollCount = length statuses + m) as [m Hm].
  { exists (CodeGenBase.pollCount - length statuses). lia. }
  unfold ending_happens in Hend. fold tok cid in Hend.
  set (w1 := after_waiting w (length statuses)
               (waiting_rounds this codeGenerationId statuses)).
  assert (generateCode_loop env this codeGenerationId CodeGenBase.pollCount w =
          generateCode_loop env this codeGenerationId m w1) as Hloop.
  { rewrite Hm. apply loop_waiting; assumption. }
  assert (forall y, ending_awaits y = 0 -> ending_polls y = 0 ->
                    ending_events env this codeGenerationId y = [] ->
                    ending_world env this codeGenerationId w statuses y = w1) as Hquiet.
  { intros y H1 H2 H3. unfold ending_world, w1, after_waiting.
    rewrite H1, H2, H3, !Nat.add_0_r, app_nil_r. reflexivity. }
  assert (forall (o : Outcome (LoopStep CodeGeneration)) (w2 : World) (m' : nat),
             m = S m' ->
             cancelled_at env tok (clock w + 2 * length statuses) = false ->
             generateCode_body env this codeGenerationId w1 = (o, w2) ->
             generateCode_loop env this codeGenerationId m w1 =
             match o with
             | Returns (Return r) => (Returns (Some r), w2)
             | Returns Continue => generateCode_loop env this codeGenerationId m' w2
             | Throws e => (Throws e, w2)
             end) as Hstep.
  { intros o w2 m' -> Hc Hbody. rewrite generateCode_loop_S. fold tok.
    unfold w1 at 1. cbn [after_waiting clock]. rewrite Hc, Hbody. reflexivity. }
  assert (forall A (P : A), length statuses < CodeGenBase.pollCount ->
                            exists m', m = S m') as Hpos.
  { intros _ _ H. destruct m as [| m']; [lia | exists m'; reflexivity]. }
  destruct x; cbn [ending_outcome].
  - rewrite (generateCode_after_loop env this codeGenerationId w w1).
    + fold tok. unfold w1 at 1. cbn [after_waiting clock]. rewrite Hend.
      rewrite Hquiet by reflexivity. reflexivity.
    + rewrite Hloop. destruct m as [| m']; [reflexivity |].
      rewrite generateCode_loop_S. fold tok. unfold w1 at 1.
      cbn [after_waiting clock]. rewrite Hend. reflexivity.
  - destruct Hend as [Hfull Hc].
    assert (m = 0) as -> by lia.
    rewrite (generateCode_after_loop env this codeGenerationId w w1).
    + fold tok. unfold w1 at 1. cbn [after_waiting clock]. rewrite Hc.
      rewrite Hquiet by reflexivity. reflexivity.
    + rewrite Hloop. reflexivity.
  - destruct Hend as ((Hearly & Hc & Hpoll) & Hexport).
    destruct (Hpos _ tt Hearly) as [m' Hm'].
    unfold generateCode, bind. rewrite Hloop.
    erewrite Hstep; [| exact Hm' | exact Hc |].
    2:{ apply body_complete.
        - unfold w1. cbn [after_waiting polls]. exact Hpoll.
        - unfold w1. cbn [after_waiting clock]. fold cid. rewrite <- Hexport.
          f_equal. lia. }
    unfold ret, ending_world, w1.
    cbn [after_waiting clock polls nextId trace ending_awaits ending_polls ending_events].
    f_equal. f_equal; try lia. fold cid. rewrite <- !app_assoc. reflexivity.
  - destruct Hend as ((Hearly & Hc & Hpoll) & Hexport).
    destruct (Hpos _ tt Hearly) as [m' Hm'].
    unfold generateCode, bind. rewrite Hloop.
    erewrite Hstep; [| exact Hm' | exact Hc |].
    2:{ apply (body_export_fails env this codeGenerationId e).
        - unfold w1. cbn [after_waiting polls]. exact Hpoll.
        - unfold w1. cbn [after_waiting clock]. fold cid. rewrite <- Hexport.
          f_equal. lia. }
    unfold ending_world, w1.
    cbn [after_waiting clock polls nextId trace ending_awaits ending_polls ending_events].
    f_equal. f_equal; try lia. fold cid. rewrite <- !app_assoc. reflexivity.
  - destruct Hend as ((Hearly & Hc & Hpoll) & Hs).
    destruct (Hpos _ tt Hearly) as [m' Hm'].
    unfold generateCode, bind. rewrite Hloop.
    erewrite Hstep; [| exact Hm' | exact Hc |].
    2:{ apply (body_failure env this codeGenerationId status); [| exact Hs].
        unfold w1. cbn [after_waiting polls]. exact Hpoll. }
    unfold ending_world, w1.
    cbn [after_waiting clock polls nextId trace ending_awaits ending_polls ending_events].
    f_equal. f_equal; try lia. rewrite <- !app_assoc. reflexivity.
  - destruct Hend as ((Hearly & Hc & Hpoll) & Hs).
    destruct (Hpos _ tt Hearly) as [m' Hm'].
    unfold generateCode, bind. rewrite Hloop.
    erewrite Hstep; [| exact Hm' | exact Hc |].
    2:{ apply (body_unknown env this codeGenerationId status); [| exact Hs].
        unfold w1. cbn [after_waiting polls]. exact Hpoll. }
    unfold ending_world, w1.
    cbn [after_waiting clock polls nextId trace ending_awaits ending_polls ending_events].
    f_equal. f_equal; try lia. rewrite <- !app_assoc. reflexivity.
  - destruct Hend as (Hearly & Hc & Hpoll).
    destruct (Hpos _ tt Hearly) as [m' Hm'].
    unfold generateCode, bind. rewrite Hloop.
    erewrite Hstep; [| exact Hm' | exact Hc |].
    2:{ apply (body_poll_fails env this codeGenerationId e).
        unfold w1. cbn [after_waiting polls]. exact Hpoll. }
    unfold ending_world, w1.
    cbn [after_waiting clock polls nextId trace ending_awaits ending_polls ending_events].
    f_equal. f_equal; try lia. rewrite <- !app_assoc. reflexivity.
Qed.

(** X5.  Conversely, the answers of the service and the schedule of the
    token determine the run: after any rounds of waiting on [InProgress] or
    [predict-ready] answers, whatever makes one of the seven endings happen
    makes [generateCode] end that way, with that outcome and that trace.  A
    token signaled after the last check does not change a completed run. *)
Theorem generateCode_run_is_determined
    (w : World) (statuses : list string) (x : Ending) :
  length statuses <= CodeGenBase.pollCount ->
  job_reports env this codeGenerationId w statuses ->
  Forall (fun s => in_progress s = true) statuses ->
  not_cancelled_through env tok w (length statuses) ->
  ending_happens env this codeGenerationId w (length statuses) x ->
  generateCode env this codeGenerationId w =
    (ending_outcome x, ending_world env this codeGenerationId w statuses x).
Proof. exact (run_determined w statuses x). Qed.

End DeterminedRun.

Lemma generateCode_run_is_determined_witness :
  generateCode (scripted_env ["predict-ready"; "InProgress"; "Complete"] (Returns None)
                             (Some 5))
               sample_base "gen-1" sample_world =
    (Returns (mkCodeGeneration sample_files ["src/a.ts"; "README.md"]),
     mkWorld 6 3 1
       [EvGetCodeGeneration "conv-1" "gen-1"; EvLoggerInfo "Codegen response: predict-ready";
        EvSetTimeout 10000;
        EvGetCodeGeneration "conv-1" "gen-1"; EvLoggerInfo "Codegen response: InProgress";
        EvSetTimeout 10000;
        EvGetCodeGeneration "conv-1" "gen-1"; EvLoggerInfo "Codegen response: Complete";
        EvExportResultArchive "conv-1";
        EvRegisterProvider "weaverbird" "upload-1/src/a.ts" (encode "let a = 1");
        EvTelemetryEmit "awsq_filesChanged" "conv-1";
        EvRegisterProvider "weaverbird" "upload-1/README.md" (encode "# hi");
        EvTelemetryEmit "awsq_filesChanged" "conv-1"])
  /\ cancelled_at (scripted_env ["predict-ready"; "InProgress"; "Complete"] (Returns None)
                                (Some 5))
                  (CodeGenBase.tokenSource sample_base) 5 = true.
Proof.
  split; [| reflexivity].
  apply (generateCode_run_is_determined
           (scripted_env ["predict-ready"; "InProgress"; "Complete"] (Returns None) (Some 5))
           sample_base "gen-1" sample_world ["predict-ready"; "InProgress"]
           (Completed sample_files)).
  - unfold CodeGenBase.pollCount. cbn. lia.
  - intros i s Hi. destruct i as [| [| i]]; cbn in Hi |- *;
      try (injection Hi as <-; reflexivity).
    destruct i; discriminate.
  - repeat constructor.
  - intros i Hi. cbn in Hi. destruct i as [| [| i]]; [reflexivity | reflexivity | lia].
  - cbn. unfold CodeGenBase.pollCount. repeat split. lia.
Defined.

(* ================================================================= *)
(** ** More on the helper and on the states *)

(** X6.  [createFilePaths] never fails and takes no time: it returns the
    paths of the files as they are, in order, and appends to the trace, for
    each file in turn, one provider registration at
    [path.join(uploadId, filePath)] holding the encoded content and one
    [awsq_filesChanged] count.  Staging a list in two parts, one after the
    other, is staging the whole list. *)
Theorem createFilePaths_stages_each_file_in_order
    (env : Env) (uploadId conversationId : string) (w : World) :
  (forall files,
      createFilePaths env files uploadId conversationId w =
        (Returns (map filePath files),
         mkWorld (clock w) (polls w) (nextId w)
                 (trace w ++ staging env uploadId conversationId files))
      /\ filter is_register (staging env uploadId conversationId files)
         = map (registration env uploadId) files
      /\ length (staging env uploadId conversationId files) = 2 * length files)
  /\ (forall first second : NewFileContents,
         createFilePaths env (first ++ second)%list uploadId conversationId w =
           (Returns (map filePath first ++ map filePath second)%list,
            snd (createFilePaths env second uploadId conversationId
                   (snd (createFilePaths env first uploadId conversationId w))))).
Proof.
  assert (forall files,
             filter is_register (staging env uploadId conversationId files)
             = map (registration env uploadId) files) as Hreg.
  { induction files as [| f rest IH]; [reflexivity |]. cbn [map]. rewrite <- IH. reflexivity. }
  split.
  - intros files. split; [apply createFilePaths_spec |]. split; [apply Hreg |].
    induction files as [| f rest IH]; [reflexivity |].
    cbn [staging flat_map length app]. fold (staging env uploadId conversationId rest).
    rewrite IH. cbn [length]. lia.
  - intros first second. rewrite !createFilePaths_spec. cbn [snd].
    rewrite ?createFilePaths_spec. cbn [snd clock polls nextId trace].
    rewrite map_app. unfold staging. rewrite flat_map_app, <- app_assoc. reflexivity.
Qed.

Section Transitions.

Variable env : Env.

Lemma filter_none {A : Type} (p q : A -> bool) (l : list A) :
  Forall (fun a => q a = true) l ->
  (forall a, q a = true -> p a = false) ->
  filter p l = [].
Proof.
  intros Hall Hp. induction Hall as [| a l Ha _ IH]; [reflexivity |].
  cbn [filter]. rewrite (Hp a Ha). exact IH.
Qed.

(** What a run of [generateCode] amounts to for its caller. *)
Lemma generateCode_summary (this : CodeGenBase.t) (codeGenerationId : string) (w : World) :
  exists events time polled,
    snd (generateCode env this codeGenerationId w) =
      mkWorld time polled (nextId w) (trace w ++ events)
    /\ Forall (fun e => is_generation_event e = true) events
    /\ match fst (generateCode env this codeGenerationId w) with
       | Returns r =>
           newFilePaths r = map filePath (newFiles r)
           /\ filter is_register events
              = map (registration env (CodeGenBase.uploadId this)) (newFiles r)
       | Throws e =>
           filter is_register events = []
           /\ generation_error env this codeGenerationId e
       end.
Proof.
  destruct (generateCode_shape env this codeGenerationId w)
    as (statuses & x & _ & _ & _ & _ & Hend & Hrun).
  rewrite Hrun. cbn [fst snd]. unfold ending_world.
  do 3 eexists. split; [reflexivity |].
  assert (forall l, Forall (fun e => is_generation_event e = true)
                           (waiting_rounds this codeGenerationId l)) as Hg1.
  { induction l as [| s rest IH]; [constructor |].
    cbn [waiting_rounds flat_map]. apply Forall_app. split; [| exact IH].
    repeat constructor. }
  assert (forall u c files, Forall (fun e => is_generation_event e = true)
                                   (staging env u c files)) as Hg2.
  { intros u c files. induction files as [| f rest IH]; [constructor |].
    cbn [staging flat_map]. apply Forall_app. split; [| exact IH].
    repeat constructor. }
  rewrite !filter_app, waiting_rounds_no_register. cbn [app].
  unfold ending_happens in Hend.
  split.
  - apply Forall_app. split; [apply Hg1 |].
    destruct x; cbn [ending_events]; repeat (apply Forall_app; split);
      try apply Hg2; repeat constructor.
  - destruct x; cbn [ending_outcome ending_events newFiles newFilePaths].
    + split; reflexivity.
    + split; [reflexivity |]. left. reflexivity.
    + split; [reflexivity |].
      rewrite filter_app. cbn [poll_round filter is_register app].
      apply staging_registers.
    + split; [reflexivity |]. right. right. right. right. eexists. apply Hend.
    + split; [reflexivity |]. right. left. reflexivity.
    + split; [reflexivity |]. right. right. left.
      destruct Hend as ((_ & _ & Hp) & Hs). do 2 eexists. split; [exact Hp |]. auto.
    + split; [reflexivity |]. right. right. right. left. eexists. apply Hend.
Qed.

Lemma generation_events_quiet (events : list Event) :
  Forall (fun e => is_generation_event e = true) events ->
  built events = [] /\ filter is_start events = [] /\ filter is_plan events = [].
Proof.
  intros H. split; [| split].
  - induction H as [| e l He _ IH]; [reflexivity |].
    cbn [built flat_map]. fold (built l). rewrite IH.
    destruct e; try discriminate; reflexivity.
  - apply (filter_none _ _ _ H). intros e He. destruct e; try discriminate; reflexivity.
  - apply (filter_none _ _ _ H). intros e He. destruct e; try discriminate; reflexivity.
Qed.

Lemma server_side_is_toolkit (e : JsError) :
  instanceof_ToolkitError (server_side e) = true.
Proof. unfold server_side. destruct e; reflexivity. Qed.

End Transitions.

Section CodeGeneration.

Variable env : Env.
Variable action : SessionStateAction.

(** What a call of [CodeGenState.interact] amounts to. *)
Lemma CodeGenState_outcomes (this : CodeGenState.t) (w : World) :
  exists events o this' w',
    CodeGenState_interact env action (this, w) = (o, (this', w'))
    /\ trace w' = (trace w ++ events)%list
    /\ filter is_start events =
         [EvStartCodeGeneration
            (SessionStateConfig.conversationId (CodeGenBase.config (CodeGenState.base this)))
            (SessionStateConfig.uploadId (CodeGenBase.config (CodeGenState.base this)))
            None]
    /\ match o with
       | Returns r =>
           exists files,
             r = mkSSI (StPrepareIteration
                          (iteration_result (CodeGenState.base this)
                                            (CodeGenState.approach this)
                                            (map filePath files) (nextId w)))
                       (mkInteraction None)
             /\ this' = CodeGenState.set_filePaths (map filePath files) this
             /\ filter is_register events
                = map (registration env (CodeGenBase.uploadId (CodeGenState.base this))) files
             /\ built events = [nextState r]
             /\ nextId w' = S (nextId w)
       | Throws e =>
           this' = this
           /\ instanceof_ToolkitError e = true
           /\ filter is_register events = []
           /\ built events = []
           /\ nextId w' = nextId w
       end.
Proof.
  unfold CodeGenState_interact, telemetry_run, try_catch, bind, sendAnswer.
  cbn -[String.append generateCode].
  destruct (startCodeGeneration env (clock w)
              (SessionStateConfig.conversationId (CodeGenBase.config (CodeGenState.base this)))
              (SessionStateConfig.uploadId (CodeGenBase.config (CodeGenState.base this)))
              None) as [id | e].
  2:{ cbn -[String.append]. rewrite <- !app_assoc. do 4 eexists.
      split; [reflexivity |]. split; [reflexivity |]. split; [reflexivity |].
      split; [reflexivity |]. split; [apply server_side_is_toolkit |]. repeat split. }
  cbn -[String.append generateCode]. rewrite liftW_run.
  match goal with
  | |- context [generateCode env ?b ?i ?w1] =>
      destruct (generateCode_summary env b i w1)
        as (events & time & polled & Hw & Hgen & Hout);
      destruct (generateCode env b i w1) as [[cg | e] w2]
  end; cbn -[String.append] in Hw, Hout |- *; subst w2; cbn -[String.append];
    destruct (generation_events_quiet events Hgen) as (Hbuilt & Hstart & _).
  - destruct Hout as [Hpaths Hreg]. unfold ret. rewrite <- !app_assoc. cbn [app].
    do 4 eexists. split; [reflexivity |]. split; [reflexivity |].
    change (?a :: ?b :: ?c :: ?d :: ?e :: (events ++ ?l)%list)
      with ([a; b; c; d; e] ++ events ++ l)%list.
    rewrite !filter_app, !built_app, Hstart, Hbuilt.
    split; [reflexivity |].
    exists (newFiles cg). rewrite <- Hpaths, Hreg.
    repeat split; cbn [filter is_register app]; rewrite ?app_nil_r; reflexivity.
  - destruct Hout as [Hreg _]. rewrite <- !app_assoc. cbn [app].
    do 4 eexists. split; [reflexivity |]. split; [reflexivity |].
    change (?a :: ?b :: ?c :: ?d :: ?e :: (events ++ ?l)%list)
      with ([a; b; c; d; e] ++ events ++ l)%list.
    rewrite !filter_app, !built_app, Hstart, Hbuilt, Hreg.
    split; [reflexivity |]. split; [reflexivity |].
    split; [apply server_side_is_toolkit |]. repeat split.
Qed.

(** What a call of [CodeGenIterationState.interact] amounts to. *)
Lemma CodeGenIterationState_outcomes (this : CodeGenIterationState.t) (w : World) :
  exists events o this' w',
    CodeGenIterationState_interact env action (this, w) = (o, (this', w'))
    /\ trace w' = (trace w ++ events)%list
    /\ filter is_start events =
         [EvStartCodeGeneration
            (SessionStateConfig.conversationId
               (CodeGenBase.config (CodeGenIterationState.base this)))
            (SessionStateConfig.uploadId
               (CodeGenBase.config (CodeGenIterationState.base this)))
            (msg action)]
    /\ match o with
       | Returns r =>
           exists files,
             r = mkSSI (StPrepareIteration
                          (iteration_result (CodeGenIterationState.base this)
                                            (CodeGenIterationState.approach this)
                                            (map filePath files) (nextId w)))
                       (mkInteraction None)
             /\ this' = CodeGenIterationState.set_filePaths (map filePath files) this
             /\ filter is_register events
                = map (registration env
                         (CodeGenBase.uploadId (CodeGenIterationState.base this))) files
             /\ built events = [nextState r]
             /\ nextId w' = S (nextId w)
       | Throws e =>
           this' = this
           /\ filter is_register events = []
           /\ built events = []
           /\ nextId w' = nextId w
       end.
Proof.
  unfold CodeGenIterationState_interact, bind, sendAnswer.
  cbn -[String.append generateCode].
  destruct (startCodeGeneration env (clock w)
              (SessionStateConfig.conversationId
                 (CodeGenBase.config (CodeGenIterationState.base this)))
              (SessionStateConfig.uploadId
                 (CodeGenBase.config (CodeGenIterationState.base this)))
              (msg action)) as [id | e].
  2:{ rewrite <- !app_assoc. do 4 eexists.
      split; [reflexivity |]. split; [reflexivity |]. split; [reflexivity |].
      repeat split. }
  cbn -[String.append generateCode]. rewrite liftW_run.
  match goal with
  | |- context [generateCode env ?b ?i ?w1] =>
      destruct (generateCode_summary env b i w1)
        as (events & time & polled & Hw & Hgen & Hout);
      destruct (generateCode env b i w1) as [[cg | e] w2]
  end; cbn -[String.append] in Hw, Hout |- *; subst w2; cbn -[String.append];
    destruct (generation_events_quiet events Hgen) as (Hbuilt & Hstart & _).
  - destruct Hout as [Hpaths Hreg]. unfold ret. rewrite <- !app_assoc. cbn [app].
    do 4 eexists. split; [reflexivity |]. split; [reflexivity |].
    change (?a :: ?b :: ?c :: ?d :: (events ++ ?l)%list)
      with ([a; b; c; d] ++ events ++ l)%list.
    rewrite !filter_app, !built_app, Hstart, Hbuilt.
    split; [reflexivity |].
    exists (newFiles cg). rewrite <- Hpaths, Hreg.
    repeat split; cbn [filter is_register app]; rewrite ?app_nil_r; reflexivity.
  - destruct Hout as [Hreg _]. rewrite <- !app_assoc. cbn [app].
    do 4 eexists. split; [reflexivity |]. split; [reflexivity |].
    change (?a :: ?b :: ?c :: ?d :: events)
      with ([a; b; c; d] ++ events)%list.
    rewrite !filter_app, !built_app, Hstart, Hbuilt, Hreg.
    split; [reflexivity |]. repeat split.
Qed.

(** What a call of [RefinementState.interact] amounts to. *)
Lemma RefinementState_outcomes (this : RefinementState.t) (w : World) :
  exists events o this' w',
    RefinementState_interact env action (this, w) = (o, (this', w'))
    /\ trace w' = (trace w ++ events)%list
    /\ Forall (fun e => is_plan e = true ->
                        exists m, msg action = Some m
                                  /\ e = plan_request (RefinementState.config this) m)
              events
    /\ match o with
       | Returns r =>
           exists a,
             r = mkSSI (StRefinementIteration (refined_next this (nextId w) a))
                       (mkInteraction (Some (a ++ newline)))
             /\ this' = RefinementState.set_approach a this
             /\ built events = [nextState r]
             /\ nextId w' = S (nextId w)
       | Throws e =>
           this' = this
           /\ instanceof_ToolkitError e = true
           /\ built events = []
           /\ nextId w' = nextId w
       end.
Proof.
  destruct action as [[[| c rest] |]].
  - exists [EvSpanRecord "awsq_approachInvoke" (RefinementState.conversationId this)].
    do 3 eexists. split; [reflexivity |]. split; [reflexivity |].
    split; [repeat constructor; discriminate |]. repeat split.
  - destruct (generatePlan env (clock w)
                (SessionStateConfig.conversationId (RefinementState.config this))
                (SessionStateConfig.uploadId (RefinementState.config this))
                (String c rest)) as [raw | e] eqn:Hplan.
    + rewrite (RefinementState_interact_plan env w c rest this raw Hplan).
      do 4 eexists. split; [reflexivity |]. split; [reflexivity |]. split.
      * repeat constructor; try discriminate. intros _. eexists. split; reflexivity.
      * eexists. repeat split.
    + rewrite (RefinementState_interact_plan_fails env w c rest this e Hplan).
      do 4 eexists. split; [reflexivity |]. split; [reflexivity |]. split.
      * repeat constructor; try discriminate. intros _. eexists. split; reflexivity.
      * split; [reflexivity |]. split; [apply server_side_is_toolkit |]. repeat split.
  - exists [EvSpanRecord "awsq_approachInvoke" (RefinementState.conversationId this)].
    do 3 eexists. split; [reflexivity |]. split; [reflexivity |].
    split; [repeat constructor; discriminate |]. repeat split.
Qed.

End CodeGeneration.

Section Preparation.

Variable env : Env.
Variable action : SessionStateAction.

(** What a call of [PrepareIterationState.interact] amounts to, by the
    replies of the three upload steps. *)
Lemma PrepareIterationState_outcomes (this : PrepareIterationState.t) (w : World) :
  let config := PrepareIterationState.config this in
  let cid := SessionStateConfig.conversationId config in
  exists events o this' w',
    PrepareIterationState_interact env action (this, w) = (o, (this', w'))
    /\ trace w' = (trace w ++ events)%list
    /\ match prepareRepoData env (clock w) (SessionStateConfig.workspaceRoot config)
                             (PrepareIterationState.conversationId this) with
       | Throws e =>
           o = Throws e /\ this' = this /\ built events = []
           /\ filter is_remote_call events = []
       | Returns repo =>
           match createUploadUrl env (S (clock w)) cid (zipFileChecksum repo) with
           | Throws e =>
               o = Throws e /\ this' = this /\ built events = []
               /\ filter is_remote_call events
                  = [EvCreateUploadUrl cid (zipFileChecksum repo)]
           | Returns upload =>
               let it := iteration_of this (upl_uploadId upload) (nextId w) in
               this' = PrepareIterationState.set_uploadId (upl_uploadId upload) this
               /\ match uploadCode env (S (S (clock w))) (uploadUrl upload)
                                   (zipFileBuffer repo) (kmsKeyArn upload) with
                  | Throws e =>
                      o = Throws e /\ built events = []
                      /\ filter is_start events = []
                      /\ filter is_register events = []
                  | Returns _ =>
                      filter is_start events
                      = [EvStartCodeGeneration cid (upl_uploadId upload) (msg action)]
                      /\ match o with
                         | Returns r =>
                             exists files,
                               r = mkSSI (StPrepareIteration
                                            (iteration_result (CodeGenIterationState.base it) ""
                                               (map filePath files) (S (nextId w))))
                                         (mkInteraction None)
                               /\ filter is_register events
                                  = map (registration env (upl_uploadId upload)) files
                               /\ built events = [StCodeGenIteration it; nextState r]
                         | Throws e =>
                             filter is_register events = []
                             /\ built events = [StCodeGenIteration it]
                         end
                  end
           end
       end.
Proof.
  intros config cid. subst config cid.
  unfold PrepareIterationState_interact, bind.
  cbn -[String.append CodeGenIterationState_interact].
  destruct (prepareRepoData env (clock w)
              (SessionStateConfig.workspaceRoot (PrepareIterationState.config this))
              (PrepareIterationState.conversationId this)) as [repo | e].
  2:{ do 4 eexists. split; [reflexivity |]. split; [reflexivity |]. repeat split. }
  cbn -[String.append CodeGenIterationState_interact].
  destruct (createUploadUrl env (S (clock w))
              (SessionStateConfig.conversationId (PrepareIterationState.config this))
              (zipFileChecksum repo)) as [upload | e].
  2:{ rewrite <- !app_assoc. do 4 eexists. split; [reflexivity |].
      split; [reflexivity |]. repeat split. }
  cbn -[String.append CodeGenIterationState_interact].
  destruct (uploadCode env (S (S (clock w))) (uploadUrl upload) (zipFileBuffer repo)
              (kmsKeyArn upload)) as [[] | e].
  2:{ rewrite <- !app_assoc. do 4 eexists. split; [reflexivity |].
      split; [reflexivity |]. repeat split. }
  cbn -[String.append CodeGenIterationState_interact].
  rewrite call_run.
  fold (iteration_of this (upl_uploadId upload) (nextId w)).
  match goal with
  | |- context [CodeGenIterationState_interact env action (?it, ?w1)] =>
      destruct (CodeGenIterationState_outcomes env action it w1)
        as (rest & o & it' & w' & Hrun & Ht & Hstart & Hout);
      rewrite Hrun
  end.
  cbn [trace nextId] in Ht, Hout.
  exists ([EvPrepareRepoData
             (SessionStateConfig.workspaceRoot (PrepareIterationState.config this))
             (PrepareIterationState.conversationId this);
           EvCreateUploadUrl
             (SessionStateConfig.conversationId (PrepareIterationState.config this))
             (zipFileChecksum repo);
           EvUploadCode (uploadUrl upload) (zipFileBuffer repo) (kmsKeyArn upload);
           EvNew (StCodeGenIteration (iteration_of this (upl_uploadId upload) (nextId w)))]
          ++ rest)%list.
  exists o. eexists. exists w'.
  split; [reflexivity |]. split.
  { rewrite Ht. rewrite <- !app_assoc. reflexivity. }
  split; [reflexivity |].
  rewrite !filter_app, built_app. split.
  { rewrite Hstart. reflexivity. }
  destruct o as [r | e].
  - destruct Hout as (files & Hr & _ & Hreg & Hbuilt & _).
    exists files. rewrite Hreg, Hbuilt. repeat split. exact Hr.
  - destruct Hout as (_ & Hreg & Hbuilt & _). rewrite Hreg, Hbuilt. repeat split.
Qed.

(** What a call of [PrepareRefinementState.interact] amounts to, by the
    replies of the three upload steps. *)
Lemma PrepareRefinementState_outcomes (this : PrepareRefinementState.t) (w : World) :
  let config := PrepareRefinementState.config this in
  let cid := ConfigNoUpload.conversationId config in
  exists events o this' w',
    PrepareRefinementState_interact env action (this, w) = (o, (this', w'))
    /\ trace w' = (trace w ++ events)%list
    /\ this' = this
    /\ match prepareRepoData env (clock w) (ConfigNoUpload.workspaceRoot config) cid with
       | Throws e =>
           o = Throws e /\ built events = [] /\ filter is_remote_call events = []
       | Returns repo =>
           match createUploadUrl env (S (clock w)) cid (zipFileChecksum repo) with
           | Throws e =>
               o = Throws e /\ built events = []
               /\ filter is_remote_call events
                  = [EvCreateUploadUrl cid (zipFileChecksum repo)]
           | Returns upload =>
               match uploadCode env (S (S (clock w))) (uploadUrl upload)
                                (zipFileBuffer repo) (kmsKeyArn upload) with
               | Throws e =>
                   o = Throws e /\ built events = []
                   /\ filter is_plan events = []
               | Returns _ =>
                   let config' := ConfigNoUpload.with_uploadId config (upl_uploadId upload) in
                   let refinement :=
                     RefinementState.mk (nextId w) cid (upl_uploadId upload) Approach config'
                       (PrepareRefinementState.approach this)
                       (PrepareRefinementState.tabID this) in
                   Forall (fun e => is_plan e = true ->
                                    exists m, msg action = Some m
                                              /\ e = plan_request config' m) events
                   /\ match o with
                      | Returns r =>
                          exists a,
                            r = mkSSI (StRefinementIteration
                                         (refined_next refinement (S (nextId w)) a))
                                      (mkInteraction (Some (a ++ newline)))
                            /\ built events = [StRefinement refinement; nextState r]
                      | Throws e =>
                          instanceof_ToolkitError e = true
                          /\ built events = [StRefinement refinement]
                      end
               end
           end
       end.
Proof.
  intros config cid. subst config cid.
  unfold PrepareRefinementState_interact, bind.
  cbn -[String.append RefinementState_interact].
  destruct (prepareRepoData env (clock w)
              (ConfigNoUpload.workspaceRoot (PrepareRefinementState.config this))
              (ConfigNoUpload.conversationId (PrepareRefinementState.config this)))
    as [repo | e].
  2:{ do 4 eexists. split; [reflexivity |]. split; [reflexivity |]. repeat split. }
  cbn -[String.append RefinementState_interact].
  destruct (createUploadUrl env (S (clock w))
              (ConfigNoUpload.conversationId (PrepareRefinementState.config this))
              (zipFileChecksum repo)) as [upload | e].
  2:{ rewrite <- !app_assoc. do 4 eexists. split; [reflexivity |].
      split; [reflexivity |]. repeat split. }
  cbn -[String.append RefinementState_interact].
  destruct (uploadCode env (S (S (clock w))) (uploadUrl upload) (zipFileBuffer repo)
              (kmsKeyArn upload)) as [[] | e].
  2:{ rewrite <- !app_assoc. do 4 eexists. split; [reflexivity |].
      split; [reflexivity |]. repeat split. }
  cbn -[String.append RefinementState_interact].
  rewrite call_run.
  match goal with
  | |- context [RefinementState_interact env action (?r0, ?w1)] =>
      destruct (RefinementState_outcomes env action r0 w1)
        as (rest & o & r' & w' & Hrun & Ht & Hplan & Hout);
      rewrite Hrun
  end.
  cbn [trace nextId] in Ht, Hout.
  exists ([EvPrepareRepoData
             (ConfigNoUpload.workspaceRoot (PrepareRefinementState.config this))
             (ConfigNoUpload.conversationId (PrepareRefinementState.config this));
           EvCreateUploadUrl
             (ConfigNoUpload.conversationId (PrepareRefinementState.config this))
             (zipFileChecksum repo);
           EvUploadCode (uploadUrl upload) (zipFileBuffer repo) (kmsKeyArn upload)]
          ++ EvNew (StRefinement
               (RefinementState.mk (nextId w)
                  (ConfigNoUpload.conversationId (PrepareRefinementState.config this))
                  (upl_uploadId upload) Approach
                  (ConfigNoUpload.with_uploadId (PrepareRefinementState.config this)
                     (upl_uploadId upload))
                  (PrepareRefinementState.approach this)
                  (PrepareRefinementState.tabID this))) :: rest)%list.
  exists o. eexists. exists w'.
  split; [reflexivity |]. split.
  { rewrite Ht. rewrite <- !app_assoc. reflexivity. }
  split; [reflexivity |]. split.
  { apply Forall_app. split; [repeat constructor; discriminate |].
    constructor; [discriminate |]. exact Hplan. }
  rewrite built_app. cbn [built flat_map app].
  destruct o as [r | e].
  - destruct Hout as (a & Hr & _ & Hbuilt & _).
    exists a. fold (built rest). rewrite Hbuilt. split; [exact Hr | reflexivity].
  - destruct Hout as (_ & Htk & Hbuilt & _). fold (built rest). rewrite Hbuilt.
    split; [exact Htk | reflexivity].
Qed.

End Preparation.

(* ================================================================= *)
(** ** The transitions, for every collaborator *)

(** X7.  The two states whose [interact] has a [catch] clause,
    [RefinementState] and [CodeGenState], never fail with anything but a
    [ToolkitError], whatever the collaborators do. *)
Theorem guarded_states_throw_toolkit_errors_only
    (env : Env) (action : SessionStateAction) (w : World) :
  (forall this : RefinementState.t,
      match fst (RefinementState_interact env action (this, w)) with
      | Throws e => instanceof_ToolkitError e = true
      | Returns _ => True
      end)
  /\ (forall this : CodeGenState.t,
         match fst (CodeGenState_interact env action (this, w)) with
         | Throws e => instanceof_ToolkitError e = true
         | Returns _ => True
         end).
Proof.
  split; intros this.
  - destruct (RefinementState_outcomes env action this w)
      as (events & o & this' & w' & Hrun & _ & _ & Hout).
    rewrite Hrun. destruct o; [exact I | apply Hout].
  - destruct (CodeGenState_outcomes env action this w)
      as (events & o & this' & w' & Hrun & _ & _ & Hout).
    rewrite Hrun. destruct o; [exact I | apply Hout].
Qed.

(** X8.  A code-generation state hands over exactly what it staged: when
    [CodeGenState.interact] or [CodeGenIterationState.interact] returns, the
    paths of the next [PrepareIteration] state, the paths the receiver now
    holds and the files registered during the call are the same list, in the
    same order, and approach, configuration and tab are passed on.  When it
    throws, the receiver is as before, nothing was registered and no state
    was built. *)
Theorem generation_states_hand_over_what_they_registered
    (env : Env) (action : SessionStateAction) (w : World) :
  (forall this : CodeGenState.t,
      exists events o this' w',
        CodeGenState_interact env action (this, w) = (o, (this', w'))
        /\ trace w' = (trace w ++ events)%list
        /\ match o with
           | Returns r =>
               exists next files,
                 nextState r = StPrepareIteration next
                 /\ PrepareIterationState.filePaths next = map filePath files
                 /\ CodeGenState.filePaths this' = map filePath files
                 /\ filter is_register events
                    = map (registration env (CodeGenBase.uploadId (CodeGenState.base this)))
                          files
                 /\ PrepareIterationState.approach next = CodeGenState.approach this
                 /\ PrepareIterationState.config next
                    = CodeGenBase.config (CodeGenState.base this)
                 /\ PrepareIterationState.tabID next
                    = CodeGenBase.tabID (CodeGenState.base this)
           | Throws _ =>
               this' = this /\ filter is_register events = [] /\ built events = []
           end)
  /\ (forall this : CodeGenIterationState.t,
         exists events o this' w',
           CodeGenIterationState_interact env action (this, w) = (o, (this', w'))
           /\ trace w' = (trace w ++ events)%list
           /\ match o with
              | Returns r =>
                  exists next files,
                    nextState r = StPrepareIteration next
                    /\ PrepareIterationState.filePaths next = map filePath files
                    /\ CodeGenIterationState.filePaths this' = map filePath files
                    /\ filter is_register events
                       = map (registration env
                                (CodeGenBase.uploadId (CodeGenIterationState.base this)))
                             files
                    /\ PrepareIterationState.approach next
                       = CodeGenIterationState.approach this
                    /\ PrepareIterationState.config next
                       = CodeGenBase.config (CodeGenIterationState.base this)
                    /\ PrepareIterationState.tabID next
                       = CodeGenBase.tabID (CodeGenIterationState.base this)
              | Throws _ =>
                  this' = this /\ filter is_register events = [] /\ built events = []
              end).
Proof.
  split; intros this.
  - destruct (CodeGenState_outcomes env action this w)
      as (events & o & this' & w' & Hrun & Ht & _ & Hout).
    exists events, o, this', w'. split; [exact Hrun |]. split; [exact Ht |].
    destruct o as [r | e].
    + destruct Hout as (files & -> & -> & Hreg & _).
      eexists. exists files. repeat split. exact Hreg.
    + destruct Hout as (H1 & _ & H2 & H3 & _). auto.
  - destruct (CodeGenIterationState_outcomes env action this w)
      as (events & o & this' & w' & Hrun & Ht & _ & Hout).
    exists events, o, this', w'. split; [exact Hrun |]. split; [exact Ht |].
    destruct o as [r | e].
    + destruct Hout as (files & -> & -> & Hreg & _).
      eexists. exists files. repeat split. exact Hreg.
    + destruct Hout as (H1 & H2 & H3 & _). auto.
Qed.

(** X9.  Every call of [interact] on a code-generation state starts exactly
    one remote job, on the conversation and upload of the state's
    configuration: [CodeGenState] without a message, [CodeGenIterationState]
    with the message of the action, which may be missing.  This holds
    whether the call returns or throws. *)
Theorem generation_states_start_one_job
    (env : Env) (action : SessionStateAction) (w : World) :
  (forall this : CodeGenState.t,
      let config := CodeGenBase.config (CodeGenState.base this) in
      filter is_start
        (skipn (length (trace w))
               (trace (snd (snd (CodeGenState_interact env action (this, w))))))
      = [EvStartCodeGeneration (SessionStateConfig.conversationId config)
                               (SessionStateConfig.uploadId config) None])
  /\ (forall this : CodeGenIterationState.t,
         let config := CodeGenBase.config (CodeGenIterationState.base this) in
         filter is_start
           (skipn (length (trace w))
                  (trace (snd (snd (CodeGenIterationState_interact env action (this, w))))))
         = [EvStartCodeGeneration (SessionStateConfig.conversationId config)
                                  (SessionStateConfig.uploadId config) (msg action)]).
Proof.
  assert (forall (l events : list Event), skipn (length l) (l ++ events) = events) as Hskip.
  { intros l events. rewrite skipn_app, skipn_all, Nat.sub_diag. reflexivity. }
  split; intros this config.
  - destruct (CodeGenState_outcomes env action this w)
      as (events & o & this' & w' & Hrun & Ht & Hstart & _).
    rewrite Hrun. cbn [snd]. rewrite Ht, Hskip. exact Hstart.
  - destruct (CodeGenIterationState_outcomes env action this w)
      as (events & o & this' & w' & Hrun & Ht & Hstart & _).
    rewrite Hrun. cbn [snd]. rewrite Ht, Hskip. exact Hstart.
Qed.

(** X10.  Cancelling during code generation is no failure for the state:
    when the job has started and the token of a [CodeGenState] is signaled
    after any number of rounds of waiting, [interact] returns, the next state
    is the [PrepareIteration] state with an empty list of paths, the receiver
    holds the empty list too, nothing is registered, and as many status
    queries were made as rounds were waited. *)
Theorem CodeGenState_cancelled_moves_on_without_files
    (env : Env) (action : SessionStateAction) (this : CodeGenState.t) (w : World)
    (id : string) (statuses : list string) :
  let base := CodeGenState.base this in
  let config := CodeGenBase.config base in
  startCodeGeneration env (clock w) (SessionStateConfig.conversationId config)
                      (SessionStateConfig.uploadId config) None = Returns id ->
  length statuses <= CodeGenBase.pollCount ->
  job_reports env base id (polling_begins w) statuses ->
  Forall (fun s => in_progress s = true) statuses ->
  not_cancelled_through env (CodeGenBase.tokenSource base) (polling_begins w)
                        (length statuses) ->
  cancelled_at env (CodeGenBase.tokenSource base)
               (clock (polling_begins w) + 2 * length statuses) = true ->
  exists events w',
    CodeGenState_interact env action (this, w) =
      (Returns (mkSSI (StPrepareIteration
                         (iteration_result base (CodeGenState.approach this) [] (nextId w)))
                      (mkInteraction None)),
       (CodeGenState.set_filePaths [] this, w'))
    /\ trace w' = (trace w ++ events)%list
    /\ filter is_register events = []
    /\ length (filter is_poll events) = length statuses.
Proof.
  intros base config Hstart Hlen Hjob Hall Hnc Hcancel. subst base config.
  unfold CodeGenState_interact, telemetry_run, try_catch, bind, sendAnswer.
  cbn -[String.append generateCode]. rewrite Hstart.
  cbn -[String.append generateCode]. rewrite liftW_run.
  match goal with
  | |- context [generateCode env ?b ?i ?w1] =>
      rewrite (run_determined env b i w1 statuses Cancelled Hlen Hjob Hall Hnc Hcancel)
  end.
  cbn -[String.append waiting_rounds]. unfold ret.
  rewrite <- !app_assoc. cbn -[String.append waiting_rounds].
  do 2 eexists. split; [reflexivity |]. split; [reflexivity |].
  change (?a :: ?b :: ?c :: ?d :: ?e :: (?l ++ ?m)%list)
    with ([a; b; c; d; e] ++ l ++ m)%list.
  rewrite !filter_app, !length_app, waiting_rounds_no_register, polls_waiting_rounds.
  cbn. split; [reflexivity | lia].
Qed.

Lemma CodeGenState_cancelled_moves_on_without_files_witness :
  exists events w',
    CodeGenState_interact (scripted_env ["InProgress"] (Returns None) (Some 3))
                          (mkAction None) (sample_codegen, sample_world) =
      (Returns (mkSSI (StPrepareIteration
                         (iteration_result sample_base "the accepted plan" [] 1))
                      (mkInteraction None)),
       (CodeGenState.set_filePaths [] sample_codegen, w'))
    /\ trace w' = (trace sample_world ++ events)%list
    /\ filter is_register events = []
    /\ length (filter is_poll events) = 1.
Proof.
  apply (CodeGenState_cancelled_moves_on_without_files
           (scripted_env ["InProgress"] (Returns None) (Some 3))
           (mkAction None) sample_codegen sample_world "gen-1" ["InProgress"]).
  - reflexivity.
  - unfold CodeGenBase.pollCount. cbn. lia.
  - intros i s Hi. destruct i as [| i]; cbn in Hi |- *;
      try (injection Hi as <-; reflexivity).
    destruct i; discriminate.
  - repeat constructor.
  - intros i Hi. cbn in Hi. destruct i as [| i]; [reflexivity | lia].
  - reflexivity.
Defined.

Lemma filter_narrower {A : Type} (p q : A -> bool) (l : list A) :
  (forall a, p a = true -> q a = true) ->
  filter p (filter q l) = filter p l.
Proof.
  intros Hpq. induction l as [| a l IH]; [reflexivity |].
  cbn [filter]. destruct (q a) eqn:Hq.
  - cbn [filter]. rewrite IH. reflexivity.
  - rewrite IH. destruct (p a) eqn:Hp; [| reflexivity].
    rewrite (Hpq a Hp) in Hq. discriminate.
Qed.

Lemma starts_are_remote (e : Event) : is_start e = true -> is_remote_call e = true.
Proof. destruct e; try discriminate; reflexivity. Qed.

Lemma plans_are_remote (e : Event) : is_plan e = true -> is_remote_call e = true.
Proof. destruct e; try discriminate; reflexivity. Qed.

Lemma registers_are_local (l : list Event) :
  filter is_register (filter is_remote_call l) = [].
Proof.
  induction l as [| e l IH]; [reflexivity |].
  cbn [filter]. destruct (is_remote_call e) eqn:He; [| exact IH].
  cbn [filter]. rewrite IH. destruct e; try discriminate; reflexivity.
Qed.

(** What a call of [RefinementIterationState.interact] amounts to. *)
Lemma RefinementIterationState_outcomes (env : Env) (action : SessionStateAction)
    (this : RefinementIterationState.t) (w : World) :
  exists events o this' w',
    RefinementIterationState_interact env action (this, w) = (o, (this', w'))
    /\ trace w' = (trace w ++ events)%list
    /\ if truthy (msg action) && includes "MOCK CODE" (nullish (msg action) "")
       then o = Returns (mkSSI (StRefinement
                                  (refinement_after_mock (mock_of env this (nextId w))
                                                         (S (nextId w))))
                               (mkInteraction None))
            /\ this' = this
            /\ built events
               = [StMockCodeGen (mock_of env this (nextId w));
                  StRefinement (refinement_after_mock (mock_of env this (nextId w))
                                                      (S (nextId w)))]
            /\ filter is_remote_call events = []
       else match o with
            | Returns r =>
                exists a,
                  r = mkSSI (StRefinementIteration (iterated_next this (nextId w) a))
                            (mkInteraction (Some (a ++ newline)))
                  /\ this' = RefinementIterationState.set_approach a this
                  /\ built events = [nextState r]
            | Throws e => this' = this /\ built events = []
            end.
Proof.
  destruct (truthy (msg action) && includes "MOCK CODE" (nullish (msg action) ""))
    eqn:Hcond.
  - unfold RefinementIterationState_interact, bind.
    cbn [getThis fst snd]. rewrite Hcond.
    cbn -[String.append MockCodeGenState_interact]. rewrite call_run.
    fold (mock_of env this (nextId w)).
    match goal with
    | |- context [MockCodeGenState_interact env action (?m, ?w1)] =>
        destruct (MockCodeGenState_interact_returns env action m w1)
          as (events & m' & time & Hrun & Hremote & Hbuilt & _);
        rewrite Hrun
    end.
    cbn [fst snd nextId trace polls].
    exists ([EvNew (StMockCodeGen (mock_of env this (nextId w)))] ++ events
            ++ [EvNew (StRefinement (refinement_after_mock (mock_of env this (nextId w))
                                                           (S (nextId w))))])%list.
    do 3 eexists. split; [reflexivity |]. split.
    { cbn [trace]. rewrite <- !app_assoc. reflexivity. }
    split; [reflexivity |]. split; [reflexivity |].
    rewrite !built_app, !filter_app, Hbuilt, Hremote. split; reflexivity.
  - destruct action as [[[| c rest] |]].
    + do 4 eexists. split; [reflexivity |]. split; [symmetry; apply app_nil_r |].
      split; reflexivity.
    + cbn [msg truthy nullish andb] in Hcond.
      destruct (generatePlan env (clock w)
                  (SessionStateConfig.conversationId (RefinementIterationState.config this))
                  (SessionStateConfig.uploadId (RefinementIterationState.config this))
                  (String c rest)) as [raw | e] eqn:Hplan.
      * rewrite (RefinementIterationState_interact_plan env w c rest this raw Hcond Hplan).
        do 4 eexists. split; [reflexivity |]. split; [reflexivity |].
        eexists. repeat split.
      * rewrite (RefinementIterationState_interact_plan_fails env w c rest this e Hcond Hplan).
        do 4 eexists. split; [reflexivity |]. split; [reflexivity |]. split; reflexivity.
    + do 4 eexists. split; [reflexivity |]. split; [symmetry; apply app_nil_r |].
      split; reflexivity.
Qed.

(** X11.  [PrepareIterationState.interact] takes the upload id that
    [createUploadUrl] answers as soon as it is known.  Before that, a failure
    is passed on with the receiver untouched, no job started and no state
    built.  From then on the receiver holds the new id whatever follows
    (while its configuration keeps the old one); a job, if one is started, is
    started on the new upload with the message of the action; and when the
    call returns, the next [PrepareIteration] state has the new id as its own
    and in its configuration, an empty approach, and the paths of the files
    registered during the call under the new id. *)
Theorem PrepareIteration_takes_the_new_upload_id
    (env : Env) (action : SessionStateAction) (this : PrepareIterationState.t)
    (w : World) :
  let config := PrepareIterationState.config this in
  exists events o this' w',
    PrepareIterationState_interact env action (this, w) = (o, (this', w'))
    /\ trace w' = (trace w ++ events)%list
    /\ match upload_url_reply env this w with
       | Throws e =>
           o = Throws e /\ this' = this
           /\ filter is_start events = [] /\ built events = []
       | Returns upload =>
           PrepareIterationState.uploadId this' = upl_uploadId upload
           /\ PrepareIterationState.config this' = config
           /\ (forall e, In e events -> is_start e = true ->
                 e = EvStartCodeGeneration (SessionStateConfig.conversationId config)
                                           (upl_uploadId upload) (msg action))
           /\ match o with
              | Returns r =>
                  exists next files,
                    nextState r = StPrepareIteration next
                    /\ PrepareIterationState.uploadId next = upl_uploadId upload
                    /\ SessionStateConfig.uploadId (PrepareIterationState.config next)
                       = upl_uploadId upload
                    /\ PrepareIterationState.approach next = ""
                    /\ PrepareIterationState.filePaths next = map filePath files
                    /\ filter is_register events
                       = map (registration env (upl_uploadId upload)) files
              | Throws _ => True
              end
       end.
Proof.
  intros config. subst config.
  destruct (PrepareIterationState_outcomes env action this w)
    as (events & o & this' & w' & Hrun & Ht & Hout).
  exists events, o, this', w'. split; [exact Hrun |]. split; [exact Ht |].
  unfold upload_url_reply. cbv zeta in Hout.
  destruct (prepareRepoData env (clock w)
              (SessionStateConfig.workspaceRoot (PrepareIterationState.config this))
              (PrepareIterationState.conversationId this)) as [repo | e].
  2:{ destruct Hout as (Ho & Hthis & Hb & Hr). repeat split; try assumption.
      rewrite <- (filter_narrower is_start is_remote_call events starts_are_remote), Hr.
      reflexivity. }
  destruct (createUploadUrl env (S (clock w))
              (SessionStateConfig.conversationId (PrepareIterationState.config this))
              (zipFileChecksum repo)) as [upload | e].
  2:{ destruct Hout as (Ho & Hthis & Hb & Hr). repeat split; try assumption.
      rewrite <- (filter_narrower is_start is_remote_call events starts_are_remote), Hr.
      reflexivity. }
  destruct Hout as (Hthis & Hout). subst this'.
  split; [reflexivity |]. split; [reflexivity |].
  destruct (uploadCode env (S (S (clock w))) (uploadUrl upload) (zipFileBuffer repo)
              (kmsKeyArn upload)) as [[] | e].
  - destruct Hout as (Hstart & Hout). split.
    + intros e He Hs.
      assert (In e (filter is_start events)) as Hin by (apply filter_In; auto).
      rewrite Hstart in Hin. destruct Hin as [<- | []]. reflexivity.
    + destruct o as [r | e]; [| exact I].
      destruct Hout as (files & -> & Hreg & _).
      eexists. exists files. repeat split. exact Hreg.
  - destruct Hout as (-> & _ & Hstart & _). split; [| exact I].
    intros e' He Hs.
    assert (In e' (filter is_start events)) as Hin by (apply filter_In; auto).
    rewrite Hstart in Hin. destruct Hin.
Qed.

(** X12.  [PrepareRefinementState.interact] never changes its receiver.  A
    failure of one of its three upload steps is passed on as it is, with no
    plan requested and no state built.  Once the upload is through, every
    plan request is made for the fresh upload id and the message of the
    action; a failure is then a [ToolkitError], and on return the next state
    is a [RefinementIteration] state on the fresh upload id, in the same
    conversation and tab. *)
Theorem PrepareRefinement_plans_on_the_fresh_upload
    (env : Env) (action : SessionStateAction) (this : PrepareRefinementState.t)
    (w : World) :
  let config := PrepareRefinementState.config this in
  exists events o w',
    PrepareRefinementState_interact env action (this, w) = (o, (this, w'))
    /\ trace w' = (trace w ++ events)%list
    /\ match first_upload env this w with
       | Throws e =>
           o = Throws e /\ built events = [] /\ filter is_plan events = []
       | Returns upload =>
           (forall e, In e events -> is_plan e = true ->
              exists m, msg action = Some m
                        /\ e = EvGeneratePlan (ConfigNoUpload.conversationId config)
                                              (upl_uploadId upload) m)
           /\ match o with
              | Returns r =>
                  exists next,
                    nextState r = StRefinementIteration next
                    /\ RefinementIterationState.uploadId next = upl_uploadId upload
                    /\ RefinementIterationState.config next
                       = ConfigNoUpload.with_uploadId config (upl_uploadId upload)
                    /\ RefinementIterationState.conversationId next
                       = ConfigNoUpload.conversationId config
                    /\ RefinementIterationState.tabID next
                       = PrepareRefinementState.tabID this
              | Throws e => instanceof_ToolkitError e = true
              end
       end.
Proof.
  intros config. subst config.
  destruct (PrepareRefinementState_outcomes env action this w)
    as (events & o & this' & w' & Hrun & Ht & -> & Hout).
  exists events, o, w'. split; [exact Hrun |]. split; [exact Ht |].
  unfold first_upload. cbv zeta in Hout.
  destruct (prepareRepoData env (clock w)
              (ConfigNoUpload.workspaceRoot (PrepareRefinementState.config this))
              (ConfigNoUpload.conversationId (PrepareRefinementState.config this)))
    as [repo | e].
  2:{ destruct Hout as (Ho & Hb & Hr). repeat split; try assumption.
      rewrite <- (filter_narrower is_plan is_remote_call events plans_are_remote), Hr.
      reflexivity. }
  destruct (createUploadUrl env (S (clock w))
              (ConfigNoUpload.conversationId (PrepareRefinementState.config this))
              (zipFileChecksum repo)) as [upload | e].
  2:{ destruct Hout as (Ho & Hb & Hr). repeat split; try assumption.
      rewrite <- (filter_narrower is_plan is_remote_call events plans_are_remote), Hr.
      reflexivity. }
  destruct (uploadCode env (S (S (clock w))) (uploadUrl upload) (zipFileBuffer repo)
              (kmsKeyArn upload)) as [[] | e].
  2:{ exact Hout. }
  destruct Hout as (Hplan & Hout). split.
  - intros e He Hp. rewrite Forall_forall in Hplan.
    destruct (Hplan e He Hp) as (m & Hm & ->). exists m. split; [exact Hm | reflexivity].
  - destruct o as [r | e].
    + destruct Hout as (a & -> & _). eexists. repeat split.
    + apply Hout.
Qed.

Lemma staging_registers_under (env : Env) (uploadId conversationId : string)
    (files : NewFileContents) :
  filter is_register (staging env uploadId conversationId files) =
    map (registration env uploadId) files.
Proof.
  induction files as [| f rest IH]; [reflexivity |].
  cbn [map]. rewrite <- IH. reflexivity.
Qed.

(** X13.  What [MockCodeGenState.interact] does with the mock-data
    directory.  It always returns the same [Refinement] state.  When the
    directory is there and its files are listed, each file is registered
    under the random upload id of the state, at its path with the first
    [mock-data/] taken out and with its content, in the order of the listing,
    and the receiver holds these paths.  When listing fails, the failure is
    logged and swallowed: the receiver is untouched and nothing is
    registered.  Nothing is listed when the directory is not there. *)
Theorem MockCodeGen_stages_the_mock_files
    (env : Env) (action : SessionStateAction) (this : MockCodeGenState.t) (w : World) :
  let dir := mock_dir env (MockCodeGenState.config this) in
  exists events this' w',
    MockCodeGenState_interact env action (this, w) =
      (Returns (mkSSI (StRefinement (refinement_after_mock this (nextId w)))
                      (mkInteraction None)),
       (this', w'))
    /\ trace w' = (trace w ++ events)%list
    /\ match stat env (clock w) dir with
       | Returns true =>
           match collectFiles env (S (clock w)) dir false with
           | Returns files =>
               this' = MockCodeGenState.set_filePaths
                         (map filePath (map mocked_file files)) this
               /\ filter is_register events
                  = map (registration env (MockCodeGenState.uploadId this))
                        (map mocked_file files)
           | Throws _ =>
               this' = this /\ filter is_register events = []
               /\ In (EvLoggerError "Unable to use mock code generation: %O") events
           end
       | _ =>
           this' = this /\ filter is_register events = []
           /\ ~ In (EvCollectFiles dir false) events
       end.
Proof.
  intros dir. subst dir. unfold mock_dir.
  unfold MockCodeGenState_interact, try_catch, bind.
  cbn -[String.append createFilePaths replace].
  destruct (stat env (clock w)
              (path_join env (SessionStateConfig.workspaceRoot (MockCodeGenState.config this))
                         "./mock-data")) as [[|] | e].
  - cbn -[String.append createFilePaths replace].
    destruct (collectFiles env (S (clock w))
                (path_join env (SessionStateConfig.workspaceRoot (MockCodeGenState.config this))
                           "./mock-data") false) as [files | e].
    + rewrite liftW_run, createFilePaths_spec.
      cbn -[String.append replace staging]. unfold ret. rewrite <- !app_assoc.
      do 3 eexists. split; [reflexivity |]. split; [reflexivity |].
      split; [reflexivity |].
      cbn [app filter is_register]. rewrite filter_app, staging_registers_under.
      cbn [filter is_register]. rewrite app_nil_r. reflexivity.
    + cbn -[String.append]. unfold ret. rewrite <- !app_assoc.
      do 3 eexists. split; [reflexivity |]. split; [reflexivity |].
      split; [reflexivity |]. split; [reflexivity |].
      cbn [app]. right. right. left. reflexivity.
  - cbn -[String.append]. unfold ret. rewrite <- !app_assoc.
    do 3 eexists. split; [reflexivity |]. split; [reflexivity |].
    split; [reflexivity |]. split; [reflexivity |].
    cbn [app]. intros [H | [H | []]]; discriminate.
  - cbn -[String.append]. unfold ret. rewrite <- !app_assoc.
    do 3 eexists. split; [reflexivity |]. split; [reflexivity |].
    split; [reflexivity |]. split; [reflexivity |].
    cbn [app]. intros [H | [H | [H | []]]]; discriminate.
Qed.

(* ================================================================= *)
(** ** The sentinel and the mock paths *)

Lemma string_app_assoc (a b c : string) : (a ++ b) ++ c = a ++ b ++ c.
Proof. induction a as [| x a IH]; [reflexivity |]. cbn. rewrite IH. reflexivity. Qed.

Lemma string_length_app (a b : string) :
  String.length (a ++ b) = String.length a + String.length b.
Proof. induction a as [| x a IH]; [reflexivity |]. cbn. rewrite IH. reflexivity. Qed.

Lemma starts_with_inv (needle s : string) :
  starts_with needle s = true -> exists rest, s = needle ++ rest.
Proof.
  revert s. induction needle as [| a needle IH]; intros s H.
  - exists s. reflexivity.
  - destruct s as [| b s]; [discriminate |]. cbn in H.
    apply andb_true_iff in H. destruct H as [Hab H].
    apply Ascii.eqb_eq in Hab. subst b.
    destruct (IH s H) as [rest ->]. exists rest. reflexivity.
Qed.

(** [includes] finds nothing that is not there. *)
Lemma includes_inv (needle hay : string) :
  includes needle hay = true -> exists before after, hay = before ++ needle ++ after.
Proof.
  induction hay as [| c hay IH]; intros H.
  - cbn [includes] in H. destruct (starts_with needle "") eqn:E; [| discriminate].
    destruct (starts_with_inv _ _ E) as [rest Hrest]. exists "", rest. exact Hrest.
  - cbn [includes] in H. destruct (starts_with needle (String c hay)) eqn:E.
    + destruct (starts_with_inv _ _ E) as [rest Hrest]. exists "", rest. exact Hrest.
    + destruct (IH H) as (before & after & ->). exists (String c before), after. reflexivity.
Qed.

Lemma starts_with_extend (needle s t : string) :
  starts_with needle s = false -> String.length needle <= String.length s ->
  starts_with needle (s ++ t) = false.
Proof.
  revert s. induction needle as [| a needle IH]; intros s H Hlen; [discriminate |].
  destruct s as [| b s]; cbn in Hlen; [lia |].
  cbn in H |- *. destruct (Ascii.eqb a b); [| reflexivity].
  cbn in H |- *. apply IH; [exact H | lia].
Qed.

Lemma drop_app_length (p s : string) : drop (String.length p) (p ++ s) = s.
Proof. induction p as [| a p IH]; [destruct s; reflexivity | exact IH]. Qed.

Lemma replace_prefix (pat rep s : string) : replace pat rep (pat ++ s) = rep ++ s.
Proof.
  destruct (pat ++ s) eqn:E; cbn [replace]; rewrite <- E, starts_with_app, drop_app_length;
    reflexivity.
Qed.

Lemma replace_absent (pat rep s : string) :
  includes pat s = false -> replace pat rep s = s.
Proof.
  induction s as [| c s IH]; intros H.
  - cbn [includes] in H. cbn [replace].
    destruct (starts_with pat ""); [discriminate | reflexivity].
  - apply includes_false_inv in H. destruct H as [Hp Hs].
    cbn [replace]. rewrite Hp, (IH Hs). reflexivity.
Qed.

(** Only the first occurrence is replaced: [before] is such that no
    occurrence of the pattern begins in it. *)
Lemma replace_first (stem : string) (last : ascii) (rep before after : string) :
  includes (stem ++ String last "") (before ++ stem) = false ->
  replace (stem ++ String last "") rep (before ++ (stem ++ String last "") ++ after)
  = before ++ rep ++ after.
Proof.
  induction before as [| c before IH]; intros H.
  - exact (replace_prefix (stem ++ String last "") rep after).
  - cbn [String.append] in H. apply includes_false_inv in H. destruct H as [Hp Hs].
    cbn [String.append replace].
    assert (starts_with (stem ++ String last "")
              (String c (before ++ (stem ++ String last "") ++ after)) = false) as E.
    { replace (String c (before ++ (stem ++ String last "") ++ after))
        with (String c (before ++ stem) ++ String last after).
      - apply starts_with_extend; [exact Hp |].
        cbn [String.length]. rewrite !string_length_app. cbn [String.length]. lia.
      - cbn [String.append]. f_equal.
        rewrite !string_app_assoc. reflexivity. }
    rewrite E, (IH Hs). reflexivity.
Qed.

(** X14.  The paths of the mock files: a path in which [mock-data/] does not
    occur is registered as it is; otherwise the first occurrence is taken
    out and nothing else, so a path that begins with [mock-data/] loses this
    prefix only, even when the rest names a [mock-data/] directory again. *)
Theorem mock_paths_lose_the_first_mock_data_only :
  (forall f : NewFile,
      includes "mock-data/" (filePath f) = false -> mocked_file f = f)
  /\ (forall before after content : string,
         includes "mock-data/" (before ++ "mock-data") = false ->
         mocked_file (mkNewFile (before ++ "mock-data/" ++ after) content)
         = mkNewFile (before ++ after) content)
  /\ (forall after content : string,
         mocked_file (mkNewFile ("mock-data/" ++ after) content)
         = mkNewFile after content).
Proof.
  split; [| split].
  - intros [p c] H. unfold mocked_file. cbn [filePath fileContent] in *.
    rewrite (replace_absent _ _ _ H). reflexivity.
  - intros before after content H. unfold mocked_file. cbn [filePath fileContent].
    f_equal. exact (replace_first "mock-data" "/"%char "" before after H).
  - intros after content. unfold mocked_file. cbn [filePath fileContent].
    rewrite (replace_prefix "mock-data/" "" after). reflexivity.
Qed.

(** X15.  The sentinel is the only way into the mock:
    [RefinementIterationState.interact] builds a [MockCodeGen] state exactly
    when the message of the action contains [MOCK CODE]. *)
Theorem mock_state_is_built_exactly_on_the_sentinel
    (env : Env) (action : SessionStateAction) (this : RefinementIterationState.t)
    (w : World) :
  exists events o this' w',
    RefinementIterationState_interact env action (this, w) = (o, (this', w'))
    /\ trace w' = (trace w ++ events)%list
    /\ ((exists m, In (StMockCodeGen m) (built events))
        <-> (exists before after, msg action = Some (before ++ "MOCK CODE" ++ after))).
Proof.
  destruct (RefinementIterationState_outcomes env action this w)
    as (events & o & this' & w' & Hrun & Ht & Hout).
  exists events, o, this', w'. split; [exact Hrun |]. split; [exact Ht |].
  destruct (truthy (msg action) && includes "MOCK CODE" (nullish (msg action) ""))
    eqn:Hcond.
  - destruct Hout as (_ & _ & Hbuilt & _). split.
    + intros _. apply andb_true_iff in Hcond. destruct Hcond as [Htruthy Hinc].
      destruct (msg action) as [m |]; [| discriminate].
      cbn [nullish] in Hinc. destruct (includes_inv _ _ Hinc) as (before & after & ->).
      exists before, after. reflexivity.
    + intros _. eexists. rewrite Hbuilt. left. reflexivity.
  - split.
    + intros [m Hm]. exfalso. destruct o as [r | e].
      * destruct Hout as (a & -> & _ & Hbuilt). rewrite Hbuilt in Hm.
        destruct Hm as [Hm | []]. discriminate.
      * destruct Hout as (_ & Hbuilt). rewrite Hbuilt in Hm. destruct Hm.
    + intros (before & after & Hmsg). exfalso. rewrite Hmsg in Hcond.
      cbn [nullish] in Hcond.
      rewrite sentinel_message_truthy, includes_app in Hcond. discriminate.
Qed.

(* ================================================================= *)
(** ** The state graph *)

Ltac same_conv :=
  repeat constructor;
  try (let Hc := fresh "Hc" in
       intros Hc; first [reflexivity | symmetry; exact Hc]).

(** Every call of [interact], on any state: the states built belong to the
    conversation of the receiver, and the next state is one of them, of a
    class that follows the receiver's. *)
Lemma interact_summary (env : Env) (action : SessionStateAction)
    (s : SessionState) (w : World) :
  exists events o s' w',
    interact env action (s, w) = (o, (s', w'))
    /\ trace w' = (trace w ++ events)%list
    /\ Forall (same_conversation s) (built events)
    /\ match o with
       | Returns r =>
           In (nextState r) (built events)
           /\ In (class_of (nextState r)) (successor_classes (class_of s))
       | Throws _ => True
       end.
Proof.
  destruct s as [this | this | this | this | this | this | this | this];
    unfold interact; cbn [fst snd]; unfold dispatch.
  - exists []. do 3 eexists. split; [reflexivity |].
    split; [symmetry; apply app_nil_r |]. split; [constructor | exact I].
  - destruct (PrepareRefinementState_outcomes env action this w)
      as (events & o & this' & w' & Hrun & Ht & _ & Hout).
    rewrite Hrun. exists events. do 3 eexists. split; [reflexivity |].
    split; [exact Ht |]. cbv zeta in Hout.
    destruct (prepareRepoData env (clock w) _ _) as [repo | e].
    2:{ destruct Hout as (-> & -> & _). split; [constructor | exact I]. }
    destruct (createUploadUrl env (S (clock w)) _ _) as [upload | e].
    2:{ destruct Hout as (-> & -> & _). split; [constructor | exact I]. }
    destruct (uploadCode env (S (S (clock w))) _ _ _) as [[] | e].
    2:{ destruct Hout as (-> & -> & _). split; [constructor | exact I]. }
    destruct Hout as (_ & Hout). destruct o as [r | e].
    + destruct Hout as (a & -> & ->). split.
      * same_conv.
      * split; [right; left; reflexivity | left; reflexivity].
    + destruct Hout as (_ & ->). split; [| exact I].
      same_conv.
  - destruct (RefinementState_outcomes env action this w)
      as (events & o & this' & w' & Hrun & Ht & _ & Hout).
    rewrite Hrun. exists events. do 3 eexists. split; [reflexivity |].
    split; [exact Ht |]. destruct o as [r | e].
    + destruct Hout as (a & -> & _ & -> & _). split.
      * same_conv.
      * split; left; reflexivity.
    + destruct Hout as (_ & _ & -> & _). split; [constructor | exact I].
  - destruct (RefinementIterationState_outcomes env action this w)
      as (events & o & this' & w' & Hrun & Ht & Hout).
    rewrite Hrun. exists events. do 3 eexists. split; [reflexivity |].
    split; [exact Ht |].
    destruct (truthy (msg action) && includes "MOCK CODE" (nullish (msg action) "")).
    + destruct Hout as (-> & _ & -> & _). split.
      * same_conv.
      * split; [right; left; reflexivity | right; left; reflexivity].
    + destruct o as [r | e].
      * destruct Hout as (a & -> & _ & ->). split.
        -- same_conv.
        -- split; left; reflexivity.
      * destruct Hout as (_ & ->). split; [constructor | exact I].
  - destruct (CodeGenState_outcomes env action this w)
      as (events & o & this' & w' & Hrun & Ht & _ & Hout).
    rewrite Hrun. exists events. do 3 eexists. split; [reflexivity |].
    split; [exact Ht |]. destruct o as [r | e].
    + destruct Hout as (files & -> & _ & _ & -> & _). split.
      * same_conv.
      * split; left; reflexivity.
    + destruct Hout as (_ & _ & _ & -> & _). split; [constructor | exact I].
  - destruct (MockCodeGenState_interact_returns env action this w)
      as (events & this' & time & Hrun & _ & Hbuilt & _).
    rewrite Hrun.
    exists (events ++ [EvNew (StRefinement (refinement_after_mock this (nextId w)))])%list.
    do 3 eexists. split; [reflexivity |]. split; [reflexivity |].
    rewrite built_app, Hbuilt. split.
    + same_conv.
    + split; left; reflexivity.
  - destruct (PrepareIterationState_outcomes env action this w)
      as (events & o & this' & w' & Hrun & Ht & Hout).
    rewrite Hrun. exists events. do 3 eexists. split; [reflexivity |].
    split; [exact Ht |]. cbv zeta in Hout.
    destruct (prepareRepoData env (clock w) _ _) as [repo | e].
    2:{ destruct Hout as (-> & _ & -> & _). split; [constructor | exact I]. }
    destruct (createUploadUrl env (S (clock w)) _ _) as [upload | e].
    2:{ destruct Hout as (-> & _ & -> & _). split; [constructor | exact I]. }
    destruct Hout as (_ & Hout).
    destruct (uploadCode env (S (S (clock w))) _ _ _) as [[] | e].
    2:{ destruct Hout as (-> & -> & _). split; [constructor | exact I]. }
    destruct Hout as (_ & Hout). destruct o as [r | e].
    + destruct Hout as (files & -> & _ & ->). split.
      * same_conv.
      * split; [right; left; reflexivity | left; reflexivity].
    + destruct Hout as (_ & ->). split; [| exact I].
      same_conv.
  - destruct (CodeGenIterationState_outcomes env action this w)
      as (events & o & this' & w' & Hrun & Ht & _ & Hout).
    rewrite Hrun. exists events. do 3 eexists. split; [reflexivity |].
    split; [exact Ht |]. destruct o as [r | e].
    + destruct Hout as (files & -> & _ & _ & -> & _). split.
      * same_conv.
      * split; left; reflexivity.
    + destruct Hout as (_ & _ & -> & _). split; [constructor | exact I].
Qed.

(** X16.  The state graph.  When [interact] returns, the class of the next
    state is determined by the class of the receiver: the two preparing
    states and the generating states lead to [RefinementIteration],
    respectively [PrepareIteration]; [Refinement] leads to
    [RefinementIteration], the mock back to [Refinement], and
    [RefinementIteration] to itself or, by way of the mock, to [Refinement].
    A conversation that has not started leads nowhere: its [interact] never
    returns.  No call leads to a [CodeGen] state. *)
Theorem interact_follows_the_state_graph
    (env : Env) (action : SessionStateAction) (s : SessionState) (w : World) :
  match fst (interact env action (s, w)) with
  | Returns r =>
      In (class_of (nextState r)) (successor_classes (class_of s))
      /\ class_of s <> ConversationNotStarted
      /\ class_of (nextState r) <> CodeGen
  | Throws _ => True
  end.
Proof.
  destruct (interact_summary env action s w)
    as (events & o & s' & w' & Hrun & _ & _ & Hout).
  rewrite Hrun. cbn [fst]. destruct o as [r | e]; [| exact I].
  destruct Hout as [_ Hin]. split; [exact Hin |]. split.
  - intros Hs. rewrite Hs in Hin. destruct Hin.
  - intros Hn. rewrite Hn in Hin.
    destruct (class_of s); cbn in Hin; intuition discriminate.
Qed.

(** X17.  A conversation stays in its tab.  Every state object built while
    [interact] runs on a state, and so the next state it returns, is shown
    in the tab of the receiver and has the conversation id of its own
    configuration as its [conversationId]; when the receiver itself had the
    conversation id of its configuration, the states built are configured
    for the same conversation. *)
Theorem interact_stays_in_the_conversation
    (env : Env) (action : SessionStateAction) (s : SessionState) (w : World) :
  exists events o s' w',
    interact env action (s, w) = (o, (s', w'))
    /\ trace w' = (trace w ++ events)%list
    /\ Forall (same_conversation s) (built events)
    /\ (forall r, o = Returns r -> same_conversation s (nextState r)).
Proof.
  destruct (interact_summary env action s w)
    as (events & o & s' & w' & Hrun & Ht & Hall & Hout).
  exists events, o, s', w'. split; [exact Hrun |]. split; [exact Ht |].
  split; [exact Hall |]. intros r ->. destruct Hout as [Hin _].
  rewrite Forall_forall in Hall. apply Hall. exact Hin.
Qed.

(* ================================================================= *)
(** ** The messenger *)

(** X18.  [Messenger.sendErrorMessage] reports an error once and offers a
    retry exactly while retries are left.  Whatever the phase, it hands the
    dispatcher one error message with the error text and the tab it was
    given; with no retry left nothing follows, otherwise one system prompt
    follows, for the same tab, with no text, not open to votes, whose only
    follow-up is [Retry].  The call returns, and what was dispatched before
    is kept. *)
Theorem sendErrorMessage_reports_once_and_offers_retry_while_retries_are_left
    (errorMessage tabID : string) (retries : Z) (phase : option SessionStatePhase)
    (sent : list Messenger.Dispatched) :
  exists title,
    Messenger.sendErrorMessage errorMessage tabID retries phase sent =
      (Returns tt,
       (sent ++ Messenger.sentErrorMessage title errorMessage tabID
             :: (if (retries =? 0)%Z then [] else [Messenger.retry_prompt tabID]))%list)
    /\ (existsb Messenger.offers_retry
          (snd (Messenger.sendErrorMessage errorMessage tabID retries phase sent))
        = true
        -> retries <> 0%Z \/ existsb Messenger.offers_retry sent = true).
Proof.
  unfold Messenger.sendErrorMessage.
  destruct (retries =? 0)%Z eqn:Hr.
  - eexists. split; [reflexivity |]. cbn [snd Messenger.dispatcher].
    rewrite existsb_app. cbn. rewrite orb_false_r. auto.
  - assert (retries <> 0%Z) as Hne by (apply Z.eqb_neq; exact Hr).
    destruct phase as [[| |] |]; eexists; (split; [| auto]);
      unfold bind, Messenger.sendAnswer, Messenger.dispatcher; cbn [nullish];
      rewrite <- app_assoc; reflexivity.
Qed.

(** X19.  The copy of the error message is chosen by the retries left and
    the phase: the final apology exactly when no retry is left; the notice
    that generation restarts exactly when retries are left and the phase is
    [Codegen]; in every other case — [Approach], [Init] or no phase at all —
    the question whether to try again. *)
Theorem sendErrorMessage_title_follows_retries_and_phase
    (errorMessage tabID : string) (retries : Z) (phase : option SessionStatePhase) :
  exists title,
    Messenger.error_titles
      (snd (Messenger.sendErrorMessage errorMessage tabID retries phase [])) = [title]
    /\ (title = Messenger.final_title <-> retries = 0%Z)
    /\ (title = Messenger.restarting_title <-> retries <> 0%Z /\ phase = Some Codegen)
    /\ (title = Messenger.again_title <-> retries <> 0%Z /\ phase <> Some Codegen).
Proof.
  unfold Messenger.sendErrorMessage.
  destruct (retries =? 0)%Z eqn:Hr.
  - apply Z.eqb_eq in Hr. eexists. split; [reflexivity |].
    split; [tauto |]. split; split; try discriminate; intros [H _]; contradiction.
  - apply Z.eqb_neq in Hr.
    destruct phase as [[| |] |]; eexists; (split; [reflexivity |]);
      (split; [split; [discriminate | intros H; contradiction] |]);
      split; split; try discriminate; try (intros _; split; [exact Hr | congruence]);
      try (intros [_ H]; first [discriminate | congruence | reflexivity]);
      try reflexivity.
Qed.

(* ================================================================= *)
(** ** The remote-invoke view *)

Lemma split_newline_nonempty (s : string) : RemoteInvoke.split_newline s <> [].
Proof.
  destruct s as [| c s]; cbn [RemoteInvoke.split_newline]; [discriminate |].
  destruct (Ascii.eqb c "010"); [discriminate |].
  destruct (RemoteInvoke.split_newline s); discriminate.
Qed.

Lemma join_split_newline (s : string) :
  RemoteInvoke.join_newline (RemoteInvoke.split_newline s) = s.
Proof.
  induction s as [| c s IH]; [reflexivity |].
  cbn [RemoteInvoke.split_newline].
  destruct (Ascii.eqb c "010") eqn:Hc.
  - apply Ascii.eqb_eq in Hc. subst c.
    pose proof (split_newline_nonempty s) as Hne.
    destruct (RemoteInvoke.split_newline s) as [| h t] eqn:E; [contradiction |].
    cbn [RemoteInvoke.join_newline]. cbn [RemoteInvoke.join_newline] in IH.
    rewrite IH. reflexivity.
  - pose proof (split_newline_nonempty s) as Hne.
    destruct (RemoteInvoke.split_newline s) as [| h t] eqn:E; [contradiction |].
    destruct t as [| h' t].
    + cbn [RemoteInvoke.join_newline] in IH |- *. rewrite IH. reflexivity.
    + cbn [RemoteInvoke.join_newline] in IH |- *. cbn [String.append].
      rewrite IH. reflexivity.
Qed.

Lemma length_split_newline (s : string) :
  length (RemoteInvoke.split_newline s) = S (RemoteInvoke.count_newlines s).
Proof.
  induction s as [| c s IH]; [reflexivity |].
  cbn [RemoteInvoke.split_newline RemoteInvoke.count_newlines].
  destruct (Ascii.eqb c "010").
  - cbn [length]. rewrite IH. reflexivity.
  - pose proof (split_newline_nonempty s) as Hne.
    destruct (RemoteInvoke.split_newline s) as [| h t]; [contradiction |].
    cbn [length] in IH |- *. exact IH.
Qed.

Lemma split_newline_clean (s : string) :
  Forall (fun name => RemoteInvoke.count_newlines name = 0) (RemoteInvoke.split_newline s).
Proof.
  induction s as [| c s IH]; [repeat constructor |].
  cbn [RemoteInvoke.split_newline].
  destruct (Ascii.eqb c "010") eqn:Hc.
  - constructor; [reflexivity | exact IH].
  - destruct (RemoteInvoke.split_newline s) as [| h t]; [repeat constructor; cbn; now rewrite Hc |].
    inversion IH as [| ? ? Hh Ht]; subst. constructor; [| exact Ht].
    cbn [RemoteInvoke.count_newlines]. rewrite Hc, Hh. reflexivity.
Qed.

(** X20.  [RemoteInvokeWebview.invokeLambda] reports every invocation once.
    Whatever the client answers, the call returns; it shows the channel,
    announces the response, invokes the client once with the function of the
    view and the input, prints lines to the channel, and last of all emits
    the one telemetry event of the call, not passive, with the source it was
    given and with the result [Failed] exactly when the client rejected.  A
    response is printed in seven lines, a rejection in three; a missing or
    empty log prints as an empty line and a missing or empty payload as
    [{}]. *)
Theorem invokeLambda_reports_every_invocation_once
    (host : RemoteInvoke.Host) (arn input : string) (source : option string)
    (done : list RemoteInvoke.Effect) :
  exists lines,
    RemoteInvoke.invokeLambda host arn input source done =
      (Returns tt,
       (done ++ [RemoteInvoke.channel_show;
                 RemoteInvoke.channel_appendLine "Loading response...";
                 RemoteInvoke.client_invoke arn input]
             ++ map RemoteInvoke.channel_appendLine lines
             ++ [RemoteInvoke.telemetry_lambda_invokeRemote
                   (RemoteInvoke.result_of (RemoteInvoke.invoke host arn input))
                   false source])%list)
    /\ match RemoteInvoke.invoke host arn input with
       | Returns response =>
           exists logs payload,
             lines = ["Invocation result for " ++ arn; "Logs:"; logs; "";
                      "Payload:"; payload; ""]
             /\ (RemoteInvoke.LogResult response = None
                 \/ RemoteInvoke.LogResult response = Some "" -> logs = "")
             /\ (RemoteInvoke.Payload response = None
                 \/ RemoteInvoke.Payload response = Some (RemoteInvoke.BlobString "")
                 -> payload = "{}")
       | Throws e =>
           lines = ["There was an error invoking " ++ arn;
                    RemoteInvoke.error_toString host e; ""]
       end.
Proof.
  unfold RemoteInvoke.invokeLambda, RemoteInvoke.method, RemoteInvoke.try_finally,
    try_catch, bind, RemoteInvoke.appendLine, RemoteInvoke.effect, RemoteInvoke.awaited.
  cbn -[String.append RemoteInvoke.truthy_blob truthy].
  destruct (RemoteInvoke.invoke host arn input) as [response | e].
  - cbn -[String.append RemoteInvoke.truthy_blob truthy].
    rewrite <- !app_assoc. eexists. split.
    + cbn [app]. f_equal. f_equal. do 3 f_equal.
      instantiate (1 := [_; _; _; _; _; _; _]). reflexivity.
    + do 2 eexists. split; [reflexivity |]. split.
      * intros [H | H]; rewrite H; reflexivity.
      * intros [H | H]; rewrite H; reflexivity.
  - cbn -[String.append]. rewrite <- !app_assoc. eexists. split.
    + cbn [app]. f_equal. f_equal. do 3 f_equal.
      instantiate (1 := [_; _; _]). reflexivity.
    + reflexivity.
Qed.

(** X21.  [listRemoteTestEvents] never fails, and an empty list means
    failure: the list is empty exactly when the SAM CLI run failed.  When
    the run gives an output, the names are its lines: joined by newlines they
    give the output back, none holds a newline, and there is one more name
    than the output has newlines, so an empty output gives one empty name. *)
Theorem listRemoteTestEvents_is_empty_exactly_on_failure
    (host : RemoteInvoke.Host) (arn region : string)
    (done : list RemoteInvoke.Effect) :
  exists names done',
    RemoteInvoke.listRemoteTestEvents host arn region done = (Returns names, done')
    /\ (names = [] <->
        exists e, RemoteInvoke.runSamCliRemoteTestEvents host arn region = Throws e)
    /\ (forall output,
          RemoteInvoke.runSamCliRemoteTestEvents host arn region = Returns output ->
          RemoteInvoke.join_newline names = output
          /\ length names = S (RemoteInvoke.count_newlines output)
          /\ Forall (fun name => RemoteInvoke.count_newlines name = 0) names).
Proof.
  unfold RemoteInvoke.listRemoteTestEvents, RemoteInvoke.method, try_catch, bind,
    RemoteInvoke.awaited.
  cbn -[RemoteInvoke.split_newline].
  destruct (RemoteInvoke.runSamCliRemoteTestEvents host arn region) as [output | e].
  - do 2 eexists. split; [reflexivity |]. split.
    + split.
      * intros H. exfalso. exact (split_newline_nonempty output H).
      * intros [e He]. discriminate.
    + intros o Ho. injection Ho as <-.
      split; [apply join_split_newline |].
      split; [apply length_split_newline | apply split_newline_clean].
  - do 2 eexists. split; [reflexivity |]. split.
    + split; [intros _; eexists; reflexivity | reflexivity].
    + intros o Ho. discriminate.
Qed.

(** X22.  [RemoteInvokeWebview.readFile], and [reloadFile] which is the
    same call: for an empty path it returns nothing and reads no file;
    otherwise it reads one file, at the file-system path of the location.
    When it fails the failure is logged and the error is a [ToolkitError]
    whose cause is the error of the read; when it returns, the sample is
    the content read, and the path and the file name shown are the
    file-system path and its base name. *)
Theorem readFile_reads_one_file_and_fails_with_a_ToolkitError
    (host : RemoteInvoke.Host) (filePath : string) (done : list RemoteInvoke.Effect) :
  exists o effects,
    RemoteInvoke.reloadFile host filePath done = (o, (done ++ effects)%list)
    /\ RemoteInvoke.readFile host filePath done = (o, (done ++ effects)%list)
    /\ filter RemoteInvoke.is_read effects
       = (if truthy (Some filePath)
          then [RemoteInvoke.fs_readFileSync (RemoteInvoke.fsPath host filePath)]
          else [])
    /\ match o with
       | Returns None => filePath = "" /\ effects = []
       | Returns (Some file) =>
           RemoteInvoke.readFileSync host (RemoteInvoke.fsPath host filePath)
           = Returns (RemoteInvoke.sample file)
           /\ RemoteInvoke.selectedFilePath file = RemoteInvoke.fsPath host filePath
           /\ RemoteInvoke.selectedFile file
              = RemoteInvoke.basename host (RemoteInvoke.fsPath host filePath)
       | Throws e =>
           exists cause,
             RemoteInvoke.readFileSync host (RemoteInvoke.fsPath host filePath)
             = Throws cause
             /\ e = ToolkitError "Failed to read selected file" (Some cause)
             /\ In (RemoteInvoke.logger_error
                      "readFileSync: Failed to read file at path %O"
                      (RemoteInvoke.fsPath host filePath)) effects
       end.
Proof.
  unfold RemoteInvoke.reloadFile, RemoteInvoke.readFile, RemoteInvoke.method.
  destruct filePath as [| c rest].
  - exists (Returns None), []. cbn. rewrite app_nil_r. repeat split.
  - cbn [truthy negb]. unfold try_catch, bind, RemoteInvoke.awaited, RemoteInvoke.effect.
    cbn -[String.append].
    destruct (RemoteInvoke.readFileSync host (RemoteInvoke.fsPath host (String c rest)))
      as [content | cause] eqn:Hread.
    + do 2 eexists. split; [reflexivity |]. split; [reflexivity |].
      split; [reflexivity |]. cbn. repeat split. 
    + cbn -[String.append]. rewrite <- app_assoc.
      do 2 eexists. split; [reflexivity |]. split; [reflexivity |].
      split; [reflexivity |]. exists cause. repeat split.
      right. left. reflexivity.
Qed.

(* ================================================================= *)
(** ** Pruning a launch configuration *)

Section Pruning.

Import SamInvoke.

Lemma doTraverseAndPrune_object (fields : list (string * JsValue)) :
  doTraverseAndPrune (JObject fields) = object_loop fields (flat_map clone_field fields).
Proof. reflexivity. Qed.

Lemma doTraverseAndPrune_array (items : list (option JsValue)) :
  doTraverseAndPrune (JArray items) = array_loop 0 items (map clone_item items).
Proof. reflexivity. Qed.

Lemma delete_app (key : string) (a b : list (string * JsValue)) :
  delete key (a ++ b) = (delete key a ++ delete key b)%list.
Proof. apply filter_app. Qed.

Lemma delete_absent (key : string) (l : list (string * JsValue)) :
  ~ In key (map fst l) -> delete key l = l.
Proof.
  induction l as [| [k x] l IH]; intros H; [reflexivity |].
  cbn [delete filter fst]. destruct (k =? key) eqn:E.
  - apply String.eqb_eq in E. subst k. exfalso. apply H. left. reflexivity.
  - cbn [negb]. f_equal. apply IH. intros Hin. apply H. right. exact Hin.
Qed.

Lemma assign_absent_app (key : string) (v x : JsValue)
    (done rest : list (string * JsValue)) :
  ~ In key (map fst done) ->
  assign key v (done ++ (key, x) :: rest) = (done ++ (key, v) :: rest)%list.
Proof.
  induction done as [| [k y] done IH]; intros H.
  - cbn [app assign]. rewrite String.eqb_refl. reflexivity.
  - cbn [app assign]. destruct (k =? key) eqn:E.
    + apply String.eqb_eq in E. subst k. exfalso. apply H. left. reflexivity.
    + f_equal. apply IH. intros Hin. apply H. right. exact Hin.
Qed.

Lemma keys_clone (k : string) (l : list (string * JsValue)) :
  In k (map fst (flat_map clone_field l)) -> In k (map fst l).
Proof.
  induction l as [| [key val] l IH]; intros H; [exact H |].
  cbn [flat_map] in H. rewrite map_app in H. apply in_app_or in H.
  destruct H as [H | H].
  - left. unfold clone_field in H. destruct val; cbn in H; tauto.
  - right. apply IH. exact H.
Qed.


Lemma unique_NoDup (keys : list string) : unique keys = true -> NoDup keys.
Proof.
  induction keys as [| k keys IH]; intros H; [constructor |].
  cbn [unique] in H. apply andb_true_iff in H. destruct H as [Hk Hrest].
  constructor; [| apply IH; exact Hrest].
  intros Hin. apply negb_true_iff in Hk.
  assert (existsb (String.eqb k) keys = true) as E.
  { apply existsb_exists. exists k. split; [exact Hin | apply String.eqb_refl]. }
  rewrite E in Hk. discriminate.
Qed.

(** A value that is neither blank nor of type object is kept as it is, and
    its clone is the value itself. *)
Lemma scalar_clone (val : JsValue) :
  is_blank val = false -> typeof_object val = false ->
  clone val = val /\ val <> JUndefined.
Proof. destruct val; try discriminate; intros _ _; split; (reflexivity || discriminate). Qed.

Lemma clone_field_defined (key : string) (val : JsValue) :
  val <> JUndefined -> clone_field (key, val) = [(key, clone val)].
Proof. destruct val; try reflexivity. intros H. contradiction. Qed.


Lemma not_blank_defined (val : JsValue) : is_blank val = false -> val <> JUndefined.
Proof. intros H ->. discriminate. Qed.

Lemma delete_clone_field (key : string) (val : JsValue) :
  delete key (clone_field (key, val)) = [].
Proof.
  unfold clone_field. destruct val; cbn [delete filter fst]; rewrite ?String.eqb_refl;
    reflexivity.
Qed.

Lemma keep_blank (val : JsValue) : is_blank val = true -> keep val = Returns None.
Proof. intros H. unfold keep. rewrite H. reflexivity. Qed.

Lemma keep_pruned (val pruned : JsValue) :
  is_blank val = false -> typeof_object val = true ->
  doTraverseAndPrune val = Returns pruned ->
  keep val = Returns (if is_truthy pruned then Some pruned else None).
Proof.
  intros H1 H2 H3. unfold keep. rewrite H1, H2, H3. destruct (is_truthy pruned); reflexivity.
Qed.

Lemma keep_scalar (val : JsValue) :
  is_blank val = false -> typeof_object val = false -> keep val = Returns (Some val).
Proof. intros H1 H2. unfold keep. rewrite H1, H2. reflexivity. Qed.

Lemma kept_field_of (key : string) (val : JsValue) (r : option JsValue) :
  keep val = Returns r ->
  kept_field (key, val) = match r with Some v => [(key, v)] | None => [] end.
Proof. intros H. unfold kept_field. cbn [fst snd]. rewrite H. reflexivity. Qed.


(** The loop over an object, field by field. *)
Lemma object_loop_spec (todo : list (string * JsValue)) :
  forall done,
    NoDup (map fst todo) ->
    (forall k, In k (map fst done) -> ~ In k (map fst todo)) ->
    Forall (fun field => survives (snd field)) todo ->
    object_loop todo (done ++ flat_map clone_field todo) =
      Returns (match (done ++ flat_map kept_field todo)%list with
               | [] => JUndefined
               | l => JObject l
               end).
Proof.
  induction todo as [| [key val] rest IH]; intros done Hnd Hdisj Hs.
  - cbn [flat_map object_loop]. rewrite !app_nil_r. destruct done; reflexivity.
  - inversion Hnd as [| ? ? Hkey Hnd']; subst.
    inversion Hs as [| ? ? [r Hr] Hs']; subst. cbn [snd] in Hr.
    assert (~ In key (map fst done)) as Hdone.
    { intros Hin. apply (Hdisj key Hin). left. reflexivity. }
    assert (~ In key (map fst (flat_map clone_field rest))) as Hrest.
    { intros Hin. apply Hkey. apply keys_clone. exact Hin. }
    assert (delete key (done ++ clone_field (key, val) ++ flat_map clone_field rest)
            = (done ++ flat_map clone_field rest)%list) as Hdel.
    { rewrite !delete_app, delete_clone_field,
        (delete_absent key done Hdone), (delete_absent key _ Hrest). reflexivity. }
    assert (forall done' : list (string * JsValue),
              (forall k, In k (map fst done') -> k = key \/ In k (map fst done)) ->
              forall k, In k (map fst done') -> ~ In k (map fst rest)) as Hdisj'.
    { intros done' Hsub k Hin Hk. destruct (Hsub k Hin) as [-> | Hd].
      - exact (Hkey Hk).
      - apply (Hdisj k Hd). right. exact Hk. }
    assert (forall v, object_loop rest (done ++ (key, v) :: flat_map clone_field rest)
                      = Returns (match (done ++ (key, v) :: flat_map kept_field rest)%list with
                                 | [] => JUndefined
                                 | l => JObject l
                                 end)) as Hnext.
    { intros v.
      change (done ++ (key, v) :: flat_map clone_field rest)%list
        with (done ++ [(key, v)] ++ flat_map clone_field rest)%list.
      change (done ++ (key, v) :: flat_map kept_field rest)%list
        with (done ++ [(key, v)] ++ flat_map kept_field rest)%list.
      rewrite !app_assoc. apply (IH (done ++ [(key, v)])%list Hnd'); [| exact Hs'].
      apply Hdisj'. intros k Hin. rewrite map_app in Hin.
      apply in_app_or in Hin. destruct Hin as [Hin | [<- | []]]; auto. }
    assert (object_loop rest (done ++ flat_map clone_field rest)
            = Returns (match (done ++ flat_map kept_field rest)%list with
                       | [] => JUndefined
                       | l => JObject l
                       end)) as Hskip.
    { apply (IH done Hnd'); [| exact Hs'].
      apply Hdisj'. intros k Hin. right. exact Hin. }
    cbn [object_loop flat_map]. unfold visit.
    destruct (is_blank val) eqn:Hblank.
    + rewrite Hdel, (kept_field_of key val None (keep_blank val Hblank)). exact Hskip.
    + pose proof (not_blank_defined val Hblank) as Hdef.
      rewrite (clone_field_defined key val Hdef) in Hdel |- *. cbn [app] in Hdel |- *.
      destruct (typeof_object val) eqn:Hobj.
      * destruct (doTraverseAndPrune val) as [pruned | e] eqn:Hp.
        2:{ unfold keep in Hr. rewrite Hblank, Hobj, Hp in Hr. discriminate. }
        rewrite (kept_field_of key val _ (keep_pruned val pruned Hblank Hobj Hp)).
        destruct (is_truthy pruned).
        -- rewrite (assign_absent_app key pruned _ done _ Hdone). apply Hnext.
        -- rewrite Hdel. exact Hskip.
      * destruct (scalar_clone val Hblank Hobj) as [Hclone _]. rewrite Hclone.
        rewrite (kept_field_of key val _ (keep_scalar val Hblank Hobj)). apply Hnext.
Qed.


Lemma blank_no_null (val : JsValue) : is_blank val = true -> null_inside val = false.
Proof. destruct val as [| | | | [| ? ?] | [| ? ?] |]; try discriminate; reflexivity. Qed.

Lemma scalar_no_null (val : JsValue) : typeof_object val = false -> null_inside val = false.
Proof. destruct val; try discriminate; reflexivity. Qed.

Lemma visit_null_or_returns {K : Type} (remove : K -> K) (set : JsValue -> K -> K)
    (val : JsValue) (final : K) :
  (val <> JUndefined -> null_or_returns val) ->
  (visit doTraverseAndPrune remove set val final = Throws TypeError_null
   /\ null_inside val = true)
  \/ ((exists final', visit doTraverseAndPrune remove set val final = Returns final')
      /\ null_inside val = false).
Proof.
  intros H. unfold visit. destruct (is_blank val) eqn:Hblank.
  - right. split; [eexists; reflexivity | apply blank_no_null; exact Hblank].
  - destruct (typeof_object val) eqn:Hobj.
    + destruct (H (not_blank_defined val Hblank)) as [[Ht Hn] | [[r Hr] Hn]].
      * left. rewrite Ht. auto.
      * right. rewrite Hr. split; [| exact Hn].
        destruct (is_truthy r); eexists; reflexivity.
    + right. split; [eexists; reflexivity | apply scalar_no_null; exact Hobj].
Qed.

Lemma object_loop_null_or_returns (todo : list (string * JsValue)) :
  Forall (fun field => snd field <> JUndefined -> null_or_returns (snd field)) todo ->
  forall final,
    (object_loop todo final = Throws TypeError_null
     /\ existsb (fun '(_, x) => null_inside x) todo = true)
    \/ ((exists r, object_loop todo final = Returns r)
        /\ existsb (fun '(_, x) => null_inside x) todo = false).
Proof.
  induction todo as [| [key val] rest IH]; intros Hall final.
  - right. split; [| reflexivity]. cbn [object_loop]. destruct final; eexists; reflexivity.
  - inversion Hall as [| ? ? Hval Hrest]; subst. cbn [snd] in Hval.
    cbn [object_loop existsb].
    destruct (visit_null_or_returns (delete key) (assign key) val final Hval)
      as [[Ht Hn] | [[final' Hr] Hn]].
    + left. rewrite Ht, Hn. auto.
    + rewrite Hr, Hn. cbn [orb]. apply IH. exact Hrest.
Qed.

Lemma array_loop_null_or_returns (todo : list (option JsValue)) :
  Forall (fun item => match item with
                      | Some x => x <> JUndefined -> null_or_returns x
                      | None => True
                      end) todo ->
  forall i final,
    (array_loop i todo final = Throws TypeError_null
     /\ existsb (fun item => match item with
                             | Some x => null_inside x
                             | None => false
                             end) todo = true)
    \/ ((exists r, array_loop i todo final = Returns r)
        /\ existsb (fun item => match item with
                                | Some x => null_inside x
                                | None => false
                                end) todo = false).
Proof.
  induction todo as [| [val |] rest IH]; intros Hall i final.
  - right. split; [| reflexivity]. cbn [array_loop].
    destruct (no_items final); eexists; reflexivity.
  - inversion Hall as [| ? ? Hval Hrest]; subst. cbn beta iota in Hval.
    cbn [array_loop existsb].
    destruct (visit_null_or_returns (put i None) (fun v => put i (Some v)) val final Hval)
      as [[Ht Hn] | [[final' Hr] Hn]].
    + left. rewrite Ht, Hn. auto.
    + rewrite Hr, Hn. cbn [orb]. apply IH. exact Hrest.
  - inversion Hall as [| ? ? _ Hrest]; subst.
    cbn [array_loop existsb orb]. apply IH. exact Hrest.
Qed.

Lemma doTraverseAndPrune_null_or_returns (v : JsValue) :
  v <> JUndefined -> null_or_returns v.
Proof.
  induction v as [| | b | n | s | items IH | fields IH] using JsValue_induction;
    intros Hdef.
  - contradiction.
  - left. split; reflexivity.
  - right. split; [eexists; reflexivity | reflexivity].
  - right. split; [eexists; reflexivity | reflexivity].
  - right. split; [| reflexivity]. cbn [doTraverseAndPrune].
    destruct (s =? ""); eexists; reflexivity.
  - unfold null_or_returns. rewrite doTraverseAndPrune_array. cbn [null_inside].
    apply array_loop_null_or_returns. exact IH.
  - unfold null_or_returns. rewrite doTraverseAndPrune_object. cbn [null_inside].
    apply object_loop_null_or_returns. exact IH.
Qed.

Lemma no_null_survives (val : JsValue) : null_inside val = false -> survives val.
Proof.
  intros Hn. unfold survives, keep.
  destruct (is_blank val) eqn:Hblank; [eexists; reflexivity |].
  destruct (typeof_object val); [| eexists; reflexivity].
  destruct (doTraverseAndPrune_null_or_returns val (not_blank_defined val Hblank))
    as [[_ Ht] | [[r Hr] _]].
  - rewrite Ht in Hn. discriminate.
  - rewrite Hr. destruct (is_truthy r); eexists; reflexivity.
Qed.

Lemma fields_survive (fields : list (string * JsValue)) :
  existsb (fun '(_, x) => null_inside x) fields = false ->
  Forall (fun field => survives (snd field)) fields.
Proof.
  induction fields as [| [key val] rest IH]; intros H; [constructor |].
  cbn [existsb] in H. apply orb_false_iff in H. destruct H as [Hv Hrest].
  constructor; [apply no_null_survives; exact Hv | apply IH; exact Hrest].
Qed.


Lemma object_pruned (fields : list (string * JsValue)) :
  NoDup (map fst fields) ->
  null_inside (JObject fields) = false ->
  doTraverseAndPrune (JObject fields) =
    Returns (match flat_map kept_field fields with
             | [] => JUndefined
             | l => JObject l
             end).
Proof.
  intros Hnd Hn. rewrite doTraverseAndPrune_object.
  apply (object_loop_spec fields [] Hnd).
  - intros k [].
  - apply fields_survive. exact Hn.
Qed.




Lemma returns_no_null (v r : JsValue) :
  doTraverseAndPrune v = Returns r -> null_inside v = false.
Proof.
  intros Hr. destruct v; try reflexivity; try discriminate.
  - destruct (doTraverseAndPrune_null_or_returns (JArray items)) as [[Ht _] | [_ Hn]];
      [discriminate | rewrite Ht in Hr; discriminate | exact Hn].
  - destruct (doTraverseAndPrune_null_or_returns (JObject fields)) as [[Ht _] | [_ Hn]];
      [discriminate | rewrite Ht in Hr; discriminate | exact Hn].
Qed.


Lemma lookup_assign_same (key : string) (v : JsValue) (l : list (string * JsValue)) :
  lookup key (assign key v l) = v.
Proof.
  induction l as [| [k x] l IH]; cbn [assign lookup].
  - rewrite String.eqb_refl. reflexivity.
  - destruct (k =? key) eqn:E; cbn [lookup]; rewrite E; [reflexivity | exact IH].
Qed.

Lemma lookup_assign_other (key other : string) (v : JsValue)
    (l : list (string * JsValue)) :
  other <> key -> lookup other (assign key v l) = lookup other l.
Proof.
  intros Hne. induction l as [| [k x] l IH]; cbn [assign lookup].
  - destruct (key =? other) eqn:E; [| reflexivity].
    apply String.eqb_eq in E. subst. contradiction.
  - destruct (k =? key) eqn:E; cbn [lookup].
    + apply String.eqb_eq in E. subst k.
      destruct (key =? other) eqn:E'; [| reflexivity].
      apply String.eqb_eq in E'. subst. contradiction.
    + rewrite IH. reflexivity.
Qed.







(** X26.  [doTraverseAndPrune] fails exactly on [null]: it throws when its
    argument is [undefined] or has a [null] somewhere inside — as a
    property or as an item, at any depth — and otherwise returns; what it
    throws is always the [TypeError] of [Object.keys]. *)
Theorem doTraverseAndPrune_fails_exactly_on_null (v : JsValue) :
  (doTraverseAndPrune v = Throws TypeError_null <-> v = JUndefined \/ null_inside v = true)
  /\ (forall e, doTraverseAndPrune v = Throws e -> e = TypeError_null)
  /\ ((exists r, doTraverseAndPrune v = Returns r)
      <-> v <> JUndefined /\ null_inside v = false).
Proof.
  assert (v = JUndefined \/ v <> JUndefined) as [-> | Hdef]
    by (destruct v; [left; reflexivity | right; discriminate ..]).
  - split; [| split].
    + split; auto.
    + intros e H. injection H as <-. reflexivity.
    + split; [intros [r Hr]; discriminate | intros [H _]; contradiction].
  - destruct (doTraverseAndPrune_null_or_returns v Hdef) as [[Ht Hn] | [[r Hr] Hn]].
    + split; [| split].
      * split; [intros _; right; exact Hn | intros _; exact Ht].
      * intros e H. rewrite Ht in H. injection H as <-. reflexivity.
      * split; [intros [r Hr]; rewrite Ht in Hr; discriminate |].
        intros [_ H]. rewrite Hn in H. discriminate.
    + split; [| split].
      * split; [intros H; rewrite Hr in H; discriminate |].
        intros [H | H]; [contradiction | rewrite Hn in H; discriminate].
      * intros e H. rewrite Hr in H. discriminate.
      * split; [intros _; split; [exact Hdef | exact Hn] | intros _; eexists; exact Hr].
Qed.

Lemma keep_returns_no_null (val : JsValue) (r : option JsValue) :
  keep val = Returns r -> null_inside val = false.
Proof.
  unfold keep. destruct (is_blank val) eqn:Hblank; [intros _; apply blank_no_null; exact Hblank |].
  destruct (typeof_object val) eqn:Hobj; [| intros _; apply scalar_no_null; exact Hobj].
  destruct (doTraverseAndPrune val) as [pruned | e] eqn:Hp; [| discriminate].
  intros _. exact (returns_no_null val pruned Hp).
Qed.

(** X27.  [finalizeConfig] is the pruning with a name and a target put on
    top.  When it returns, the configuration pruned was an object, the
    result is an object whose [name] is the name given, and every other
    property but [invokeTarget] is as the pruning left it. *)
Theorem finalizeConfig_is_the_pruning_with_the_name_given
    (isTemplateTargetProperties isCodeTargetProperties : JsValue -> bool)
    (config : list (string * JsValue)) (name : string) (r : JsValue) :
  finalizeConfig isTemplateTargetProperties isCodeTargetProperties config name = Returns r ->
  exists pruned fields,
    doTraverseAndPrune (JObject config) = Returns (JObject pruned)
    /\ r = JObject fields
    /\ lookup "name" fields = JString name
    /\ (forall key, key <> "name" -> key <> "invokeTarget" ->
          lookup key fields = lookup key pruned).
Proof.
  unfold finalizeConfig.
  destruct (doTraverseAndPrune (JObject config)) as [[| | | | | | pruned] | e];
    try discriminate.
  assert (forall target, lookup "name" (assign "invokeTarget" target
                                          (assign "name" (JString name) pruned))
                         = JString name) as Hname.
  { intros target. rewrite lookup_assign_other by discriminate. apply lookup_assign_same. }
  assert (forall target key, key <> "name" -> key <> "invokeTarget" ->
            lookup key (assign "invokeTarget" target (assign "name" (JString name) pruned))
            = lookup key pruned) as Hother.
  { intros target key H1 H2. rewrite !lookup_assign_other by assumption. reflexivity. }
  destruct (isTemplateTargetProperties (lookup "invokeTarget" config)).
  - destruct (rebuilt (lookup "invokeTarget" config) "logicalId" "templatePath")
      as [target | e]; [| discriminate].
    intros H. injection H as <-. exists pruned. eexists.
    split; [reflexivity |]. split; [reflexivity |]. split; [apply Hname | apply Hother].
  - destruct (isCodeTargetProperties (lookup "invokeTarget" config)).
    + destruct (rebuilt (lookup "invokeTarget" config) "lambdaHandler" "projectRoot")
        as [target | e]; [| discriminate].
      intros H. injection H as <-. exists pruned. eexists.
      split; [reflexivity |]. split; [reflexivity |]. split; [apply Hname | apply Hother].
    + intros H. injection H as <-. exists pruned. eexists.
      split; [reflexivity |]. split; [reflexivity |].
      split; [apply lookup_assign_same |].
      intros key H1 _. apply lookup_assign_other. exact H1.
Qed.

Lemma finalizeConfig_is_the_pruning_with_the_name_given_witness :
  exists pruned fields,
    doTraverseAndPrune (JObject sample_launch) = Returns (JObject pruned)
    /\ JObject
         [("type", JString "aws-sam");
          ("invokeTarget",
           JObject [("target", JString "template"); ("logicalId", JString "Fn");
                    ("templatePath", JString "template.yaml")]);
          ("lambda", JObject [("environmentVariables", JObject [("STAGE", JString "dev")])]);
          ("sam", JObject [("containerBuild", JBool false)]);
          ("name", JString "my launch")]
       = JObject fields
    /\ lookup "name" fields = JString "my launch"
    /\ (forall key, key <> "name" -> key <> "invokeTarget" ->
          lookup key fields = lookup key pruned).
Proof.
  apply (finalizeConfig_is_the_pruning_with_the_name_given
           (target_is "template") (target_is "code") sample_launch "my launch").
  reflexivity.
Defined.

(** X28.  A configuration of which the pruning leaves nothing cannot be
    finalized: when every property of a configuration with distinct keys is
    dropped by its visit, [finalizeConfig] throws the [TypeError] of
    assigning [name] to [undefined], whatever the name and the guards. *)
Theorem finalizeConfig_fails_when_nothing_is_left
    (isTemplateTargetProperties isCodeTargetProperties : JsValue -> bool)
    (config : list (string * JsValue)) (name : string) :
  NoDup (map fst config) ->
  Forall (fun field => keep (snd field) = Returns None) config ->
  finalizeConfig isTemplateTargetProperties isCodeTargetProperties config name
  = Throws TypeError_set.
Proof.
  intros Hnd Hall. unfold finalizeConfig.
  assert (null_inside (JObject config) = false) as Hn.
  { cbn [null_inside]. clear Hnd.
    induction Hall as [| [key val] rest Hk _ IH]; [reflexivity |].
    cbn [existsb]. cbn [snd] in Hk. rewrite (keep_returns_no_null val None Hk). exact IH. }
  rewrite (object_pruned config Hnd Hn).
  replace (flat_map kept_field config) with (@nil (string * JsValue)); [reflexivity |].
  clear Hnd Hn. induction Hall as [| [key val] rest Hk _ IH]; [reflexivity |].
  cbn [flat_map]. cbn [snd] in Hk. rewrite (kept_field_of key val None Hk). exact IH.
Qed.

Lemma finalizeConfig_fails_when_nothing_is_left_witness :
  finalizeConfig (target_is "template") (target_is "code")
    [("name", JString ""); ("lambda", JObject [("payload", JObject [])])] "my launch"
  = Throws TypeError_set.
Proof.
  apply (finalizeConfig_fails_when_nothing_is_left
           (target_is "template") (target_is "code")
           [("name", JString ""); ("lambda", JObject [("payload", JObject [])])]
           "my launch").
  - apply unique_NoDup. reflexivity.
  - repeat constructor.
Defined.

(** X29.  [finalizeConfig] takes the invoke target from the configuration
    as it was, not as it was pruned.  For a configuration whose
    [invokeTarget] is an object: when the first guard accepts it, the
    target of the result has exactly [target], [logicalId] and
    [templatePath], when only the second does, exactly [target],
    [lambdaHandler] and [projectRoot], each as read from the unpruned
    target, be it empty or missing; when neither does, the target is the
    pruned one. *)
Theorem finalizeConfig_takes_the_target_from_the_unpruned_configuration
    (isTemplateTargetProperties isCodeTargetProperties : JsValue -> bool)
    (config target : list (string * JsValue)) (name : string) (r : JsValue) :
  lookup "invokeTarget" config = JObject target ->
  finalizeConfig isTemplateTargetProperties isCodeTargetProperties config name = Returns r ->
  exists pruned fields,
    doTraverseAndPrune (JObject config) = Returns (JObject pruned)
    /\ r = JObject fields
    /\ lookup "invokeTarget" fields =
         if isTemplateTargetProperties (JObject target) then
           JObject [("target", lookup "target" target);
                    ("logicalId", lookup "logicalId" target);
                    ("templatePath", lookup "templatePath" target)]
         else if isCodeTargetProperties (JObject target) then
           JObject [("target", lookup "target" target);
                    ("lambdaHandler", lookup "lambdaHandler" target);
                    ("projectRoot", lookup "projectRoot" target)]
         else lookup "invokeTarget" pruned.
Proof.
  intros Ht. unfold finalizeConfig. rewrite Ht.
  destruct (doTraverseAndPrune (JObject config)) as [[| | | | | | pruned] | e];
    try discriminate.
  destruct (isTemplateTargetProperties (JObject target)).
  - cbn [rebuilt member]. intros H. injection H as <-. exists pruned. eexists.
    split; [reflexivity |]. split; [reflexivity |]. apply lookup_assign_same.
  - destruct (isCodeTargetProperties (JObject target)).
    + cbn [rebuilt member]. intros H. injection H as <-. exists pruned. eexists.
      split; [reflexivity |]. split; [reflexivity |]. apply lookup_assign_same.
    + intros H. injection H as <-. exists pruned. eexists.
      split; [reflexivity |]. split; [reflexivity |].
      apply lookup_assign_other. discriminate.
Qed.

Lemma finalizeConfig_takes_the_target_from_the_unpruned_configuration_witness :
  exists pruned fields,
    doTraverseAndPrune
      (JObject [("type", JString "aws-sam");
                ("invokeTarget",
                 JObject [("target", JString "code"); ("lambdaHandler", JString "");
                          ("projectRoot", JString "src")])])
    = Returns (JObject pruned)
    /\ JObject [("type", JString "aws-sam");
                ("invokeTarget",
                 JObject [("target", JString "code"); ("lambdaHandler", JString "");
                          ("projectRoot", JString "src")]);
                ("name", JString "my launch")]
       = JObject fields
    /\ lookup "invokeTarget" fields =
         if target_is "template"
              (JObject [("target", JString "code"); ("lambdaHandler", JString "");
                        ("projectRoot", JString "src")])
         then JObject [("target", JString "code"); ("logicalId", JUndefined);
                       ("templatePath", JUndefined)]
         else if target_is "code"
                   (JObject [("target", JString "code"); ("lambdaHandler", JString "");
                             ("projectRoot", JString "src")])
         then JObject [("target", JString "code"); ("lambdaHandler", JString "");
                       ("projectRoot", JString "src")]
         else lookup "invokeTarget" pruned.
Proof.
  apply (finalizeConfig_takes_the_target_from_the_unpruned_configuration
           (target_is "template") (target_is "code")
           [("type", JString "aws-sam");
            ("invokeTarget",
             JObject [("target", JString "code"); ("lambdaHandler", JString "");
                      ("projectRoot", JString "src")])]
           [("target", JString "code"); ("lambdaHandler", JString "");
            ("projectRoot", JString "src")]
           "my launch").
  - reflexivity.
  - reflexivity.
Defined.

End Pruning.
